(** * Flora-Imagenes: the folder reconciler [plantas/nombre.py] and
      [optimize_image] of [scripts/optimize_images.py]

    The reconciler reads scientific names from a spreadsheet column, looks
    for the most similar entry of [ruta_base] with
    [difflib.get_close_matches], renames it to the name with underscores and
    renumbers the images inside.  The embedding keeps the shape of the
    script: a small state-and-exception monad over a model of the directory
    tree, the loop over the names as a monadic fold, the loop over the
    images as a monadic fold that carries [contador].  The trace of a run
    records every [os.rename] call and every printed line, in order.

    What the model assumes: names are strings of one-byte characters
    without path separators; the file system compares names exactly;
    [ruta_base] exists; every cell of the column is a string or missing.

    [optimize_image] is embedded over an abstract interface of the image
    library, in the same monad with the library's state and exceptions. *)

From Stdlib Require Import QArith.
From Stdlib Require Import Ascii String DecimalString.
From Stdlib Require DecimalNat.
From stdpp Require Import base decidable option list sorting gmap strings.

Set Warnings "-clear-no-such-hyp".

Local Open Scope string_scope.
Local Open Scope list_scope.
Local Open Scope nat_scope.

(** ** Python strings

    File names and scientific names are modelled as [string], one [ascii]
    per character.  Comparison is by character code, as Python compares
    [str] values; [lower] folds the letters A-Z. *)

Module PyStr.

Definition chars (s : string) : list ascii := list_ascii_of_string s.

(** [s.replace(" ", "_")] *)
Fixpoint replace_space (s : string) : string :=
  match s with
  | EmptyString => EmptyString
  | String c s' =>
      String (if Ascii.eqb c " "%char then "_"%char else c) (replace_space s')
  end.

Definition lower_char (c : ascii) : ascii :=
  let n := nat_of_ascii c in
  if (65 <=? n)%nat && (n <=? 90)%nat then ascii_of_nat (n + 32) else c.

(** [s.lower()] *)
Fixpoint lower (s : string) : string :=
  match s with
  | EmptyString => EmptyString
  | String c s' => String (lower_char c) (lower s')
  end.

(** [s.rfind(".")]: the index of the last dot, if any. *)
Fixpoint rfind_dot (s : string) : option nat :=
  match s with
  | EmptyString => None
  | String c s' =>
      match rfind_dot s' with
      | Some i => Some (S i)
      | None => if Ascii.eqb c "."%char then Some 0%nat else None
      end
  end.

(** Is there a character other than a dot among the first [n]? *)
Fixpoint has_non_dot (n : nat) (s : string) : bool :=
  match n, s with
  | S n', String c s' => negb (Ascii.eqb c "."%char) || has_non_dot n' s'
  | _, _ => false
  end.

Fixpoint drop_chars (n : nat) (s : string) : string :=
  match n, s with
  | S n', String _ s' => drop_chars n' s'
  | _, _ => s
  end.

(** [os.path.splitext(p)[1]] for a name without directory separators:
    the text from the last dot on, unless only dots come before it. *)
Definition splitext_ext (p : string) : string :=
  match rfind_dot p with
  | Some i => if has_non_dot i p then drop_chars i p else ""
  | None => ""
  end.

(** [f"{n:02d}"]: decimal, padded with zeros to two digits. *)
Definition format_02d (n : nat) : string :=
  let s := NilZero.string_of_uint (Nat.to_uint n) in
  if (String.length s <? 2)%nat then "0" +:+ s else s.

(** [sorted(names)]: ascending in the order of [str], which is
    [String.le]. *)
Definition sorted (l : list string) : list string := merge_sort String.le l.

End PyStr.

(** ** difflib

    [difflib] is Python's standard library, not code of this repository.
    The reconciler is defined over any scorer with the three ratios that
    [get_close_matches] consults; [Difflib] below follows CPython's
    [SequenceMatcher] (no junk predicate, [autojunk] on) so that the
    script can be evaluated on concrete directories.  The ratios are
    rationals: [2.0 * matches / length] on floats orders and compares with
    [0.6] like the exact quotient for any length a file name can have. *)

Class Matcher := {
  (** [SequenceMatcher(a=x, b=word).real_quick_ratio()] as [real_quick_ratio x word] *)
  real_quick_ratio : string → string → Q;
  quick_ratio : string → string → Q;
  ratio : string → string → Q
}.

Module Difflib.

(** [_calculate_ratio(matches, length)] *)
Definition calculate_ratio (matches length : nat) : Q :=
  match length with
  | O => 1
  | S _ => Qmake (Z.of_nat (2 * matches)) (Pos.of_nat length)
  end.

(** [__chain_b]: with 200 or more elements in [b], an element that occurs
    more than [n // 100 + 1] times is popular and is dropped from [b2j]. *)
Definition popular (b : list ascii) (c : ascii) : bool :=
  (200 <=? length b)%nat
  && (length b / 100 + 1 <? count_occ ascii_dec b c)%nat.

(** One pass of the inner loop of [find_longest_match] for the element
    [ai]: [newj2len], as the list of its values at [j = 0, 1, ...]
    (0 where the dictionary has no key). *)
Definition new_j2len (b : list ascii) (blo bhi : nat) (ai : ascii)
    (j2len : list nat) : list nat :=
  imap (λ j bj,
    if Ascii.eqb ai bj && negb (popular b ai)
       && (blo <=? j)%nat && (j <? bhi)%nat
    then S (match j with O => O | S j' => default O (j2len !! j') end)
    else O) b.

(** [besti, bestj, bestsize] after the row of [i]: a strictly longer run
    replaces the best one, scanning [j] upwards. *)
Definition update_best (i : nat) (row : list nat) (best : nat * nat * nat)
    : nat * nat * nat :=
  foldl (λ best jk,
    let '(j, k) := jk in
    let '(_, _, bestsize) := best in
    if (bestsize <? k)%nat then (S i - k, S j - k, k)%nat else best)
    best (imap (λ j k, (j, k)) row).

Fixpoint scan_rows (a b : list ascii) (blo bhi : nat) (rows : list nat)
    (j2len : list nat) (best : nat * nat * nat) : nat * nat * nat :=
  match rows with
  | [] => best
  | i :: is' =>
      match a !! i with
      | Some ai =>
          let row := new_j2len b blo bhi ai j2len in
          scan_rows a b blo bhi is' row (update_best i row best)
      | None => best
      end
  end.

(** The first [while] after the scan: extend the match to the left. *)
Fixpoint extend_left (fuel : nat) (a b : list ascii) (alo blo : nat)
    (best : nat * nat * nat) : nat * nat * nat :=
  let '(besti, bestj, bestsize) := best in
  match fuel with
  | O => best
  | S fuel' =>
      if (alo <? besti)%nat && (blo <? bestj)%nat
         && bool_decide (a !! (besti - 1)%nat = b !! (bestj - 1)%nat)
      then extend_left fuel' a b alo blo
             (besti - 1, bestj - 1, S bestsize)%nat
      else best
  end.

(** The second [while]: extend it to the right. *)
Fixpoint extend_right (fuel : nat) (a b : list ascii) (ahi bhi : nat)
    (best : nat * nat * nat) : nat * nat * nat :=
  let '(besti, bestj, bestsize) := best in
  match fuel with
  | O => best
  | S fuel' =>
      if (besti + bestsize <? ahi)%nat && (bestj + bestsize <? bhi)%nat
         && bool_decide (a !! (besti + bestsize)%nat = b !! (bestj + bestsize)%nat)
      then extend_right fuel' a b ahi bhi (besti, bestj, S bestsize)
      else best
  end.

(** [find_longest_match(alo, ahi, blo, bhi)].  No element is junk, so the
    two loops that extend over junk do nothing. *)
Definition find_longest_match (a b : list ascii) (alo ahi blo bhi : nat)
    : nat * nat * nat :=
  let best := scan_rows a b blo bhi (seq alo (ahi - alo)) [] (alo, blo, O) in
  let best := extend_left (length a) a b alo blo best in
  extend_right (length a) a b ahi bhi best.

(** The sum of the sizes of [get_matching_blocks()]: the longest match,
    then the blocks to its left and to its right. *)
Fixpoint matches (fuel : nat) (a b : list ascii) (alo ahi blo bhi : nat) : nat :=
  match fuel with
  | O => O
  | S fuel' =>
      let '(i, j, k) := find_longest_match a b alo ahi blo bhi in
      match k with
      | O => O
      | S _ =>
          (k
           + (if (alo <? i)%nat && (blo <? j)%nat
              then matches fuel' a b alo i blo j else O)
           + (if (i + k <? ahi)%nat && (j + k <? bhi)%nat
              then matches fuel' a b (i + k) ahi (j + k) bhi else O))%nat
      end
  end.

Definition seq_ratio (a b : list ascii) : Q :=
  calculate_ratio (matches (S (length a)) a b 0 (length a) 0 (length b))
                  (length a + length b).

Fixpoint remove_first (x : ascii) (b : list ascii) : list ascii :=
  match b with
  | [] => []
  | y :: b' => if Ascii.eqb x y then b' else y :: remove_first x b'
  end.

(** [quick_ratio]: every element of [a] uses up one occurrence in [b]. *)
Fixpoint quick_matches (a b : list ascii) : nat :=
  match a with
  | [] => O
  | x :: a' =>
      if bool_decide (x ∈ b)
      then S (quick_matches a' (remove_first x b))
      else quick_matches a' b
  end.

Definition seq_quick_ratio (a b : list ascii) : Q :=
  calculate_ratio (quick_matches a b) (length a + length b).

Definition seq_real_quick_ratio (a b : list ascii) : Q :=
  calculate_ratio (length a `min` length b) (length a + length b).

Definition matcher : Matcher := {|
  real_quick_ratio x word := seq_real_quick_ratio (PyStr.chars x) (PyStr.chars word);
  quick_ratio x word := seq_quick_ratio (PyStr.chars x) (PyStr.chars word);
  ratio x word := seq_ratio (PyStr.chars x) (PyStr.chars word)
|}.

End Difflib.

(** ** [difflib.get_close_matches(word, possibilities, n=1, cutoff=0.6)] *)

Definition cutoff : Q := 6 # 10.

Definition Qgeb (x y : Q) : bool := Qle_bool y x.
Definition Qgtb (x y : Q) : bool := negb (Qle_bool x y).

(** [(score1, x1) > (score2, x2)] on Python tuples. *)
Definition tuple_gt (t1 t2 : Q * string) : bool :=
  Qgtb t1.1 t2.1 || (Qeq_bool t1.1 t2.1 && String.ltb t2.2 t1.2).

(** [max(it, default=sentinel)]: the first of the greatest items. *)
Definition py_max (items : list (Q * string)) : option (Q * string) :=
  foldl (λ best item,
    match best with
    | None => Some item
    | Some b => if tuple_gt item b then Some item else Some b
    end) None items.

Section matching.
Context `{Matcher}.

Definition close_enough (word x : string) : bool :=
  Qgeb (real_quick_ratio x word) cutoff
  && Qgeb (quick_ratio x word) cutoff
  && Qgeb (ratio x word) cutoff.

(** [result]: the scored possibilities that pass the three tests. *)
Definition scored (word : string) (possibilities : list string)
    : list (Q * string) :=
  (λ x, (ratio x word, x)) <$> filter (λ x, close_enough word x) possibilities.

(** [heapq.nlargest(1, result)] is [max(result)] when there is one, and
    the scores are stripped from what is returned. *)
Definition get_close_matches (word : string) (possibilities : list string)
    : list string :=
  match py_max (scored word possibilities) with
  | None => []
  | Some (_, x) => [x]
  end.
End matching.

(** ** The directory tree under [ruta_base] and the effects of the script *)

Inductive platform := Windows | Posix.

(** An entry of [ruta_base]: a plain file, or a directory with the names
    it holds. *)
Inductive entry :=
| File
| Dir (names : gset string).

Inductive exn :=
| FileNotFoundError
| FileExistsError
| NotADirectoryError
| IsADirectoryError
| DirectoryNotEmpty.   (* OSError, ENOTEMPTY *)

(** The lines the script prints. *)
Inductive message :=
| NoEncontrada (nombre_cientifico : string)
| CarpetaRenombrada (carpeta_encontrada nombre_carpeta_objetivo : string)
| ImagenRenombrada (archivo nuevo_nombre : string)
| YaExiste (nuevo_nombre : string).

(** What a run does, in order: the [os.rename] calls it issues (of an entry
    of [ruta_base], or of a name inside one of its directories) and the
    lines it prints. *)
Inductive event :=
| DirRename (src dst : string)
| FileRename (dir src dst : string)
| Print (line : message).

Record world := World {
  tree : gmap string entry;
  trace : list event
}.

(** A computation reads and updates a state, and returns or raises. *)
Inductive result (E A : Type) :=
| Ok (a : A)
| Raise (e : E).
Arguments Ok {E A} a.
Arguments Raise {E A} e.

Definition SE (W E A : Type) : Type := W → result E A * W.

#[global] Instance SE_ret {W E} : MRet (SE W E) := λ A a w, (Ok a, w).
#[global] Instance SE_bind {W E} : MBind (SE W E) := λ A B f m w,
  match m w with
  | (Ok a, w') => f a w'
  | (Raise e, w') => (Raise e, w')
  end.

(** The computations of [nombre.py]. *)
Abbreviation M := (SE world exn).

Definition raise {A} (e : exn) : M A := λ w, (Raise e, w).
Definition get_tree : M (gmap string entry) := λ w, (Ok (tree w), w).
Definition put_tree (t : gmap string entry) : M unit :=
  λ w, (Ok tt, World t (trace w)).
Definition emit (ev : event) : M unit :=
  λ w, (Ok tt, World (tree w) (trace w ++ [ev])).
Definition print (line : message) : M unit := emit (Print line).

(** [for x in xs: acc = body(acc, x)] *)
Fixpoint for_each {A S : Type} (body : S → A → M S) (xs : list A) (acc : S) : M S :=
  match xs with
  | [] => mret acc
  | x :: xs' => acc' ← body acc x; for_each body xs' acc'
  end.

Section os.
Variable plat : platform.

(** [os.listdir(ruta_base)], in no particular order. *)
Definition listdir_base : M (list string) :=
  t ← get_tree; mret (elements (dom t)).

(** [os.listdir(os.path.join(ruta_base, dir))] *)
Definition listdir (dir : string) : M (list string) :=
  t ← get_tree;
  match t !! dir with
  | Some (Dir names) => mret (elements names)
  | Some File => raise NotADirectoryError
  | None => raise FileNotFoundError
  end.

(** [os.path.exists(os.path.join(ruta_base, dir, name))] *)
Definition path_exists (dir name : string) : M bool :=
  t ← get_tree;
  match t !! dir with
  | Some (Dir names) => mret (bool_decide (name ∈ names))
  | _ => mret false
  end.

(** [os.rename] of an entry of [ruta_base].  With the destination
    present, Windows always fails; POSIX replaces a file by a file and an
    empty directory by a directory, and fails otherwise. *)
Definition rename_entry (src dst : string) : M unit :=
  emit (DirRename src dst);;
  t ← get_tree;
  match t !! src with
  | None => raise FileNotFoundError
  | Some e =>
      if bool_decide (src = dst) then mret tt else
      match t !! dst with
      | None => put_tree (<[dst := e]> (delete src t))
      | Some e' =>
          match plat, e, e' with
          | Windows, _, _ => raise FileExistsError
          | Posix, File, File => put_tree (<[dst := e]> (delete src t))
          | Posix, File, Dir _ => raise IsADirectoryError
          | Posix, Dir _, File => raise NotADirectoryError
          | Posix, Dir _, Dir names' =>
              if bool_decide (names' = ∅)
              then put_tree (<[dst := e]> (delete src t))
              else raise DirectoryNotEmpty
          end
      end
  end.

(** [os.rename] of a name inside the directory [dir] of [ruta_base]. *)
Definition rename_file (dir src dst : string) : M unit :=
  emit (FileRename dir src dst);;
  t ← get_tree;
  match t !! dir with
  | None => raise FileNotFoundError
  | Some File => raise NotADirectoryError
  | Some (Dir names) =>
      if bool_decide (src ∈ names) then
        if bool_decide (src = dst) then mret tt else
        if bool_decide (dst ∈ names) then
          match plat with
          | Windows => raise FileExistsError
          | Posix => put_tree (<[dir := Dir (names ∖ {[src]})]> t)
          end
        else put_tree (<[dir := Dir ({[dst]} ∪ names ∖ {[src]})]> t)
      else raise FileNotFoundError
  end.
End os.

(** ** [plantas/nombre.py] *)

(** [excel_data['nombre_cientifico'].dropna().tolist()]: the cells of the
    column in row order, the missing ones left out. *)
Definition nombres_cientificos (column : list (option string)) : list string :=
  omap id column.

Definition extensiones_validas : list string := [".jpg"; ".jpeg"; ".png"; ".JPG"].

(** [f"{nombre_carpeta_objetivo}_{contador:02d}{ext}"] *)
Definition nuevo_nombre (objetivo : string) (contador : nat) (ext : string) : string :=
  objetivo +:+ "_" +:+ PyStr.format_02d contador +:+ ext.

Section nombre.
Context `{Matcher}.
Variable plat : platform.

(** The body of [for archivo in imagenes], from [contador] to its value
    after the iteration. *)
Definition renombrar_imagen (objetivo : string) (contador : nat)
    (archivo : string) : M nat :=
  let ext := PyStr.lower (PyStr.splitext_ext archivo) in
  if bool_decide (ext ∈ extensiones_validas) then
    let nuevo := nuevo_nombre objetivo contador ext in
    existe ← path_exists objetivo nuevo;
    if negb existe then
      rename_file plat objetivo archivo nuevo;;
      print (ImagenRenombrada archivo nuevo);;
      mret (S contador)
    else
      print (YaExiste nuevo);;
      mret contador
  else mret contador.

(** The body of [for nombre_cientifico in nombres_cientificos]. *)
Definition renombrar_carpeta (nombre_cientifico : string) : M unit :=
  let objetivo := PyStr.replace_space nombre_cientifico in
  carpetas_actuales ← listdir_base;
  match get_close_matches objetivo carpetas_actuales with
  | [] => print (NoEncontrada nombre_cientifico)
  | encontrada :: _ =>
      (if bool_decide (encontrada ≠ objetivo) then
         rename_entry plat encontrada objetivo;;
         print (CarpetaRenombrada encontrada objetivo)
       else mret tt);;
      nombres ← listdir objetivo;
      let imagenes := PyStr.sorted nombres in
      for_each (renombrar_imagen objetivo) imagenes 1%nat;;
      mret tt
  end.

(** The script from line 16 on. *)
Definition main (nombres : list string) : M unit :=
  for_each (λ _ nombre, renombrar_carpeta nombre) nombres tt.

(** A run of the script on a directory tree, with nothing printed yet. *)
Definition run (nombres : list string) (t : gmap string entry) : result exn unit * world :=
  main nombres (World t []).
End nombre.

(** ** [scripts/optimize_images.py]: [optimize_image]

    The image library (Pillow) and [os.path.getsize] are collaborators:
    each call reads and updates a state of files and codec that is left
    abstract, and returns or raises an instance of [Exception], of which
    the function only looks at [str(e)].  Sizes in KB are rationals and
    [round] is the collaborator's. *)

Module OptimizeImages.

Record pyexn := PyException { exn_str : string }.

Definition ZeroDivisionError : pyexn := PyException "float division by zero".
Definition IndexError : pyexn := PyException "tuple index out of range".

(** The values the returned dictionary holds. *)
Inductive value :=
| VBool (b : bool)
| VNum (q : Q)
| VStr (s : string).

Class Collaborators (W Img : Type) := {
  (** [Image.open(path)] and the [__exit__] of the image it returns *)
  Image_open : string → SE W pyexn Img;
  Image_exit : Img → SE W pyexn unit;
  (** [img.mode], [img.size] *)
  mode : Img → string;
  size : Img → nat * nat;
  (** [Image.new(mode, size, color)] *)
  Image_new : string → nat * nat → nat * nat * nat → SE W pyexn Img;
  (** [img.convert(mode)] *)
  convert : Img → string → SE W pyexn Img;
  (** [img.split()] *)
  split : Img → SE W pyexn (list Img);
  (** [dest.paste(src, mask=...)], giving [dest] as it is afterwards *)
  paste : Img → Img → option Img → SE W pyexn Img;
  (** [img.thumbnail(size, LANCZOS)], giving [img] as it is afterwards *)
  thumbnail : Img → nat * nat → SE W pyexn Img;
  (** [img.save(path, 'JPEG', quality=quality, optimize=True)] *)
  save : Img → string → nat → SE W pyexn unit;
  (** [os.path.getsize(path)] *)
  getsize : string → SE W pyexn nat;
  (** [round(x, ndigits)] *)
  py_round : Q → nat → Q
}.

Section optimize_image.
Context `{Collaborators W Img}.

Definition throw {A} (e : pyexn) : SE W pyexn A := λ w, (Raise e, w).

(** [with mgr as x: body]: [__exit__] runs however the body ends, and an
    exception of [__exit__] replaces the outcome of the body. *)
Definition with_as {A B} (mgr : SE W pyexn A) (exit : A → SE W pyexn unit)
    (body : A → SE W pyexn B) : SE W pyexn B :=
  λ w,
    match mgr w with
    | (Raise e, w1) => (Raise e, w1)
    | (Ok x, w1) =>
        let '(r, w2) := body x w1 in
        match exit x w2 with
        | (Ok _, w3) => (r, w3)
        | (Raise e', w3) => (Raise e', w3)
        end
    end.

(** [try: body / except Exception as e: handler] *)
Definition try_except {A} (body : SE W pyexn A) (handler : pyexn → SE W pyexn A)
    : SE W pyexn A :=
  λ w,
    match body w with
    | (Ok a, w1) => (Ok a, w1)
    | (Raise e, w1) => handler e w1
    end.

(** [x / y] on floats *)
Definition truediv (x y : Q) : SE W pyexn Q :=
  if Qeq_bool y 0 then throw ZeroDivisionError else mret (x / y)%Q.

(** [xs[-1]] *)
Definition last_item {A} (xs : list A) : SE W pyexn A :=
  match last xs with
  | Some x => mret x
  | None => throw IndexError
  end.

(** ['A' in s] *)
Fixpoint contains_A (s : string) : bool :=
  match s with
  | EmptyString => false
  | String c s' => Ascii.eqb c "A"%char || contains_A s'
  end.

Definition kb (bytes : nat) : Q := Qmake (Z.of_nat bytes) 1024.

(** Lines 18-27: onto a white RGB image when the mode has transparency or
    a palette or is greyscale. *)
Definition to_rgb (img : Img) : SE W pyexn Img :=
  if bool_decide (mode img ∈ ["RGBA"; "LA"; "L"; "P"]) then
    rgb_img ← Image_new "RGB" (size img) (255, 255, 255);
    img ← (if bool_decide (mode img = "P") then convert img "RGBA" else mret img);
    rgb_img ← (if contains_A (mode img) then
                 bands ← split img;
                 mask ← last_item bands;
                 paste rgb_img img (Some mask)
               else paste rgb_img img None);
    mret rgb_img
  else mret img.

(** Lines 29-34 *)
Definition shrink (img : Img) (max_size : nat * nat) : SE W pyexn (Img * bool) :=
  if ((max_size.1 <? (size img).1) || (max_size.2 <? (size img).2))%nat then
    img ← thumbnail img max_size; mret (img, true)
  else mret (img, false).

(** Lines 16-48, what follows the first [getsize]. *)
Definition after_getsize (image_path : string) (max_size : nat * nat)
    (quality : nat) (img : Img) (bytes : nat) : SE W pyexn (gmap string value) :=
  let original_size := kb bytes in
  img ← to_rgb img;
  '(img, resized) ← shrink img max_size;
  save img image_path quality;;
  bytes' ← getsize image_path;
  let new_size := kb bytes' in
  quotient ← truediv (original_size - new_size)%Q original_size;
  mret ({[ "success" := VBool true;
           "original_kb" := VNum (py_round original_size 2);
           "new_kb" := VNum (py_round new_size 2);
           "reduction" := VNum (py_round (quotient * 100)%Q 1);
           "resized" := VBool resized ]} : gmap string value).

(** The [try] block, lines 14-48. *)
Definition try_block (image_path : string) (max_size : nat * nat)
    (quality : nat) : SE W pyexn (gmap string value) :=
  with_as (Image_open image_path) Image_exit (λ img,
    bytes ← getsize image_path;
    after_getsize image_path max_size quality img bytes).

Definition failure (e : pyexn) : gmap string value :=
  {[ "success" := VBool false; "error" := VStr (exn_str e) ]}.

Definition optimize_image (image_path : string) (max_size : nat * nat)
    (quality : nat) : SE W pyexn (gmap string value) :=
  try_except (try_block image_path max_size quality)
             (λ e, mret (failure e)).

End optimize_image.
End OptimizeImages.

(** ** Traces

    The trace of a computation only grows. *)

Definition grows {A} (m : M A) : Prop :=
  ∀ w r w', m w = (r, w') → trace w `prefix_of` trace w'.

(** Every event that [m] adds to the trace has the property [P]. *)
Definition emits {A} (P : event → Prop) (m : M A) : Prop :=
  ∀ w r w', m w = (r, w') →
    ∃ evs, trace w' = trace w ++ evs ∧ Forall P evs.

Definition not_dir_rename (ev : event) : Prop :=
  match ev with DirRename _ _ => False | _ => True end.

(** [m] first emits [ev], whatever it does next. *)
Definition starts_with {A} (ev : event) (m : M A) : Prop :=
  ∀ w r w', m w = (r, w') → (trace w ++ [ev]) `prefix_of` trace w'.

(** ** The image loop on the set of names

    [extension] and [eligible] name the test of line 42.  [renumber] is the
    loop of lines 40-51 as a function on the names of the directory: the
    counter and the names after the loop and what the loop adds to the
    trace.  [loop_renumber] below shows that the script computes it. *)

Definition extension (archivo : string) : string :=
  PyStr.lower (PyStr.splitext_ext archivo).

Definition eligible (archivo : string) : Prop :=
  extension archivo ∈ extensiones_validas.

#[global] Instance eligible_dec archivo : Decision (eligible archivo).
Proof. unfold eligible. apply _. Defined.
#[global] Typeclasses Opaque eligible.

Fixpoint renumber (objetivo : string) (imagenes : list string) (contador : nat)
    (names : gset string) : nat * gset string * list event :=
  match imagenes with
  | [] => (contador, names, [])
  | archivo :: resto =>
      if bool_decide (eligible archivo) then
        let nuevo := nuevo_nombre objetivo contador (extension archivo) in
        if bool_decide (nuevo ∈ names) then
          let '(c, ns, evs) := renumber objetivo resto contador names in
          (c, ns, Print (YaExiste nuevo) :: evs)
        else
          let '(c, ns, evs) :=
            renumber objetivo resto (S contador) ({[nuevo]} ∪ (names ∖ {[archivo]})) in
          (c, ns, FileRename objetivo archivo nuevo
                  :: Print (ImagenRenombrada archivo nuevo) :: evs)
      else renumber objetivo resto contador names
  end.

(** Replaying the trace on the names of [dir]: every rename inside [dir]
    takes a name that is there to a name that is not. *)
Fixpoint no_clobber (dir : string) (names : gset string) (evs : list event) : Prop :=
  match evs with
  | [] => True
  | FileRename d src dst :: evs' =>
      d = dir ∧ src ∈ names ∧ (dst ∉ names)
      ∧ no_clobber dir ({[dst]} ∪ (names ∖ {[src]})) evs'
  | _ :: evs' => no_clobber dir names evs'
  end.

(** The renames of a trace. *)
Definition is_rename (ev : event) : bool :=
  match ev with
  | DirRename _ _ | FileRename _ _ _ => true
  | Print _ => false
  end.

Definition dir_renames (evs : list event) : list (string * string) :=
  omap (λ ev, match ev with DirRename src dst => Some (src, dst) | _ => None end) evs.

(** A file of the directory carries the counter value [c] behind the
    target name. *)
Definition counter_in_use (objetivo : string) (c : nat) (names : gset string) : Prop :=
  ∃ ext, nuevo_nombre objetivo c ext ∈ names.

(** The counter value [c] is given to a file by a rename of the trace. *)
Definition assigns (objetivo : string) (c : nat) (evs : list event) : Prop :=
  ∃ src ext, FileRename objetivo src (nuevo_nombre objetivo c ext) ∈ evs.

(** The eligible files of a directory share one extension. *)
Definition one_extension (names : gset string) : Prop :=
  ∀ f g, f ∈ names → g ∈ names → eligible f → eligible g →
         extension f = extension g.

(** Every eligible file of the directory finds its candidate for the
    counter 1 taken. *)
Definition settled (objetivo : string) (names : gset string) : Prop :=
  ∀ f, f ∈ names → eligible f → nuevo_nombre objetivo 1 (extension f) ∈ names.

(** The names and the trace of a loop in which every candidate is free:
    the [i]-th eligible file of the listing gets the counter [contador + i]. *)
Definition renamed_to (objetivo : string) (contador : nat) (elegibles : list string) : list string :=
  imap (λ i f, nuevo_nombre objetivo (contador + i) (extension f)) elegibles.

Definition rename_events (objetivo : string) (contador : nat) (elegibles : list string) : list event :=
  mjoin (imap (λ i f,
    let nuevo := nuevo_nombre objetivo (contador + i) (extension f) in
    [FileRename objetivo f nuevo; Print (ImagenRenombrada f nuevo)]) elegibles).

(** What follows the rename of the directory, lines 36-51. *)
Definition renombrar_imagenes (plat : platform) (objetivo : string) : M unit :=
  nombres ← listdir objetivo;
  for_each (renombrar_imagen plat objetivo) (PyStr.sorted nombres) 1;;
  mret tt.

(** No directory is picked again after it was renamed: no rename of the
    trace starts from the name an earlier rename of the trace led to. *)
Definition claimed_once (evs : list event) : Prop :=
  ∀ i j a b c d, i < j →
    dir_renames evs !! i = Some (a, b) →
    dir_renames evs !! j = Some (c, d) → c ≠ b.

(** The state of the tree that a run keeps up for the targets in [U]: in
    every directory the eligible files share one extension, and under a
    target of [U] there is nothing but a settled directory. *)
Definition well_kept (U : string → Prop) (t : gmap string entry) : Prop :=
  (∀ d names, t !! d = Some (Dir names) → one_extension names)
  ∧ (∀ o e, U o → t !! o = Some e → ∃ names, e = Dir names ∧ settled o names).

(** ** Directory trees and scorers used as examples *)

Definition ficus_tree : gmap string entry := {[ "Ficus_benjamin" := Dir ∅ ]}.

Definition ficus_dir : gset string := {[ "Ficus_benjamina_01.jpg"; "a.jpg" ]}.
Definition ficus_w : world := World {[ "Ficus_benjamina" := Dir ficus_dir ]} [].

(** A scorer that gives every pair the same score ranks the entries by
    name alone, so it can prefer another entry to the one that is named
    like the target: the rename is then issued onto an existing entry. *)
Definition flat_scorer : Matcher := {|
  real_quick_ratio _ _ := 1%Q;
  quick_ratio _ _ := 1%Q;
  ratio _ _ := 1%Q
|}.


(** The directory of the specification's example. *)
Definition mimosa_dir : gset string := {[ "img1.jpg"; "img2.png"; "foo.txt" ]}.
Definition mimosa : gmap string entry := {[ "Mimosa_pudica" := Dir mimosa_dir ]}.

(** The same directory after a run. *)
Definition mimosa_dir_1 : gset string :=
  {[ "Mimosa_pudica_01.jpg"; "Mimosa_pudica_02.png"; "foo.txt" ]}.
Definition mimosa_1 : gmap string entry := {[ "Mimosa_pudica" := Dir mimosa_dir_1 ]}.

(** [ficus_tree] after the run for the names [Ficus benjamina] and
    [Ficus benjamine]. *)
Definition ficus_tree_1 : gmap string entry := {[ "Ficus_benjamine" := Dir ∅ ]}.

(** Two directories whose images have one extension each, before and
    after a run for [Ficus benjamina] and [Mimosa pudica]. *)
Definition shelf : gmap string entry :=
  {[ "Ficus_benjamin" := Dir {[ "a.jpg"; "b.JPG" ]};
     "Mimosa_pudica" := Dir {[ "x.png" ]} ]}.

Definition shelf_1 : gmap string entry :=
  {[ "Ficus_benjamina" := Dir {[ "Ficus_benjamina_01.jpg"; "Ficus_benjamina_02.jpg" ]};
     "Mimosa_pudica" := Dir {[ "Mimosa_pudica_01.png" ]} ]}.

(** ** The order of the scored possibilities

    [tuple_le t1 t2] is [t1 <= t2] on the tuples [(score, x)]: the score
    decides, and between equal scores the name. *)

Definition tuple_le (t1 t2 : Q * string) : Prop :=
  (t1.1 < t2.1)%Q ∨ ((t1.1 == t2.1)%Q ∧ String.le t1.2 t2.2).

(** Two directories that are similar to [Ficus_benjamina]. *)
Definition ficus_pair : list string := ["Ficus_benjamin"; "Ficus_benjamins"].

(** ** The number of entries of [ruta_base]

    [keeps_entries plat m]: [m] adds no entry to [ruta_base], and on
    Windows it removes none either, whether it returns or raises. *)

Definition keeps_entries {A} (plat : platform) (m : M A) : Prop :=
  ∀ w r w', m w = (r, w') →
    size (tree w') ≤ size (tree w)
    ∧ (plat = Windows → size (tree w') = size (tree w)).

(** A plain file whose name is similar to [Ficus_benjamina]. *)
Definition ficus_file : gmap string entry := {[ "Ficus_benjamin" := File ]}.

(** ** [scripts/optimize_images.py]: [optimize_folder] without recursion,
       the loop of one [os.walk] entry, the report, option 1 of the menu

    The functions print; the state is the collaborators' state together
    with the lines printed so far.  A line is kept as the values it is
    formatted from. *)

Module OptimizeFolder.
Import OptimizeImages.

(** [for x in xs: acc = body(acc, x)] in any state monad of the file. *)
Fixpoint foreach {W E A S : Type} (body : S → A → SE W E S) (xs : list A)
    (acc : S) : SE W E S :=
  match xs with
  | [] => mret acc
  | x :: xs' => acc' ← body acc x; foreach body xs' acc'
  end.

(** [s.endswith(suffix)] *)
Definition endswith (s suffix : string) : bool :=
  (String.length suffix <=? String.length s)
  && String.eqb (PyStr.drop_chars (String.length s - String.length suffix) s) suffix.

Definition extensions : list string :=
  [".jpg"; ".jpeg"; ".png"; ".JPG"; ".JPEG"; ".PNG"].

(** [any(file.endswith(ext) for ext in extensions)] *)
Definition is_image (file : string) : bool :=
  existsb (endswith file) extensions.

(** [file.lower().endswith(('.jpg', '.jpeg', '.png'))], the test of the
    report. *)
Definition is_image_lower (file : string) : bool :=
  existsb (endswith (PyStr.lower file)) [".jpg"; ".jpeg"; ".png"].

Inductive line :=
| Procesando (folder_path : string)
| Carpeta (relpath : string)
(** line 118: file, original_kb, new_kb *)
| Optimizada (file : string) (original_kb new_kb : Q)
(** lines 99-101: file, resize symbol, original_kb, new_kb, reduction
    symbol, reduction *)
| OptimizadaEnCarpeta (file : string) (resized : bool) (original_kb new_kb : Q)
    (reduced : bool) (reduction : value)
(** lines 104 and 121: file, error *)
| ConError (file : string) (error : value)
(** the summary of option 1 *)
| Resumen
| Procesadas (optimized total_images : nat)
| TamanoOriginal (mb : Q)
| TamanoFinal (mb : Q)
| Reduccion (percent : Q)
| CarpetaNoEncontrada (folder : string).

Record fworld (W : Type) := FWorld {
  codec : W;
  printed : list line
}.
Arguments FWorld {W} codec printed.
Arguments codec {W} f.
Arguments printed {W} f.

(** [stats] *)
Record stats := Stats {
  total_images : nat;
  optimized : nat;
  errors : nat;
  total_original_mb : Q;
  total_new_mb : Q;
  folders_processed : nat
}.

Definition stats0 : stats := Stats 0 0 0 0 0 0.

Definition KeyError (key : string) : pyexn := PyException key.
Definition TypeError : pyexn := PyException "unsupported operand type".
Definition ValueError : pyexn := PyException "Unknown format code 'f'".

(** Truth value of what a dictionary holds. *)
Definition truthy (v : value) : bool :=
  match v with
  | VBool b => b
  | VNum q => negb (Qeq_bool q 0)
  | VStr s => negb (String.eqb s "")
  end.

(** The number a value is in arithmetic; a string is none. *)
Definition number (v : value) : option Q :=
  match v with
  | VBool b => Some (if b then 1 else 0)%Q
  | VNum q => Some q
  | VStr _ => None
  end.

Class OsCollaborators (W : Type) := {
  (** [os.listdir(path)] *)
  os_listdir : string → SE W pyexn (list string);
  (** [os.path.exists(path)], [os.path.isdir(path)] *)
  os_path_exists : string → SE W pyexn bool;
  os_path_isdir : string → SE W pyexn bool;
  (** [os.path.join(a, b)], [os.path.relpath(path, start)] *)
  os_path_join : string → string → string;
  os_path_relpath : string → string → string;
  (** [datetime.now().isoformat()] *)
  now_isoformat : SE W pyexn string
}.

Section optimize_folder.
Context `{Collaborators W Img} `{OsCollaborators W}.

Definition lift {A} (m : SE W pyexn A) : SE (fworld W) pyexn A :=
  λ fw, let '(r, w') := m (codec fw) in (r, FWorld w' (printed fw)).

Definition print_line (l : line) : SE (fworld W) pyexn unit :=
  λ fw, (Ok tt, FWorld (codec fw) (printed fw ++ [l])).

Definition fail {A} (e : pyexn) : SE (fworld W) pyexn A := λ fw, (Raise e, fw).

(** [d[key]] *)
Definition getitem (d : gmap string value) (key : string)
    : SE (fworld W) pyexn value :=
  match d !! key with
  | Some v => mret v
  | None => fail (KeyError key)
  end.

(** [v / 1024] *)
Definition div_1024 (v : value) : SE (fworld W) pyexn Q :=
  match number v with
  | Some q => mret (q / 1024)%Q
  | None => fail TypeError
  end.

(** [f"{v:.1f}"], kept as the number that is formatted *)
Definition format_1f (v : value) : SE (fworld W) pyexn Q :=
  match number v with
  | Some q => mret q
  | None => fail ValueError
  end.

(** [v > 0] *)
Definition greater_than_0 (v : value) : SE (fworld W) pyexn bool :=
  match number v with
  | Some q => mret (negb (Qle_bool q 0))
  | None => fail TypeError
  end.

(** Lines 108-121: one listed file of the folder. *)
Definition optimizar_archivo (folder_path : string) (st : stats) (file : string)
    : SE (fworld W) pyexn stats :=
  if is_image file then
    let file_path := os_path_join folder_path file in
    let st := Stats (S (total_images st)) (optimized st) (errors st)
                (total_original_mb st) (total_new_mb st) (folders_processed st) in
    result ← lift (optimize_image file_path (1920, 1920) 85);
    success ← getitem result "success";
    if truthy success then
      let st := Stats (total_images st) (S (optimized st)) (errors st)
                  (total_original_mb st) (total_new_mb st) (folders_processed st) in
      original_kb ← getitem result "original_kb";
      original_mb ← div_1024 original_kb;
      let st := Stats (total_images st) (optimized st) (errors st)
                  (total_original_mb st + original_mb) (total_new_mb st)
                  (folders_processed st) in
      new_kb ← getitem result "new_kb";
      new_mb ← div_1024 new_kb;
      let st := Stats (total_images st) (optimized st) (errors st)
                  (total_original_mb st) (total_new_mb st + new_mb)
                  (folders_processed st) in
      original_kb ← getitem result "original_kb";
      original_1f ← format_1f original_kb;
      new_kb ← getitem result "new_kb";
      new_1f ← format_1f new_kb;
      print_line (Optimizada file original_1f new_1f);;
      mret st
    else
      let st := Stats (total_images st) (optimized st) (S (errors st))
                  (total_original_mb st) (total_new_mb st) (folders_processed st) in
      error ← getitem result "error";
      print_line (ConError file error);;
      mret st
  else mret st.

(** [optimize_folder(folder_path, recursive=False)]: lines 59-70 and
    107-123. *)
Definition optimize_folder_no_recursive (folder_path : string)
    : SE (fworld W) pyexn stats :=
  print_line (Procesando folder_path);;
  files ← lift (os_listdir folder_path);
  foreach (optimizar_archivo folder_path) files stats0.

(** Lines 78-104: one file of an entry [(root, dirs, files)] of
    [os.walk(folder_path)]; [folder_has_images] goes along with [stats]. *)
Definition optimizar_archivo_en_carpeta (folder_path root : string)
    (acc : bool * stats) (file : string) : SE (fworld W) pyexn (bool * stats) :=
  let '(folder_has_images, st) := acc in
  if is_image file then
    '(folder_has_images, st) ←
      (if negb folder_has_images then
         print_line (Carpeta (os_path_relpath root folder_path));;
         mret (true, Stats (total_images st) (optimized st) (errors st)
                       (total_original_mb st) (total_new_mb st)
                       (S (folders_processed st)))
       else mret (folder_has_images, st));
    let file_path := os_path_join root file in
    let st := Stats (S (total_images st)) (optimized st) (errors st)
                (total_original_mb st) (total_new_mb st) (folders_processed st) in
    result ← lift (optimize_image file_path (1920, 1920) 85);
    success ← getitem result "success";
    if truthy success then
      let st := Stats (total_images st) (S (optimized st)) (errors st)
                  (total_original_mb st) (total_new_mb st) (folders_processed st) in
      original_kb ← getitem result "original_kb";
      original_mb ← div_1024 original_kb;
      let st := Stats (total_images st) (optimized st) (errors st)
                  (total_original_mb st + original_mb) (total_new_mb st)
                  (folders_processed st) in
      new_kb ← getitem result "new_kb";
      new_mb ← div_1024 new_kb;
      let st := Stats (total_images st) (optimized st) (errors st)
                  (total_original_mb st) (total_new_mb st + new_mb)
                  (folders_processed st) in
      reduction ← getitem result "reduction";
      reduced ← greater_than_0 reduction;
      resized ← getitem result "resized";
      original_kb ← getitem result "original_kb";
      original_1f ← format_1f original_kb;
      new_kb ← getitem result "new_kb";
      new_1f ← format_1f new_kb;
      reduction ← getitem result "reduction";
      print_line (OptimizadaEnCarpeta file (truthy resized) original_1f new_1f
                    reduced reduction);;
      mret (folder_has_images, st)
    else
      let st := Stats (total_images st) (optimized st) (S (errors st))
                  (total_original_mb st) (total_new_mb st) (folders_processed st) in
      error ← getitem result "error";
      print_line (ConError file error);;
      mret (folder_has_images, st)
  else mret (folder_has_images, st).

(** Lines 75-104: the body of the loop over [os.walk(folder_path)] for one
    entry. *)
Definition optimizar_carpeta (folder_path : string) (st : stats)
    (entry : string * list string * list string) : SE (fworld W) pyexn stats :=
  let '(root, _, files) := entry in
  '(_, st) ← foreach (optimizar_archivo_en_carpeta folder_path root) files (false, st);
  mret st.

(** Option 1 of the menu, lines 222-230, for the folder that was typed
    in. *)
Definition opcion_1 (folder : string) : SE (fworld W) pyexn unit :=
  existe ← lift (os_path_exists folder);
  if existe : bool then
    st ← optimize_folder_no_recursive folder;
    print_line Resumen;;
    print_line (Procesadas (optimized st) (total_images st));;
    print_line (TamanoOriginal (total_original_mb st));;
    print_line (TamanoFinal (total_new_mb st));;
    quotient ← lift (truediv (total_original_mb st - total_new_mb st)%Q
                             (total_original_mb st));
    print_line (Reduccion (quotient * 100)%Q)
  else print_line (CarpetaNoEncontrada folder).

(** What one file does to [stats] and to the printed lines. *)
Definition counted (k : nat) (st st' : stats) : Prop :=
  total_images st' = total_images st + k
  ∧ optimized st' + errors st' = optimized st + errors st + k
  ∧ optimized st ≤ optimized st'
  ∧ (optimized st' = 0 →
     total_original_mb st' = total_original_mb st
     ∧ total_new_mb st' = total_new_mb st).

End optimize_folder.
End OptimizeFolder.

(** ** [create_optimization_report] *)

Module Report.
Import OptimizeImages OptimizeFolder.

(** One element of [images]. *)
Record imagen := Imagen {
  nombre : string;
  tamano_kb : Q
}.

(** One value of [report["especies"]]. *)
Record especie := Especie {
  nombre_cientifico : string;
  num_imagenes : nat;
  tamano_total_mb : Q;
  imagenes : list imagen
}.

(** [total_stats] *)
Record resumen := Resumen {
  total_especies : nat;
  total_imagenes : nat;
  tamano_original_mb : Q;
  tamano_optimizado_mb : Q
}.

(** [report]; the dictionary [especies] keeps its keys in the order in
    which they were first set. *)
Record report := Report {
  fecha : string;
  carpeta_base : string;
  especies : list (string * especie);
  resumen_ : resumen
}.

(** [d[key] = v] *)
Fixpoint dict_set {V} (key : string) (v : V) (d : list (string * V))
    : list (string * V) :=
  match d with
  | [] => [(key, v)]
  | (k, x) :: d' =>
      if String.eqb k key then (k, v) :: d' else (k, x) :: dict_set key v d'
  end.

Class ReportWriter (W : Type) := {
  (** lines 174-175: [open("reporte_optimizacion.json", "w")] and
      [json.dump(report, f)] *)
  dump_json : string → report → SE W pyexn unit
}.

Section report.
Context `{Collaborators W Img} `{OsCollaborators W} `{ReportWriter W}.

(** Lines 150-157: one file of a species folder. *)
Definition report_file (folder_path : string) (acc : list imagen * Q)
    (file : string) : SE W pyexn (list imagen * Q) :=
  let '(images, total_size) := acc in
  if is_image_lower file then
    let file_path := os_path_join folder_path file in
    bytes ← getsize file_path;
    let size_kb := kb bytes in
    mret (images ++ [Imagen file (py_round size_kb 2)], (total_size + size_kb)%Q)
  else mret (images, total_size).

(** Lines 143-169: one entry of [base_folder]. *)
Definition report_folder (base_folder : string)
    (acc : list (string * especie) * resumen) (folder : string)
    : SE W pyexn (list (string * especie) * resumen) :=
  let '(esp, tot) := acc in
  let folder_path := os_path_join base_folder folder in
  es_carpeta ← os_path_isdir folder_path;
  if es_carpeta : bool then
    files ← os_listdir folder_path;
    '(images, total_size) ← foreach (report_file folder_path) files ([], 0%Q);
    match images with
    | [] => mret (esp, tot)
    | _ :: _ =>
        mret (dict_set folder
                (Especie folder (List.length images)
                   (py_round (total_size / 1024)%Q 2) images) esp,
              Resumen (S (total_especies tot))
                      (total_imagenes tot + List.length images)
                      (tamano_original_mb tot)
                      (tamano_optimizado_mb tot + total_size / 1024)%Q)
    end
  else mret (esp, tot).

Definition create_optimization_report (base_folder : string)
    : SE W pyexn report :=
  ahora ← now_isoformat;
  folders ← os_listdir base_folder;
  '(esp, tot) ← foreach (report_folder base_folder) folders
                   ([], Resumen 0 0 0 0);
  let report := Report ahora base_folder esp tot in
  dump_json "reporte_optimizacion.json" report;;
  mret report.

(** An entry of [especies] as the report builds it for a folder that has
    images. *)
Definition especie_ok (entry : string * especie) : Prop :=
  nombre_cientifico entry.2 = entry.1
  ∧ num_imagenes entry.2 = List.length (imagenes entry.2)
  ∧ 0 < num_imagenes entry.2
  ∧ Forall (λ i, is_image_lower (nombre i) = true) (imagenes entry.2).

(** The totals agree with the entries of [especies]. *)
Definition totals_ok (esp : list (string * especie)) (tot : resumen) : Prop :=
  total_especies tot = List.length esp
  ∧ total_imagenes tot = sum_list_with (λ entry, num_imagenes entry.2) esp
  ∧ tamano_original_mb tot = 0%Q
  ∧ Forall especie_ok esp.

End report.
End Report.

(** Collaborators for examples: no file can be opened as an image, every
    folder exists and holds [notas.txt] and [a.jpg]. *)
Module Toy.
Import OptimizeImages OptimizeFolder.

Definition cannot_identify : pyexn := PyException "cannot identify image file".

Definition codec : Collaborators unit unit := {|
  Image_open _ := λ w, (Raise cannot_identify, w);
  Image_exit _ := mret tt;
  mode _ := "RGB";
  size _ := (0, 0);
  Image_new _ _ _ := mret tt;
  convert _ _ := mret tt;
  split _ := mret [];
  paste _ _ _ := mret tt;
  thumbnail _ _ := mret tt;
  save _ _ _ := mret tt;
  getsize _ := mret 0;
  py_round q _ := q
|}.

Definition os : OsCollaborators unit := {|
  os_listdir _ := mret ["notas.txt"; "a.jpg"];
  os_path_exists _ := mret true;
  os_path_isdir _ := mret true;
  os_path_join a b := a +:+ "/" +:+ b;
  os_path_relpath path _ := path;
  now_isoformat := mret "2024-01-01T00:00:00"
|}.

Definition writer : Report.ReportWriter unit := {|
  Report.dump_json _ _ := mret tt
|}.

End Toy.


(** ** [scripts/organize_images.py]

    The collaborators are those of [optimize_images.py] and the calls of
    [os] and [shutil] that change the disk.  The state is the
    collaborators' state together with the lines printed so far. *)

Module OrganizeImages.
Import OptimizeImages OptimizeFolder.

Fixpoint zeros (n : nat) : string :=
  match n with
  | O => ""
  | S n' => String "0" (zeros n')
  end.

Definition digits (n : nat) : string := NilZero.string_of_uint (Nat.to_uint n).

(** [f"{z:0{width}d}"]: the sign if [z] is negative, then zeros up to
    [width] characters in all, then the decimal digits. *)
Definition format_0d (width : nat) (z : Z) : string :=
  let s := digits (Z.abs_nat z) in
  if (z <? 0)%Z then "-" +:+ zeros (width - 1 - String.length s) +:+ s
  else zeros (width - String.length s) +:+ s.

(** [enumerate(xs, start)] *)
Definition enumerate {A} (start : nat) (xs : list A) : list (nat * A) :=
  zip (seq start (List.length xs)) xs.

(** The lines the functions print, as the values they are formatted
    from. *)
Inductive salida :=
(** line 26 *)
| Creadas (n : nat)
(** line 49 *)
| ErrorOptimizando (image_path error : string)
(** line 68 *)
| ProcesandoImagenes (n : nat) (plant_id : Z)
(** lines 88 and 106 *)
| Procesada (dest_filename : string) (size : Q)
(** lines 191, 200, 210 and 212 *)
| Renombrando (source_folder : string)
| Encontradas (n : nat)
| Renombrada (basename new_name : string)
| ErrorAlRenombrar (error : string).

Record oworld (W : Type) := OWorld {
  disk : W;
  salidas : list salida
}.
Arguments OWorld {W} disk salidas.
Arguments disk {W} o.
Arguments salidas {W} o.

(** One element of [processed]. *)
Record imagen := Imagen {
  filename : string;
  size_kb : Q;
  type : string
}.

(** [metadata] *)
Record metadata := Metadata {
  plant_id : string;
  plant_name : option string;
  images : list imagen;
  total_size_mb : Q
}.

Class DiskCollaborators (W : Type) := {
  (** [os.makedirs(path)] *)
  os_makedirs : string → SE W pyexn unit;
  (** [shutil.copy2(src, dst)] *)
  shutil_copy2 : string → string → SE W pyexn unit;
  (** [os.rename(src, dst)] *)
  os_rename : string → string → SE W pyexn unit;
  (** [os.walk(top)], every [(root, dirs, files)] it yields *)
  os_walk : string → SE W pyexn (list (string * list string * list string));
  (** [os.path.dirname(path)], [os.path.basename(path)] *)
  os_path_dirname : string → string;
  os_path_basename : string → string;
  (** lines 117-118: [open(metadata_path, 'w')] and
      [json.dump(metadata, f)] *)
  dump_metadata : string → metadata → SE W pyexn unit
}.

Definition detail_types : list string :=
  ["flor"; "hoja"; "fruto"; "tallo"; "general"].

(** [f"planta_{plant_id:03d}"] *)
Definition planta (plant_id : Z) : string := "planta_" +:+ format_0d 3 plant_id.

(** [f"planta_{plant_id:03d}_{idx:02d}.jpg"] *)
Definition principal_filename (plant_id : Z) (idx : nat) : string :=
  planta plant_id +:+ "_" +:+ format_0d 2 (Z.of_nat idx) +:+ ".jpg".

(** [f"planta_{plant_id:03d}_{detail_type}.jpg"] *)
Definition detail_filename (plant_id : Z) (detail_type : string) : string :=
  planta plant_id +:+ "_" +:+ detail_type +:+ ".jpg".

(** [f"{naming_pattern}_{idx:04d}.jpg"] *)
Definition new_name (naming_pattern : string) (idx : nat) : string :=
  naming_pattern +:+ "_" +:+ format_0d 4 (Z.of_nat idx) +:+ ".jpg".

(** The file names and types that [process_plant_images] can give to the
    images of plant [plant_id], in the order in which it gives them. *)
Definition esperadas (plant_id : Z) : list (string * string) :=
  ((λ idx, (principal_filename plant_id idx, "principal")) <$> [1; 2; 3])
  ++ ((λ t, (detail_filename plant_id t, t)) <$> detail_types).

(** [(img["filename"], img["type"])] *)
Definition nombre_y_tipo (p : imagen) : string * string := (filename p, type p).

(** The new name a printed line tells of. *)
Definition renombrada_a (l : salida) : option string :=
  match l with
  | Renombrada _ name => Some name
  | _ => None
  end.

Section organize_images.
Context `{Collaborators W Img} `{OsCollaborators W} `{DiskCollaborators W}.

Definition on_disk {A} (m : SE W pyexn A) : SE (oworld W) pyexn A :=
  λ ow, let '(r, w') := m (disk ow) in (r, OWorld w' (salidas ow)).

Definition print (l : salida) : SE (oworld W) pyexn unit :=
  λ ow, (Ok tt, OWorld (disk ow) (salidas ow ++ [l])).

(** Lines 13-14, 22-23 and 57-58: [if not os.path.exists(path):
    os.makedirs(path)], telling whether the directory was made. *)
Definition makedirs_if_missing (path : string) : SE (oworld W) pyexn bool :=
  existe ← on_disk (os_path_exists path);
  if negb existe then on_disk (os_makedirs path);; mret true
  else mret false.

(** Lines 19-24 *)
Definition crear_carpeta (base_path : string) (created_folders : list string)
    (i : nat) : SE (oworld W) pyexn (list string) :=
  let folder_name := planta (Z.of_nat i) in
  let folder_path := os_path_join base_path folder_name in
  creada ← makedirs_if_missing folder_path;
  if creada : bool then mret (created_folders ++ [folder_path])
  else mret created_folders.

(** [range(1, num_plants + 1)] *)
Definition range_1 (num_plants : Z) : list nat := seq 1 (Z.to_nat num_plants).

Definition create_folder_structure (base_path : string) (num_plants : Z)
    : SE (oworld W) pyexn (list string) :=
  makedirs_if_missing base_path;;
  created_folders ← foreach (crear_carpeta base_path) (range_1 num_plants) [];
  print (Creadas (List.length created_folders));;
  mret created_folders.

(** Lines 33-37 *)
Definition to_rgb (img : Img) : SE W pyexn Img :=
  if bool_decide (mode img ∈ ["RGBA"; "LA"; "L"]) then
    rgb_img ← Image_new "RGB" (size img) (255, 255, 255);
    rgb_img ← paste rgb_img img None;
    mret rgb_img
  else mret img.

(** The [try] block, lines 32-47. *)
Definition try_block (image_path : string) (max_size : nat * nat)
    (quality : nat) : SE W pyexn (bool * Q) :=
  with_as (Image_open image_path) Image_exit (λ img,
    img ← to_rgb img;
    img ← thumbnail img max_size;
    save img image_path quality;;
    bytes ← getsize image_path;
    let size_kb := kb bytes in
    mret (true, size_kb)).

Definition optimize_image (image_path : string) (max_size : nat * nat)
    (quality : nat) : SE (oworld W) pyexn (bool * Q) :=
  try_except (on_disk (try_block image_path max_size quality))
    (λ e, print (ErrorOptimizando image_path (exn_str e));;
          mret (false, 0%Q)).

(** Lines 78-88 and 98-106: copy, optimize, and note the image when that
    went well. *)
Definition copiar (source_path dest_folder dest_filename type : string)
    (processed : list imagen) : SE (oworld W) pyexn (list imagen) :=
  let dest_path := os_path_join dest_folder dest_filename in
  on_disk (shutil_copy2 source_path dest_path);;
  '(success, size) ← optimize_image dest_path (1920, 1920) 85;
  if success : bool then
    let processed := processed ++ [Imagen dest_filename (py_round size 2) type] in
    print (Procesada dest_filename size);;
    mret processed
  else mret processed.

(** Lines 73-88 *)
Definition principal (source_folder dest_folder : string) (plant_id : Z)
    (processed : list imagen) (item : nat * string)
    : SE (oworld W) pyexn (list imagen) :=
  let '(idx, image_file) := item in
  let source_path := os_path_join source_folder image_file in
  let dest_filename := principal_filename plant_id idx in
  copiar source_path dest_folder dest_filename "principal" processed.

(** Lines 93-106 *)
Definition detalle (source_folder dest_folder : string) (plant_id : Z)
    (processed : list imagen) (item : nat * string)
    : SE (oworld W) pyexn (list imagen) :=
  let '(idx, image_file) := item in
  if (idx <? List.length detail_types)%nat then
    let source_path := os_path_join source_folder image_file in
    match detail_types !! idx with
    | Some detail_type =>
        let dest_filename := detail_filename plant_id detail_type in
        copiar source_path dest_folder dest_filename detail_type processed
    | None => λ ow, (Raise IndexError, ow)
    end
  else mret processed.

(** [sum(img['size_kb'] for img in processed)] *)
Definition sum_size_kb (processed : list imagen) : Q :=
  foldl (λ acc img, acc + size_kb img)%Q 0%Q processed.

Definition process_plant_images (source_folder : string) (plant_id : Z)
    (plant_name : option string) : SE (oworld W) pyexn (list imagen) :=
  let dest_folder := "plantas/" +:+ planta plant_id in
  makedirs_if_missing dest_folder;;
  files ← on_disk (os_listdir source_folder);
  let images := filter is_image files in
  print (ProcesandoImagenes (List.length images) plant_id);;
  processed ← foreach (principal source_folder dest_folder plant_id)
                (enumerate 1 (take 3 images)) [];
  processed ← foreach (detalle source_folder dest_folder plant_id)
                (enumerate 0 (take 5 (drop 3 images))) processed;
  let metadata := Metadata (planta plant_id) plant_name processed
                    (py_round (sum_size_kb processed / 1024)%Q 2) in
  let metadata_path := os_path_join dest_folder "metadata.json" in
  on_disk (dump_metadata metadata_path metadata);;
  mret processed.

(** Lines 195-198: the images of one entry of [os.walk]. *)
Definition imagenes_de (entry : string * list string * list string)
    : list string :=
  let '(root, _, files) := entry in
  os_path_join root <$> filter is_image_lower files.

(** Lines 204-212 *)
Definition renombrar (naming_pattern : string) (_ : unit)
    (item : nat * string) : SE (oworld W) pyexn unit :=
  let '(idx, image_path) := item in
  let directory := os_path_dirname image_path in
  let new_name := new_name naming_pattern idx in
  let new_path := os_path_join directory new_name in
  try_except
    (on_disk (os_rename image_path new_path);;
     print (Renombrada (os_path_basename image_path) new_name))
    (λ e, print (ErrorAlRenombrar (exn_str e))).

Definition batch_rename_images (source_folder naming_pattern : string)
    : SE (oworld W) pyexn unit :=
  print (Renombrando source_folder);;
  entries ← on_disk (os_walk source_folder);
  let image_files := mjoin (imagenes_de <$> entries) in
  print (Encontradas (List.length image_files));;
  foreach (renombrar naming_pattern) (enumerate 1 image_files) tt.

End organize_images.

(** A disk as the set of the paths that exist: [os.makedirs] adds the
    path and fails on one that is there, [os.rename] fails when its
    destination is there, [os.walk] finds [a.jpg], [b.png] and
    [notas.txt] in the folder itself. *)
Module Paths.

Definition FileExistsError : pyexn := PyException "File exists".

Definition codec : Collaborators (gset string) unit := {|
  Image_open _ := mret tt;
  Image_exit _ := mret tt;
  mode _ := "RGB";
  size _ := (0, 0);
  Image_new _ _ _ := mret tt;
  convert _ _ := mret tt;
  split _ := mret [];
  paste _ _ _ := mret tt;
  thumbnail _ _ := mret tt;
  save _ _ _ := mret tt;
  getsize _ := mret 0;
  py_round q _ := q
|}.

Definition os : OsCollaborators (gset string) := {|
  os_listdir _ := mret ["a.jpg"; "notas.txt"; "b.png"];
  os_path_exists path := λ w, (Ok (bool_decide (path ∈ w)), w);
  os_path_isdir path := λ w, (Ok (bool_decide (path ∈ w)), w);
  os_path_join a b := a +:+ "/" +:+ b;
  os_path_relpath path _ := path;
  now_isoformat := mret "2024-01-01T00:00:00"
|}.

Definition fs : DiskCollaborators (gset string) := {|
  os_makedirs path := λ w,
    if bool_decide (path ∈ w) then (Raise FileExistsError, w)
    else (Ok tt, {[path]} ∪ w);
  shutil_copy2 _ dst := λ w, (Ok tt, {[dst]} ∪ w);
  os_rename src dst := λ w,
    if bool_decide (dst ∈ w) then (Raise FileExistsError, w)
    else (Ok tt, {[dst]} ∪ w ∖ {[src]});
  os_walk top := mret [(top, [], ["a.jpg"; "notas.txt"; "b.png"])];
  os_path_dirname path := path;
  os_path_basename path := path;
  dump_metadata _ _ := mret tt
|}.

End Paths.

End OrganizeImages.
(** * Properties *)

(** ** The monad *)

Lemma bind_ok {A B} (m : M A) (f : A → M B) w a w' :
  m w = (Ok a, w') → (m ≫= f) w = f a w'.
Proof. intros Hm. unfold mbind, SE_bind. by rewrite Hm. Qed.

Lemma bind_raise {A B} (m : M A) (f : A → M B) w e w' :
  m w = (Raise e, w') → (m ≫= f) w = (Raise e, w').
Proof. intros Hm. unfold mbind, SE_bind. by rewrite Hm. Qed.

Lemma for_each_app {A S} (body : S → A → M S) xs ys acc w :
  for_each body (xs ++ ys) acc w
  = (for_each body xs acc ≫= for_each body ys) w.
Proof.
  revert acc w. induction xs as [|x xs IH]; intros acc w; simpl.
  - done.
  - unfold mbind, SE_bind. destruct (body acc x w) as [[acc'|e] w1]; [|done].
    apply IH.
Qed.

(** ** The best match *)

Lemma py_max_foldl_elem items acc t :
  foldl (λ best item,
    match best with
    | None => Some item
    | Some b => if tuple_gt item b then Some item else Some b
    end) acc items = Some t →
  acc = Some t ∨ t ∈ items.
Proof.
  revert acc. induction items as [|i items IH]; intros acc; simpl.
  - auto.
  - intros Hf. apply IH in Hf as [Hacc | Hin]; [|right; by right].
    destruct acc as [b|].
    + destruct (tuple_gt i b); simplify_eq; [right; left|by left].
    + simplify_eq. right; left.
Qed.

Lemma py_max_elem items t : py_max items = Some t → t ∈ items.
Proof. intros Hm. by apply py_max_foldl_elem in Hm as [?|?]. Qed.

Lemma py_max_foldl_Some items b :
  is_Some (foldl (λ best item,
    match best with
    | None => Some item
    | Some b => if tuple_gt item b then Some item else Some b
    end) (Some b) items).
Proof.
  revert b. induction items as [|i items IH]; intros b; simpl; [by eexists|].
  destruct (tuple_gt i b); apply IH.
Qed.

Lemma py_max_None items : py_max items = None ↔ items = [].
Proof.
  split; [|by intros ->].
  destruct items as [|i items]; [done|]. unfold py_max; simpl.
  intros Hn. destruct (py_max_foldl_Some items i) as [t Ht]. congruence.
Qed.

Section matching_facts.
Context `{Matcher}.

Lemma close_enough_ratio word x :
  close_enough word x = true → (cutoff <= ratio x word)%Q.
Proof.
  unfold close_enough, Qgeb. rewrite !andb_true_iff.
  intros [_ Hr]. by apply Qle_bool_iff.
Qed.

Lemma elem_of_scored word possibilities q x :
  (q, x) ∈ scored word possibilities →
  x ∈ possibilities ∧ close_enough word x = true ∧ q = ratio x word.
Proof.
  unfold scored. rewrite list_elem_of_fmap. intros (y & Heq & Hy).
  simplify_eq. apply list_elem_of_filter in Hy as [Hc Hy].
  split_and!; [done| |done]. by destruct (close_enough word y).
Qed.

Lemma get_close_matches_elem word possibilities x :
  x ∈ get_close_matches word possibilities →
  x ∈ possibilities ∧ close_enough word x = true.
Proof.
  unfold get_close_matches.
  destruct (py_max (scored word possibilities)) as [[q y]|] eqn:Hm.
  - intros ->%list_elem_of_singleton. apply py_max_elem in Hm.
    apply elem_of_scored in Hm as (? & ? & _). done.
  - by intros ?%elem_of_nil.
Qed.

Lemma get_close_matches_length word possibilities :
  (List.length (get_close_matches word possibilities) ≤ 1)%nat.
Proof.
  unfold get_close_matches.
  destruct (py_max _) as [[q y]|]; simpl; lia.
Qed.

Lemma get_close_matches_nil word possibilities :
  get_close_matches word possibilities = [] ↔
  ∀ x, x ∈ possibilities → close_enough word x = false.
Proof.
  unfold get_close_matches. split.
  - destruct (py_max _) as [[q y]|] eqn:Hm; [done|]. intros _ x Hx.
    apply py_max_None in Hm. unfold scored in Hm.
    apply fmap_nil_inv in Hm.
    destruct (close_enough word x) eqn:Hc; [|done].
    assert (x ∈ filter (λ x, close_enough word x) possibilities) as Hin.
    { apply list_elem_of_filter. by rewrite Hc. }
    rewrite Hm in Hin. by apply elem_of_nil in Hin.
  - intros Hall.
    assert (filter (λ x, close_enough word x) possibilities = []) as Hnil.
    { induction possibilities as [|y l IH]; [done|].
      rewrite filter_cons. rewrite decide_False.
      - apply IH. intros x Hx. apply Hall. by right.
      - intros Hc. rewrite (Hall y) in Hc; [done|left]. }
    unfold scored. by rewrite Hnil.
Qed.
End matching_facts.

(** ** One step of the script *)

Ltac munfold :=
  unfold mbind, SE_bind, mret, SE_ret, print, emit, get_tree, put_tree, raise.

Lemma listdir_base_eq w : listdir_base w = (Ok (elements (dom (tree w))), w).
Proof. done. Qed.

Lemma listdir_dir w dir names :
  tree w !! dir = Some (Dir names) → listdir dir w = (Ok (elements names), w).
Proof. intros Hd. unfold listdir. munfold. by rewrite Hd. Qed.

Lemma path_exists_dir w dir names name :
  tree w !! dir = Some (Dir names) →
  path_exists dir name w = (Ok (bool_decide (name ∈ names)), w).
Proof. intros Hd. unfold path_exists. munfold. by rewrite Hd. Qed.

Section step_facts.
Context `{Matcher}.
Variable plat : platform.

Lemma renombrar_carpeta_no_match nombre w :
  get_close_matches (PyStr.replace_space nombre) (elements (dom (tree w))) = [] →
  renombrar_carpeta plat nombre w
  = (Ok tt, World (tree w) (trace w ++ [Print (NoEncontrada nombre)])).
Proof.
  intros Hg. unfold renombrar_carpeta.
  rewrite (bind_ok _ _ _ _ _ (listdir_base_eq w)). by rewrite Hg.
Qed.

Lemma main_cons nombre resto w :
  main plat (nombre :: resto) w
  = match renombrar_carpeta plat nombre w with
    | (Ok _, w') => main plat resto w'
    | (Raise e, w') => (Raise e, w')
    end.
Proof.
  unfold main; simpl. munfold.
  by destruct (renombrar_carpeta plat nombre w) as [[[]|e] w'].
Qed.

Lemma below_cutoff_not_close word x :
  (ratio x word < cutoff)%Q → close_enough word x = false.
Proof.
  intros Hlt. unfold close_enough, Qgeb.
  destruct (Qle_bool cutoff (ratio x word)) eqn:Hle.
  - apply Qle_bool_iff in Hle. by apply Qlt_not_le in Hlt.
  - by rewrite andb_false_r.
Qed.
End step_facts.

(** ** C6: what the fuzzy match can select *)

(** C6. For every target name and every listing of [ruta_base], the fuzzy
    match returns at most one entry; an entry it returns is one of the
    listing and its similarity to the target is at least 0.6; and when the
    similarity of every entry of the listing is below 0.6 it returns
    nothing, which is the "no match" case of the script. *)
Theorem C6_fuzzy_match_threshold `{Matcher}
    (nombre : string) (carpetas : list string) :
  let objetivo := PyStr.replace_space nombre in
  List.length (get_close_matches objetivo carpetas) ≤ 1
  ∧ (∀ x, x ∈ get_close_matches objetivo carpetas →
          x ∈ carpetas ∧ (cutoff <= ratio x objetivo)%Q)
  ∧ ((∀ x, x ∈ carpetas → (ratio x objetivo < cutoff)%Q) →
      get_close_matches objetivo carpetas = []).
Proof.
  intros objetivo. split_and!.
  - apply get_close_matches_length.
  - intros x Hx. apply get_close_matches_elem in Hx as [Hin Hc].
    split; [done|]. by apply close_enough_ratio.
  - intros Hall. apply get_close_matches_nil. intros x Hx.
    by apply below_cutoff_not_close, Hall.
Qed.

(** ** C8: a name without a match *)

(** C8. When no entry of [ruta_base] reaches similarity 0.6 with the target
    of a name, the iteration for that name returns normally, leaves the
    directory tree as it was, issues no rename and prints the "no match"
    line; the run then goes on with the names that follow. *)
Theorem C8_no_match_continues `{Matcher} (plat : platform)
    (nombre : string) (resto : list string) (w : world) :
  (∀ x, x ∈ dom (tree w) →
        (ratio x (PyStr.replace_space nombre) < cutoff)%Q) →
  renombrar_carpeta plat nombre w
  = (Ok tt, World (tree w) (trace w ++ [Print (NoEncontrada nombre)]))
  ∧ main plat (nombre :: resto) w
    = main plat resto (World (tree w) (trace w ++ [Print (NoEncontrada nombre)])).
Proof.
  intros Hall.
  assert (renombrar_carpeta plat nombre w
    = (Ok tt, World (tree w) (trace w ++ [Print (NoEncontrada nombre)]))) as Hstep.
  { apply renombrar_carpeta_no_match, get_close_matches_nil.
    intros x Hx. apply below_cutoff_not_close, Hall. by apply elem_of_elements. }
  split; [done|]. by rewrite main_cons, Hstep.
Qed.


Lemma C8_no_match_continues_witness :
  let w := World ficus_tree [] in
  renombrar_carpeta (H:=Difflib.matcher) Windows "Zzz unmatched plant" w
  = (Ok tt, World (tree w) (trace w ++ [Print (NoEncontrada "Zzz unmatched plant")]))
  ∧ main (H:=Difflib.matcher) Windows ["Zzz unmatched plant"; "Ficus benjamina"] w
    = main (H:=Difflib.matcher) Windows ["Ficus benjamina"]
        (World (tree w) (trace w ++ [Print (NoEncontrada "Zzz unmatched plant")])).
Proof.
  intros w.
  apply (C8_no_match_continues (H:=Difflib.matcher) Windows
           "Zzz unmatched plant" ["Ficus benjamina"] w).
  intros x Hx. unfold w in Hx. cbn [tree] in Hx. unfold ficus_tree in Hx.
  rewrite dom_singleton_L in Hx.
  apply elem_of_singleton in Hx. subst x. vm_compute. reflexivity.
Defined.

(** ** The step for one image *)

Section image_step.
Variable plat : platform.

Lemma rename_file_fresh w dir names src dst :
  tree w !! dir = Some (Dir names) → src ∈ names → dst ∉ names →
  rename_file plat dir src dst w
  = (Ok tt, World (<[dir := Dir ({[dst]} ∪ names ∖ {[src]})]> (tree w))
                  (trace w ++ [FileRename dir src dst])).
Proof.
  intros Hd Hsrc Hdst. unfold rename_file. munfold. simpl. rewrite Hd.
  rewrite bool_decide_true by done.
  rewrite bool_decide_false by (intros ->; done).
  by rewrite bool_decide_false by done.
Qed.

(** What one iteration of the image loop does in a directory that holds
    [archivo]. *)
Lemma renombrar_imagen_cases objetivo contador archivo w names :
  tree w !! objetivo = Some (Dir names) → archivo ∈ names →
  let ext := PyStr.lower (PyStr.splitext_ext archivo) in
  let nuevo := nuevo_nombre objetivo contador ext in
  renombrar_imagen plat objetivo contador archivo w
  = if bool_decide (ext ∈ extensiones_validas) then
      if bool_decide (nuevo ∈ names)
      then (Ok contador, World (tree w) (trace w ++ [Print (YaExiste nuevo)]))
      else (Ok (S contador),
            World (<[objetivo := Dir ({[nuevo]} ∪ names ∖ {[archivo]})]> (tree w))
                  (trace w ++ [FileRename objetivo archivo nuevo;
                               Print (ImagenRenombrada archivo nuevo)]))
    else (Ok contador, w).
Proof.
  intros Hd Hin ext nuevo. unfold renombrar_imagen. fold ext. fold nuevo.
  case_bool_decide as Hext; [|done].
  rewrite (bind_ok _ _ _ _ _ (path_exists_dir w _ _ nuevo Hd)).
  case_bool_decide as Hnuevo; simpl; [done|].
  rewrite (bind_ok _ _ _ _ _ (rename_file_fresh w _ _ _ _ Hd Hin Hnuevo)).
  munfold. simpl. by rewrite <- app_assoc.
Qed.

(** Without knowing that [archivo] is there: the outcomes that return. *)
Lemma renombrar_imagen_returns objetivo contador archivo w names c' w' :
  tree w !! objetivo = Some (Dir names) →
  let ext := PyStr.lower (PyStr.splitext_ext archivo) in
  let nuevo := nuevo_nombre objetivo contador ext in
  renombrar_imagen plat objetivo contador archivo w = (Ok c', w') →
  (c' = contador ∧ tree w' = tree w
   ∧ (w' = w ∨ trace w' = trace w ++ [Print (YaExiste nuevo)]))
  ∨ (c' = S contador ∧ ext ∈ extensiones_validas
     ∧ (nuevo ∉ names) ∧ archivo ∈ names
     ∧ tree w' = <[objetivo := Dir ({[nuevo]} ∪ names ∖ {[archivo]})]> (tree w)
     ∧ trace w' = trace w ++ [FileRename objetivo archivo nuevo;
                              Print (ImagenRenombrada archivo nuevo)]).
Proof.
  intros Hd ext nuevo.
  destruct (decide (archivo ∈ names)) as [Hin|Hnin].
  - rewrite (renombrar_imagen_cases _ _ _ _ _ Hd Hin). fold ext. fold nuevo.
    repeat case_bool_decide; intros [= <- <-]; simpl; auto 10.
  - unfold renombrar_imagen. fold ext. fold nuevo.
    case_bool_decide as Hext; [|intros [= <- <-]; auto].
    rewrite (bind_ok _ _ _ _ _ (path_exists_dir w _ _ nuevo Hd)).
    case_bool_decide as Hnuevo; simpl; [intros [= <- <-]; auto|].
    unfold rename_file. munfold. simpl. rewrite Hd.
    by rewrite bool_decide_false by done.
Qed.
End image_step.

(** ** C5: a candidate name that is taken *)

(** C5. In a directory that holds a file with the candidate name of an
    eligible file, the iteration for that file prints the "already exists"
    line and returns the counter as it was, with no rename and the tree
    unchanged.  And whenever an iteration returns a counter other than the
    one it got, it is the next one, the candidate name was free, and the
    file was renamed to it: the counter moves only with a rename. *)
Theorem C5_collision_skips (plat : platform)
    (objetivo : string) (contador : nat) (archivo : string)
    (w : world) (names : gset string) :
  tree w !! objetivo = Some (Dir names) →
  let ext := PyStr.lower (PyStr.splitext_ext archivo) in
  let nuevo := nuevo_nombre objetivo contador ext in
  (ext ∈ extensiones_validas → nuevo ∈ names →
   renombrar_imagen plat objetivo contador archivo w
   = (Ok contador, World (tree w) (trace w ++ [Print (YaExiste nuevo)])))
  ∧ (∀ c' w', renombrar_imagen plat objetivo contador archivo w = (Ok c', w') →
       c' ≠ contador →
       c' = S contador ∧ (nuevo ∉ names) ∧ archivo ∈ names
       ∧ tree w' = <[objetivo := Dir ({[nuevo]} ∪ names ∖ {[archivo]})]> (tree w)
       ∧ trace w' = trace w ++ [FileRename objetivo archivo nuevo;
                                Print (ImagenRenombrada archivo nuevo)]).
Proof.
  intros Hd ext nuevo. split.
  - intros Hext Hnuevo. unfold renombrar_imagen. fold ext. fold nuevo.
    rewrite bool_decide_true by done.
    rewrite (bind_ok _ _ _ _ _ (path_exists_dir w _ _ nuevo Hd)).
    by rewrite bool_decide_true by done.
  - intros c' w' Hr Hne.
    apply (renombrar_imagen_returns _ _ _ _ _ _ _ _ Hd) in Hr
      as [(-> & _)|(-> & _ & ? & ? & ? & ?)]; done.
Qed.


Lemma C5_collision_skips_witness :
  renombrar_imagen Windows "Ficus_benjamina" 1 "a.jpg" ficus_w
  = (Ok 1, World (tree ficus_w)
             (trace ficus_w ++ [Print (YaExiste (nuevo_nombre "Ficus_benjamina" 1
                (PyStr.lower (PyStr.splitext_ext "a.jpg"))))])).
Proof.
  refine (proj1 (C5_collision_skips Windows "Ficus_benjamina" 1 "a.jpg"
                   ficus_w ficus_dir _) _ _).
  - apply lookup_singleton_eq.
  - apply (bool_decide_unpack _). vm_compute. exact I.
  - apply (bool_decide_unpack _). vm_compute. exact I.
Defined.

(** The scenario of the specification: [Ficus_benjamina_01.jpg] was put
    there by hand; both it and the next image are passed over and the
    counter stays at 1. *)
Example ficus_precreated :
  run (H:=Difflib.matcher) Windows ["Ficus benjamina"] (tree ficus_w)
  = (Ok tt, World (tree ficus_w)
              [Print (YaExiste "Ficus_benjamina_01.jpg");
               Print (YaExiste "Ficus_benjamina_01.jpg")]).
Proof. vm_compute. reflexivity. Qed.

(** ** The trace only grows *)


Lemma grows_ret {A} (a : A) : grows (mret a).
Proof. intros w r w' [= <- <-]. done. Qed.

Lemma grows_raise {A} e : grows (@raise A e).
Proof. intros w r w' [= <- <-]. done. Qed.

Lemma grows_get_tree : grows get_tree.
Proof. intros w r w' [= <- <-]. done. Qed.

Lemma grows_put_tree t : grows (put_tree t).
Proof. intros w r w' [= <- <-]. done. Qed.

Lemma grows_emit ev : grows (emit ev).
Proof. intros w r w' [= <- <-]. simpl. by apply prefix_app_r. Qed.

Lemma grows_bind {A B} (m : M A) (f : A → M B) :
  grows m → (∀ a, grows (f a)) → grows (m ≫= f).
Proof.
  intros Hm Hf w r w'. unfold mbind, SE_bind.
  destruct (m w) as [[a|e] w1] eqn:Hmw.
  - intros Hfa. etrans; [by eapply Hm|by eapply Hf].
  - intros [= <- <-]. by eapply Hm.
Qed.

Lemma starts_with_emit {A} ev (k : M A) : grows k → starts_with ev (emit ev;; k).
Proof.
  intros Hk w r w'. unfold mbind, SE_bind, emit. intros Hr.
  apply Hk in Hr. done.
Qed.

Lemma starts_with_bind {A B} ev (m : M A) (f : A → M B) :
  starts_with ev m → (∀ a, grows (f a)) → starts_with ev (m ≫= f).
Proof.
  intros Hm Hf w r w'. unfold mbind, SE_bind.
  destruct (m w) as [[a|e] w1] eqn:Hmw.
  - intros Hfa. etrans; [by eapply Hm|by eapply Hf].
  - intros [= <- <-]. by eapply Hm.
Qed.

Lemma grows_for_each {A S} (body : S → A → M S) xs acc :
  (∀ s x, grows (body s x)) → grows (for_each body xs acc).
Proof.
  intros Hb. revert acc. induction xs as [|x xs IH]; intros acc; simpl.
  - apply grows_ret.
  - apply grows_bind; [apply Hb|done].
Qed.

Create HintDb grows.
#[local] Hint Resolve grows_ret grows_raise grows_get_tree grows_put_tree
  grows_emit grows_bind grows_for_each : grows.

Ltac grows_tac :=
  repeat first
    [ progress auto with grows
    | apply grows_bind; [|intros ?]
    | match goal with
      | |- grows (match ?x with _ => _ end) => destruct x
      | |- grows (if ?b then _ else _) => destruct b
      end ].

Section grows_facts.
Context `{Matcher}.
Variable plat : platform.

Lemma grows_listdir dir : grows (listdir dir).
Proof. unfold listdir. grows_tac. Qed.

Lemma grows_path_exists dir name : grows (path_exists dir name).
Proof. unfold path_exists. grows_tac. Qed.

Lemma grows_rename_file dir src dst : grows (rename_file plat dir src dst).
Proof. unfold rename_file. grows_tac. Qed.

Lemma grows_renombrar_imagen objetivo contador archivo :
  grows (renombrar_imagen plat objetivo contador archivo).
Proof.
  unfold renombrar_imagen, print.
  pose proof grows_path_exists. pose proof grows_rename_file. grows_tac.
Qed.

Lemma starts_with_rename_entry src dst :
  starts_with (DirRename src dst) (rename_entry plat src dst).
Proof. unfold rename_entry. apply starts_with_emit. grows_tac. Qed.

Lemma grows_rename_entry src dst : grows (rename_entry plat src dst).
Proof. unfold rename_entry. grows_tac. Qed.

Lemma grows_renombrar_carpeta nombre : grows (renombrar_carpeta plat nombre).
Proof.
  unfold renombrar_carpeta, listdir_base, print.
  pose proof grows_listdir. pose proof grows_rename_entry.
  pose proof grows_renombrar_imagen. grows_tac.
Qed.

Lemma grows_main nombres : grows (main plat nombres).
Proof. apply grows_for_each. intros _ n. apply grows_renombrar_carpeta. Qed.
End grows_facts.

(** ** C9: the directory rename has no guard *)




Example rename_onto_existing_entry :
  run (H:=flat_scorer) Windows ["A"] {[ "A" := Dir ∅; "B" := Dir ∅ ]}
  = (Raise FileExistsError,
     World {[ "A" := Dir ∅; "B" := Dir ∅ ]} [DirRename "B" "A"]).
Proof. vm_compute. reflexivity. Qed.

(** ** C3: the names that are processed *)

(** C3, as the code has it.  The processed sequence keeps the duplicates
    of the column: a value occurs in it as often as it occurs among the
    cells, and the procedure runs once for every occurrence (on a tree
    without entries every occurrence prints its own "no match" line). *)
Theorem C3_duplicates_are_kept `{Matcher} (plat : platform)
    (column : list (option string)) :
  (∀ v, List.length (filter (v =.) (nombres_cientificos column))
        = List.length (filter (Some v =.) column))
  ∧ run plat (nombres_cientificos column) ∅
    = (Ok tt, World ∅ ((λ n, Print (NoEncontrada n)) <$> nombres_cientificos column)).
Proof.
  split.
  - intros v. unfold nombres_cientificos.
    induction column as [|[x|] column IH]; simpl; [done| |].
    + rewrite !filter_cons. destruct (decide (v = x)) as [->|Hne].
      * rewrite !decide_True by done. simpl. f_equal. apply IH.
      * rewrite !decide_False by congruence. apply IH.
    + rewrite filter_cons. rewrite decide_False by done. apply IH.
  - unfold run. generalize (nombres_cientificos column). intros nombres.
    change (main plat nombres (World ∅ [])
            = (Ok tt, World ∅ ([] ++ ((λ n, Print (NoEncontrada n)) <$> nombres)))).
    generalize (@nil event). induction nombres as [|n nombres IH]; intros tr.
    + by rewrite app_nil_r.
    + rewrite main_cons. rewrite renombrar_carpeta_no_match.
      * simpl. rewrite IH. by rewrite <- app_assoc.
      * simpl. by rewrite dom_empty_L, elements_empty.
Qed.

(** The column may hold a name twice; both cells are processed. *)
Lemma C3_counterexample :
  let nombres := nombres_cientificos
                   [Some "Mimosa pudica"; None; Some "Mimosa pudica"] in
  ¬ NoDup nombres
  ∧ run (H:=Difflib.matcher) Windows nombres ∅
    = (Ok tt, World ∅ [Print (NoEncontrada "Mimosa pudica");
                       Print (NoEncontrada "Mimosa pudica")]).
Proof.
  split.
  - intros Hnd. simpl in Hnd. apply NoDup_cons in Hnd as [Hnin _].
    apply Hnin. left.
  - vm_compute. reflexivity.
Qed.

(** ** The image loop computes [renumber] *)

Lemma eligible_bool f :
  bool_decide (eligible f) = bool_decide (extension f ∈ extensiones_validas).
Proof. by apply bool_decide_ext. Qed.

Section loop.
Variable plat : platform.

Lemma loop_renumber objetivo imagenes : ∀ contador w names,
  tree w !! objetivo = Some (Dir names) →
  NoDup imagenes → (∀ f, f ∈ imagenes → f ∈ names) →
  for_each (renombrar_imagen plat objetivo) imagenes contador w
  = let '(c, ns, evs) := renumber objetivo imagenes contador names in
    (Ok c, World (<[objetivo := Dir ns]> (tree w)) (trace w ++ evs)).
Proof.
  induction imagenes as [|archivo resto IH]; intros contador w names Hd Hnd Hin.
  - simpl. destruct w as [t tr]; simpl in *.
    by rewrite insert_id, app_nil_r.
  - apply NoDup_cons in Hnd as [Hnotin Hnd].
    assert (archivo ∈ names) as Harch by (apply Hin; left).
    simpl. unfold mbind, SE_bind.
    rewrite (renombrar_imagen_cases plat _ _ _ _ _ Hd Harch).
    fold (extension archivo). rewrite eligible_bool.
    case_bool_decide as Hext; [case_bool_decide as Hnuevo|].
    + rewrite (IH contador _ names); simpl; [|done..|].
      * destruct (renumber objetivo resto contador names) as [[c ns] evs].
        by rewrite <- app_assoc.
      * intros f Hf. apply Hin. by right.
    + rewrite (IH (S contador) _
                 ({[nuevo_nombre objetivo contador (extension archivo)]}
                  ∪ (names ∖ {[archivo]}))); simpl.
      * destruct (renumber objetivo resto (S contador) _) as [[c ns] evs].
        by rewrite insert_insert_eq, <- app_assoc.
      * apply lookup_insert_eq.
      * done.
      * intros f Hf. apply elem_of_union_r, elem_of_difference.
        split; [apply Hin; by right|].
        intros ->%elem_of_singleton. done.
    + apply IH; [done..|]. intros f Hf. apply Hin. by right.
Qed.

(** The listing the loop runs over. *)
Lemma sorted_listing (names : gset string) :
  NoDup (PyStr.sorted (elements names))
  ∧ ∀ f, f ∈ PyStr.sorted (elements names) ↔ f ∈ names.
Proof.
  unfold PyStr.sorted. split.
  - rewrite merge_sort_Permutation. apply NoDup_elements.
  - intros f. rewrite merge_sort_Permutation. apply elem_of_elements.
Qed.

Lemma loop_renumber_sorted objetivo w names :
  tree w !! objetivo = Some (Dir names) →
  for_each (renombrar_imagen plat objetivo) (PyStr.sorted (elements names)) 1 w
  = let '(c, ns, evs) :=
      renumber objetivo (PyStr.sorted (elements names)) 1 names in
    (Ok c, World (<[objetivo := Dir ns]> (tree w)) (trace w ++ evs)).
Proof.
  intros Hd. destruct (sorted_listing names) as [Hnd Hin].
  apply loop_renumber; [done..|]. intros f. apply Hin.
Qed.
End loop.

(** ** Names of the form [{objetivo}_{contador:02d}{ext}] *)

Lemma lower_char_not_upper c : PyStr.lower_char c ≠ "J"%char.
Proof. by destruct c as [[] [] [] [] [] [] [] []]. Qed.

Lemma lower_not_JPG s : PyStr.lower s ≠ ".JPG".
Proof.
  destruct s as [|c0 [|c1 s]]; simpl; [done..|].
  intros [= _ Hc _]. by apply lower_char_not_upper in Hc.
Qed.

(** The extension of an eligible file is one of the three in lower case. *)
Lemma eligible_extension f :
  eligible f → extension f ∈ [".jpg"; ".jpeg"; ".png"].
Proof.
  unfold eligible, extensiones_validas. rewrite !elem_of_cons.
  intros [?|[?|[?|[HJ|?%elem_of_nil]]]]; auto; [|done].
  by apply lower_not_JPG in HJ.
Qed.

Lemma rfind_dot_app p rest i :
  PyStr.rfind_dot rest = Some i →
  PyStr.rfind_dot (p +:+ rest) = Some (String.length p + i).
Proof. intros Hr. induction p as [|c p IH]; simpl; [done|]. by rewrite IH. Qed.

Lemma has_non_dot_app t k r :
  PyStr.has_non_dot (String.length t + S k) (t +:+ String "_" r) = true.
Proof.
  induction t as [|c t IH]; simpl; [done|]. rewrite IH. apply orb_true_r.
Qed.

Lemma drop_chars_app p rest :
  PyStr.drop_chars (String.length p) (p +:+ rest) = rest.
Proof. induction p as [|c p IH]; simpl; [by destruct rest|done]. Qed.

Lemma string_app_length s1 s2 :
  String.length (s1 +:+ s2) = String.length s1 + String.length s2.
Proof. induction s1 as [|c s1 IH]; simpl; [done|]. by rewrite IH. Qed.

Lemma string_app_assoc s1 s2 s3 : (s1 +:+ s2) +:+ s3 = s1 +:+ s2 +:+ s3.
Proof.
  induction s1 as [|c s1 IH]; [done|].
  change (String c ((s1 +:+ s2) +:+ s3) = String c (s1 +:+ s2 +:+ s3)).
  by rewrite IH.
Qed.

(** The extension of a candidate name is the extension it was built with. *)
Lemma extension_nuevo_nombre objetivo contador e :
  e ∈ [".jpg"; ".jpeg"; ".png"] →
  extension (nuevo_nombre objetivo contador e) = e.
Proof.
  intros He. unfold extension, nuevo_nombre, PyStr.splitext_ext.
  set (num := PyStr.format_02d contador).
  assert (objetivo +:+ "_" +:+ num +:+ e
          = (objetivo +:+ "_" +:+ num) +:+ e) as ->.
  { by rewrite !string_app_assoc. }
  assert (PyStr.rfind_dot e = Some 0 ∧ PyStr.lower e = e) as [Hdot Hlow].
  { rewrite !elem_of_cons in He.
    destruct He as [->|[->|[->|?%elem_of_nil]]]; done. }
  rewrite (rfind_dot_app _ _ _ Hdot), Nat.add_0_r.
  assert (PyStr.has_non_dot (String.length (objetivo +:+ "_" +:+ num))
            ((objetivo +:+ "_" +:+ num) +:+ e) = true) as ->.
  { rewrite string_app_length. simpl String.length.
    rewrite string_app_assoc. apply has_non_dot_app. }
  by rewrite drop_chars_app.
Qed.

Lemma eligible_nuevo_nombre objetivo contador f :
  eligible f →
  eligible (nuevo_nombre objetivo contador (extension f))
  ∧ extension (nuevo_nombre objetivo contador (extension f)) = extension f.
Proof.
  intros Hf. pose proof (eligible_extension f Hf) as He.
  unfold eligible. by rewrite (extension_nuevo_nombre _ _ _ He).
Qed.

Lemma to_uint_not_nil n : Nat.to_uint n ≠ Decimal.Nil.
Proof.
  intros Hn. pose proof (DecimalNat.Unsigned.of_to n) as Ho.
  rewrite Hn in Ho. simpl in Ho. subst n. discriminate Hn.
Qed.

(** [format_02d] can be read back. *)
Lemma format_02d_decode n :
  Nat.of_uint <$> NilEmpty.uint_of_string (PyStr.format_02d n) = Some n.
Proof.
  unfold PyStr.format_02d.
  assert (NilZero.string_of_uint (Nat.to_uint n)
          = NilEmpty.string_of_uint (Nat.to_uint n)) as ->.
  { pose proof (to_uint_not_nil n).
    by destruct (Nat.to_uint n). }
  case_match.
  - change (Nat.of_uint <$> uint_of_char "0"
              (NilEmpty.uint_of_string (NilEmpty.string_of_uint (Nat.to_uint n)))
            = Some n).
    rewrite NilEmpty.usu.
    change (Some (Nat.of_uint (Nat.to_uint n)) = Some n).
    by rewrite DecimalNat.Unsigned.of_to.
  - rewrite NilEmpty.usu. simpl. f_equal. apply DecimalNat.Unsigned.of_to.
Qed.

Lemma digits_then_dot s1 s2 r1 r2 :
  is_Some (NilEmpty.uint_of_string s1) → is_Some (NilEmpty.uint_of_string s2) →
  s1 +:+ String "." r1 = s2 +:+ String "." r2 → s1 = s2.
Proof.
  revert s2. induction s1 as [|a1 s1 IH]; intros [|a2 s2]; simpl.
  - done.
  - intros _ [d Hd] [= <- _]. destruct (NilEmpty.uint_of_string s2); done.
  - intros [d Hd] _ [= -> _]. destruct (NilEmpty.uint_of_string s1); done.
  - intros [d1 Hd1] [d2 Hd2] [= -> Heq]. f_equal. apply IH; [| |done].
    + destruct (NilEmpty.uint_of_string s1); [by eexists|done].
    + destruct (NilEmpty.uint_of_string s2); [by eexists|done].
Qed.

(** Candidate names with different counters differ. *)
Lemma nuevo_nombre_inj objetivo c1 c2 e1 e2 :
  e1 ∈ [".jpg"; ".jpeg"; ".png"] → e2 ∈ [".jpg"; ".jpeg"; ".png"] →
  nuevo_nombre objetivo c1 e1 = nuevo_nombre objetivo c2 e2 → c1 = c2.
Proof.
  intros He1 He2. unfold nuevo_nombre.
  intros Heq%(inj (String.app _))%(inj (String.app _)).
  assert (PyStr.format_02d c1 = PyStr.format_02d c2) as Hfmt.
  { pose proof (format_02d_decode c1) as H1.
    pose proof (format_02d_decode c2) as H2.
    rewrite !elem_of_cons in He1. rewrite !elem_of_cons in He2.
    destruct He1 as [->|[->|[->|?%elem_of_nil]]]; [| |  |done];
    destruct He2 as [->|[->|[->|?%elem_of_nil]]]; try done;
      (eapply digits_then_dot; [| |exact Heq];
       [by destruct (NilEmpty.uint_of_string (PyStr.format_02d c1))
       |by destruct (NilEmpty.uint_of_string (PyStr.format_02d c2))]). }
  pose proof (format_02d_decode c1) as H1. rewrite Hfmt in H1.
  rewrite format_02d_decode in H1. congruence.
Qed.

(** ** What the image loop does to the names of a directory *)

Section renumber_facts.
Variable objetivo : string.

(** Files that are not eligible do not count. *)
Lemma renumber_filter imagenes : ∀ contador names,
  renumber objetivo imagenes contador names
  = renumber objetivo (filter eligible imagenes) contador names.
Proof.
  induction imagenes as [|f resto IH]; intros contador names; [done|].
  rewrite filter_cons. simpl. destruct (decide (eligible f)) as [He|He].
  - simpl. rewrite bool_decide_true by done.
    case_bool_decide; by rewrite IH.
  - rewrite bool_decide_false by done. apply IH.
Qed.

(** No rename of the loop lands on a name that is there, and the number of
    names stays the same. *)
Lemma renumber_no_clobber imagenes : ∀ contador names,
  NoDup imagenes → (∀ f, f ∈ imagenes → f ∈ names) →
  no_clobber objetivo names (renumber objetivo imagenes contador names).2
  ∧ size (renumber objetivo imagenes contador names).1.2 = size names.
Proof.
  induction imagenes as [|f resto IH]; intros contador names Hnd Hin; [done|].
  apply NoDup_cons in Hnd as [Hf Hnd].
  assert (f ∈ names) as Hfn by (apply Hin; left).
  assert (∀ g, g ∈ resto → g ∈ names) as Hin' by (intros; apply Hin; by right).
  simpl. case_bool_decide as He; [case_bool_decide as Hn|].
  - specialize (IH contador names Hnd Hin').
    by destruct (renumber objetivo resto contador names) as [[c ns] evs].
  - set (nuevo := nuevo_nombre objetivo contador (extension f)) in *.
    destruct (IH (S contador) ({[nuevo]} ∪ (names ∖ {[f]})) Hnd) as [IH1 IH2].
    { intros g Hg. apply elem_of_union_r, elem_of_difference.
      split; [by apply Hin'|]. intros ->%elem_of_singleton. done. }
    destruct (renumber objetivo resto (S contador) _) as [[c ns] evs].
    simpl in *. split; [done|]. rewrite IH2.
    rewrite size_union by set_solver.
    rewrite size_singleton, size_difference by set_solver.
    rewrite size_singleton.
    assert (0 < size names); [|lia].
    apply Nat.neq_0_lt_0. intros Hz%size_empty_inv. set_solver.
  - by apply IH.
Qed.

(** The sources of the renames are eligible files of the listing, the
    destinations are candidate names, and a name that is not eligible is
    in the directory afterwards exactly if it was before. *)
Lemma renumber_untouched imagenes : ∀ contador names,
  let '(_, ns, evs) := renumber objetivo imagenes contador names in
  (∀ d src dst, FileRename d src dst ∈ evs →
     d = objetivo ∧ src ∈ imagenes ∧ eligible src
     ∧ ∃ c, dst = nuevo_nombre objetivo c (extension src))
  ∧ (∀ f, ¬ eligible f → f ∈ ns ↔ f ∈ names).
Proof.
  induction imagenes as [|f resto IH]; intros contador names.
  - simpl. split; [by intros ??? ?%elem_of_nil|done].
  - simpl. case_bool_decide as He; [case_bool_decide as Hn|].
    + specialize (IH contador names).
      destruct (renumber objetivo resto contador names) as [[c ns] evs].
      destruct IH as [IH1 IH2]. split; [|done].
      intros d src dst [?|Hin]%elem_of_cons; [done|].
      destruct (IH1 _ _ _ Hin) as (? & ? & ? & ?).
      split_and!; [done|by right|done..].
    + set (nuevo := nuevo_nombre objetivo contador (extension f)) in *.
      specialize (IH (S contador) ({[nuevo]} ∪ (names ∖ {[f]}))).
      destruct (renumber objetivo resto (S contador) _) as [[c ns] evs].
      destruct IH as [IH1 IH2]. split.
      * intros d src dst [Heq|[?|Hin]%elem_of_cons]%elem_of_cons; [|done|].
        { simplify_eq. split_and!; [done|left|done|by eexists]. }
        destruct (IH1 _ _ _ Hin) as (? & ? & ? & ?).
        split_and!; [done|by right|done..].
      * intros g Hg. rewrite (IH2 g Hg).
        rewrite elem_of_union, elem_of_difference, !elem_of_singleton.
        split; [|naive_solver].
        intros [->|[? _]]; [|done].
        destruct Hg. by apply eligible_nuevo_nombre.
    + specialize (IH contador names).
      destruct (renumber objetivo resto contador names) as [[c ns] evs].
      destruct IH as [IH1 IH2]. split; [|done].
      intros d src dst Hin. destruct (IH1 _ _ _ Hin) as (? & ? & ? & ?).
      split_and!; [done|by right|done..].
Qed.

(** A settled directory stays as it is: every eligible file is passed over. *)
Lemma renumber_settled imagenes names :
  settled objetivo names → (∀ f, f ∈ imagenes → f ∈ names) →
  ∃ evs, renumber objetivo imagenes 1 names = (1, names, evs)
         ∧ Forall (λ ev, is_rename ev = false) evs.
Proof.
  intros Hs. induction imagenes as [|f resto IH]; intros Hin.
  - by exists [].
  - destruct IH as (evs & IH & Hevs); [intros; apply Hin; by right|].
    simpl. rewrite IH. case_bool_decide as He.
    + rewrite bool_decide_true by (apply Hs; [apply Hin; left|done]).
      eexists. split; [done|]. by constructor.
    + by exists evs.
Qed.
End renumber_facts.

Section renumber_outcomes.
Variable objetivo : string.

Lemma renamed_to_cons contador f resto :
  renamed_to objetivo contador (f :: resto)
  = nuevo_nombre objetivo contador (extension f)
    :: renamed_to objetivo (S contador) resto.
Proof.
  unfold renamed_to. simpl. rewrite Nat.add_0_r. f_equal.
  apply imap_ext. intros i x _. simpl. f_equal. lia.
Qed.

Lemma rename_events_cons contador f resto :
  rename_events objetivo contador (f :: resto)
  = FileRename objetivo f (nuevo_nombre objetivo contador (extension f))
    :: Print (ImagenRenombrada f (nuevo_nombre objetivo contador (extension f)))
    :: rename_events objetivo (S contador) resto.
Proof.
  unfold rename_events. simpl. rewrite Nat.add_0_r. do 3 f_equal.
  apply imap_ext. intros i x _. simpl.
  by replace (contador + S i) with (S (contador + i)) by lia.
Qed.

Lemma renumber_all_free elegibles : ∀ contador names,
  NoDup elegibles → (∀ f, f ∈ elegibles → f ∈ names ∧ eligible f) →
  (∀ k e, contador ≤ k → e ∈ [".jpg"; ".jpeg"; ".png"] →
          nuevo_nombre objetivo k e ∉ names) →
  renumber objetivo elegibles contador names
  = (contador + List.length elegibles,
     (names ∖ list_to_set elegibles) ∪ list_to_set (renamed_to objetivo contador elegibles),
     rename_events objetivo contador elegibles).
Proof.
  induction elegibles as [|f resto IH]; intros contador names Hnd Hin Hfree.
  - simpl. rewrite Nat.add_0_r. do 2 f_equal.
    unfold renamed_to. simpl. set_solver.
  - apply NoDup_cons in Hnd as [Hf Hnd].
    destruct (Hin f) as [Hfn He]; [left|].
    pose proof (eligible_extension f He) as Hext.
    set (nuevo := nuevo_nombre objetivo contador (extension f)).
    assert (nuevo ∉ names) as Hnuevo by (apply Hfree; [lia|done]).
    cbn [renumber]. rewrite bool_decide_true by done.
    fold nuevo. rewrite bool_decide_false by done.
    rewrite (IH (S contador)); [|done| |].
    + rewrite renamed_to_cons, rename_events_cons. fold nuevo.
      assert (nuevo ∉ resto).
      { intros Hr. apply Hnuevo. by apply Hin; right. }
      do 2 f_equal.
      * simpl. lia.
      * rewrite !list_to_set_cons. set_solver.
    + intros g Hg. destruct (Hin g) as [? ?]; [by right|].
      split; [|done]. apply elem_of_union_r, elem_of_difference.
      split; [done|]. intros ->%elem_of_singleton. done.
    + intros k e Hk He'.
      rewrite elem_of_union, elem_of_singleton, elem_of_difference.
      intros [Heq|[Hk' _]].
      * apply nuevo_nombre_inj in Heq; [lia|done..].
      * revert Hk'. apply Hfree; [lia|done].
Qed.

(** After the loop over the whole listing of a directory in which the
    eligible files share one extension, the directory is settled, and the
    eligible files still share one extension. *)
Lemma renumber_settles imagenes : ∀ contador names,
  NoDup imagenes → (∀ f, f ∈ imagenes → f ∈ names) →
  one_extension names → 1 ≤ contador →
  (∀ f, f ∈ names → eligible f →
        f ∈ imagenes ∨ nuevo_nombre objetivo 1 (extension f) ∈ names) →
  (1 < contador → ∀ f, f ∈ names → eligible f →
        nuevo_nombre objetivo 1 (extension f) ∈ names
        ∧ nuevo_nombre objetivo 1 (extension f) ∉ imagenes) →
  settled objetivo (renumber objetivo imagenes contador names).1.2
  ∧ one_extension (renumber objetivo imagenes contador names).1.2.
Proof.
  induction imagenes as [|f resto IH];
    intros contador names Hnd Hin Hone Hc Hleft Hdone.
  - simpl. split; [|done]. intros f Hf He.
    by destruct (Hleft f Hf He) as [?%elem_of_nil|?].
  - apply NoDup_cons in Hnd as [Hf Hnd].
    assert (f ∈ names) as Hfn by (apply Hin; left).
    assert (∀ g, g ∈ resto → g ∈ names) as Hin' by (intros; apply Hin; by right).
    simpl. case_bool_decide as He; [case_bool_decide as Hn|].
    + (* the candidate is taken *)
      specialize (IH contador names Hnd Hin' Hone Hc).
      destruct (renumber objetivo resto contador names) as [[c ns] evs].
      apply IH.
      * intros g Hg Heg. right.
        destruct (decide (contador = 1)) as [->|Hne].
        -- by rewrite (Hone g f).
        -- apply Hdone; [lia|done..].
      * intros Hlt g Hg Heg. destruct (Hdone Hlt g Hg Heg) as [? Hnotin].
        split; [done|]. intros ?. apply Hnotin. by right.
    + (* the file is renamed *)
      set (nuevo := nuevo_nombre objetivo contador (extension f)) in *.
      destruct (eligible_nuevo_nombre objetivo contador f He) as [Hen Hxn].
      fold nuevo in Hen, Hxn.
      assert (∀ g, g ∈ ({[nuevo]} ∪ (names ∖ {[f]}) : gset string) →
                   eligible g → extension g = extension f) as Hext.
      { intros g [->%elem_of_singleton|[Hg _]%elem_of_difference]%elem_of_union Heg;
          [done|]. by apply Hone. }
      assert (nuevo_nombre objetivo 1 (extension f)
                ∈ ({[nuevo]} ∪ (names ∖ {[f]}) : gset string)
              ∧ nuevo_nombre objetivo 1 (extension f) ∉ resto) as [Hone_in Hone_out].
      { destruct (decide (contador = 1)) as [->|Hne].
        - split; [set_solver|]. intros Hr. apply Hn. by apply Hin'.
        - destruct (Hdone ltac:(lia) f Hfn He) as [Hin1 Hout1].
          split.
          + apply elem_of_union_r, elem_of_difference. split; [done|].
            intros Heq%elem_of_singleton. apply Hout1. rewrite Heq. left.
          + intros Hr. apply Hout1. by right. }
      specialize (IH (S contador) ({[nuevo]} ∪ (names ∖ {[f]})) Hnd).
      destruct (renumber objetivo resto (S contador) _) as [[c ns] evs].
      apply IH.
      * intros g Hg. apply elem_of_union_r, elem_of_difference.
        split; [by apply Hin'|]. intros ->%elem_of_singleton. done.
      * intros g1 g2 Hg1 Hg2 He1 He2.
        by rewrite (Hext g1), (Hext g2).
      * lia.
      * intros g Hg Heg. right. by rewrite (Hext g).
      * intros _ g Hg Heg. by rewrite (Hext g).
    + (* not an image *)
      specialize (IH contador names Hnd Hin' Hone Hc).
      destruct (renumber objetivo resto contador names) as [[c ns] evs].
      apply IH.
      * intros g Hg Heg. destruct (Hleft g Hg Heg) as [Hl|?]; [|by right].
        apply elem_of_cons in Hl as [->|?]; [done|by left].
      * intros Hlt g Hg Heg. destruct (Hdone Hlt g Hg Heg) as [? Hnotin].
        split; [done|]. intros ?. apply Hnotin. by right.
Qed.
End renumber_outcomes.

(** ** C7: which files are renumbered, and in which order *)

Section eligible_files.
Variable plat : platform.

Lemma for_each_filter_eligible objetivo imagenes : ∀ contador w,
  for_each (renombrar_imagen plat objetivo) imagenes contador w
  = for_each (renombrar_imagen plat objetivo) (filter eligible imagenes) contador w.
Proof.
  induction imagenes as [|f resto IH]; intros contador w; [done|].
  rewrite filter_cons. destruct (decide (eligible f)) as [He|He].
  - simpl. unfold mbind, SE_bind.
    destruct (renombrar_imagen plat objetivo contador f w) as [[c|e] w1];
      [apply IH|done].
  - rewrite <- IH. simpl. unfold mbind, SE_bind, renombrar_imagen.
    by rewrite bool_decide_false by done.
Qed.


End eligible_files.


(** The example of the specification, from the tree before to the tree
    after, on either platform. *)
Example mimosa_run plat :
  run (H:=Difflib.matcher) plat ["Mimosa pudica"] mimosa
  = (Ok tt, World mimosa_1
      [FileRename "Mimosa_pudica" "img1.jpg" "Mimosa_pudica_01.jpg";
       Print (ImagenRenombrada "img1.jpg" "Mimosa_pudica_01.jpg");
       FileRename "Mimosa_pudica" "img2.png" "Mimosa_pudica_02.png";
       Print (ImagenRenombrada "img2.png" "Mimosa_pudica_02.png")]).
Proof. destruct plat; vm_compute; reflexivity. Qed.

(** ** C4: no file is overwritten *)




(** ** What a run adds to the trace *)

Lemma emits_ret {A} P (a : A) : emits P (mret a).
Proof. intros w r w' [= <- <-]. exists []. by rewrite app_nil_r. Qed.

Lemma emits_raise {A} P e : emits P (@raise A e).
Proof. intros w r w' [= <- <-]. exists []. by rewrite app_nil_r. Qed.

Lemma emits_get_tree P : emits P get_tree.
Proof. intros w r w' [= <- <-]. exists []. by rewrite app_nil_r. Qed.

Lemma emits_put_tree P t : emits P (put_tree t).
Proof. intros w r w' [= <- <-]. exists []. by rewrite app_nil_r. Qed.

Lemma emits_emit (P : event → Prop) ev : P ev → emits P (emit ev).
Proof. intros Hev w r w' [= <- <-]. exists [ev]. split; [done|]. by constructor. Qed.

Lemma emits_bind {A B} P (m : M A) (f : A → M B) :
  emits P m → (∀ a, emits P (f a)) → emits P (m ≫= f).
Proof.
  intros Hm Hf w r w'. unfold mbind, SE_bind.
  destruct (m w) as [[a|e] w1] eqn:Hmw.
  - intros Hfa. destruct (Hm _ _ _ Hmw) as (evs1 & Htr1 & H1).
    destruct (Hf _ _ _ _ Hfa) as (evs2 & Htr2 & H2).
    exists (evs1 ++ evs2). rewrite Htr2, Htr1, app_assoc.
    split; [done|by apply Forall_app].
  - intros [= <- <-]. by eapply Hm.
Qed.

Lemma emits_for_each {A S} P (body : S → A → M S) xs acc :
  (∀ s x, emits P (body s x)) → emits P (for_each body xs acc).
Proof.
  intros Hb. revert acc. induction xs as [|x xs IH]; intros acc; simpl.
  - apply emits_ret.
  - apply emits_bind; [apply Hb|done].
Qed.

Ltac emits_tac :=
  repeat first
    [ apply emits_ret | apply emits_raise | apply emits_get_tree
    | apply emits_put_tree | apply emits_emit; done
    | apply emits_bind; [|intros ?]
    | match goal with
      | |- emits _ (match ?x with _ => _ end) => destruct x
      | |- emits _ (if ?b then _ else _) => destruct b
      end ].

Lemma dir_renames_app evs1 evs2 :
  dir_renames (evs1 ++ evs2) = dir_renames evs1 ++ dir_renames evs2.
Proof. apply omap_app. Qed.

Lemma dir_renames_none evs : Forall not_dir_rename evs → dir_renames evs = [].
Proof.
  induction 1 as [|ev evs Hev _ IH]; [done|].
  destruct ev; [done|exact IH..].
Qed.

Section trace_facts.
Context `{Matcher}.
Variable plat : platform.

Lemma emits_listdir P dir : emits P (listdir dir).
Proof. unfold listdir. emits_tac. Qed.

Lemma emits_renombrar_imagen objetivo contador archivo :
  emits not_dir_rename (renombrar_imagen plat objetivo contador archivo).
Proof.
  unfold renombrar_imagen, path_exists, rename_file, print. emits_tac.
Qed.

Lemma emits_image_loop objetivo imagenes contador :
  emits not_dir_rename
    (for_each (renombrar_imagen plat objetivo) imagenes contador).
Proof. apply emits_for_each. intros. apply emits_renombrar_imagen. Qed.

(** A call of [os.rename] on entries with different names that returns. *)
Lemma rename_entry_ok src dst w w1 :
  src ≠ dst → rename_entry plat src dst w = (Ok tt, w1) →
  ∃ e, tree w !! src = Some e
       ∧ tree w1 = <[dst := e]> (delete src (tree w))
       ∧ trace w1 = trace w ++ [DirRename src dst].
Proof.
  intros Hne. unfold rename_entry. munfold. simpl.
  destruct (tree w !! src) as [e|] eqn:Hsrc; [|done].
  rewrite bool_decide_false by done.
  destruct (tree w !! dst) as [e'|] eqn:Hdst.
  - destruct plat, e, e'; try done.
    + intros [= <-]. by exists File.
    + case_bool_decide; [|done]. intros [= <-]. by eexists.
  - intros [= <-]. by exists e.
Qed.

Lemma rename_entry_trace src dst w r w1 :
  rename_entry plat src dst w = (r, w1) →
  trace w1 = trace w ++ [DirRename src dst].
Proof.
  unfold rename_entry. munfold. simpl.
  destruct (tree w !! src) as [e|]; [|by intros [= <- <-]].
  case_bool_decide; [by intros [= <- <-]|].
  destruct (tree w !! dst) as [e'|]; [|by intros [= <- <-]].
  destruct plat, e, e'; try (by intros [= <- <-]).
  case_bool_decide; by intros [= <- <-].
Qed.
End trace_facts.

(** ** C2: which directories a run renames *)

Section directory_renames.
Context `{Matcher}.
Variable plat : platform.

Lemma emits_renombrar_imagenes objetivo :
  emits not_dir_rename (renombrar_imagenes plat objetivo).
Proof.
  unfold renombrar_imagenes.
  apply emits_bind; [apply emits_listdir|]. intros nombres.
  apply emits_bind; [apply emits_image_loop|]. intros _. apply emits_ret.
Qed.

Lemma renombrar_carpeta_matched nombre w encontrada l :
  let objetivo := PyStr.replace_space nombre in
  get_close_matches objetivo (elements (dom (tree w))) = encontrada :: l →
  renombrar_carpeta plat nombre w
  = ((if bool_decide (encontrada ≠ objetivo) then
        rename_entry plat encontrada objetivo;;
        print (CarpetaRenombrada encontrada objetivo)
      else mret tt);;
     renombrar_imagenes plat objetivo) w.
Proof.
  intros objetivo Hg. unfold renombrar_carpeta. fold objetivo.
  rewrite (bind_ok _ _ _ _ _ (listdir_base_eq w)). by rewrite Hg.
Qed.

(** One iteration issues at most one rename of a directory: of the best
    match, when it is not named like the target. *)
Lemma renombrar_carpeta_dir_renames nombre w :
  let objetivo := PyStr.replace_space nombre in
  ∃ evs, trace (renombrar_carpeta plat nombre w).2 = trace w ++ evs
    ∧ (dir_renames evs = []
       ∨ ∃ encontrada,
           dir_renames evs = [(encontrada, objetivo)]
           ∧ encontrada ≠ objetivo
           ∧ encontrada ∈ get_close_matches objetivo (elements (dom (tree w)))).
Proof.
  intros objetivo.
  destruct (get_close_matches objetivo (elements (dom (tree w))))
    as [|encontrada l] eqn:Hg.
  - rewrite renombrar_carpeta_no_match by done. simpl. eauto.
  - rewrite (renombrar_carpeta_matched _ _ _ _ Hg). fold objetivo.
    case_bool_decide as Hne.
    + unfold mbind at 1 2, SE_bind at 1 2.
      destruct (rename_entry plat encontrada objetivo w) as [[[]|e] w1] eqn:Hre;
        apply rename_entry_trace in Hre.
      * unfold print, emit at 1.
        destruct (renombrar_imagenes plat objetivo _) as [r w'] eqn:Hrest.
        apply emits_renombrar_imagenes in Hrest as (evs & Htr & Hevs).
        simpl in *. rewrite Htr, Hre, <- !app_assoc.
        eexists. split; [done|]. right. exists encontrada.
        split_and!; [|done|left].
        rewrite !dir_renames_app, (dir_renames_none evs) by done. done.
      * simpl. rewrite Hre. eexists. split; [done|]. right.
        exists encontrada. split_and!; [done..|left].
    + unfold mbind at 1, SE_bind at 1, mret at 1, SE_ret at 1.
      destruct (renombrar_imagenes plat objetivo w) as [r w'] eqn:Hrest.
      apply emits_renombrar_imagenes in Hrest as (evs & Htr & Hevs).
      exists evs. split; [done|]. left. by apply dir_renames_none.
Qed.

End directory_renames.


(** ** C1: a second run *)

Section second_run.
Context `{Matcher}.
Variable plat : platform.

(** An iteration with a match that returns: the tree before the image
    loop is the tree with the match under the target name, the target is
    a directory, and the loop renumbers it. *)
Lemma renombrar_carpeta_ok nombre w w' encontrada l :
  let objetivo := PyStr.replace_space nombre in
  get_close_matches objetivo (elements (dom (tree w))) = encontrada :: l →
  renombrar_carpeta plat nombre w = (Ok tt, w') →
  ∃ tree_a names,
    ((encontrada = objetivo ∧ tree_a = tree w)
     ∨ (encontrada ≠ objetivo
        ∧ ∃ e, tree w !! encontrada = Some e
               ∧ tree_a = <[objetivo := e]> (delete encontrada (tree w))))
    ∧ tree_a !! objetivo = Some (Dir names)
    ∧ tree w'
      = <[objetivo :=
            Dir (renumber objetivo (PyStr.sorted (elements names)) 1 names).1.2]>
          tree_a.
Proof.
  intros objetivo Hg. rewrite (renombrar_carpeta_matched _ _ _ _ _ Hg).
  fold objetivo.
  match goal with |- (?m ≫= _) w = _ → _ => set (m1 := m) end.
  unfold mbind at 1, SE_bind at 1.
  destruct (m1 w) as [[[]|e] w2] eqn:Hfirst; [|done]. subst m1.
  assert ((encontrada = objetivo ∧ tree w2 = tree w)
     ∨ (encontrada ≠ objetivo
        ∧ ∃ e, tree w !! encontrada = Some e
               ∧ tree w2 = <[objetivo := e]> (delete encontrada (tree w))))
    as Htree.
  { revert Hfirst. case_bool_decide as Hne.
    - unfold mbind, SE_bind.
      destruct (rename_entry plat encontrada objetivo w) as [[[]|e] w1] eqn:Hre;
        [|done].
      apply rename_entry_ok in Hre as (e & He & Ht & _); [|done].
      intros [= <-]. right. split; [done|]. by exists e.
    - intros [= <-]. left. split; [|done].
      by destruct (decide (encontrada = objetivo)). }
  unfold renombrar_imagenes, listdir. munfold.
  destruct (tree w2 !! objetivo) as [[|names]|] eqn:Hd; [done| |done].
  pose proof (loop_renumber_sorted plat objetivo w2 names Hd) as Hloop.
  destruct (renumber objetivo (PyStr.sorted (elements names)) 1 names)
    as [[c ns] evs] eqn:Hren.
  rewrite Hloop. intros [= <-]. exists (tree w2), names. by rewrite Hren.
Qed.

(** An iteration keeps the tree well for the targets it was kept well
    for, and for its own target if a name equal to the target passes the
    tests of the fuzzy match. *)
Lemma renombrar_carpeta_keeps (U : string → Prop) nombre w w' :
  let objetivo := PyStr.replace_space nombre in
  renombrar_carpeta plat nombre w = (Ok tt, w') →
  well_kept U (tree w) →
  well_kept (λ o, U o ∨ (o = objetivo ∧ close_enough o o = true)) (tree w').
Proof.
  intros objetivo Hrun [Hone Hkept].
  destruct (get_close_matches objetivo (elements (dom (tree w))))
    as [|encontrada l] eqn:Hg.
  - rewrite renombrar_carpeta_no_match in Hrun by done.
    injection Hrun as <-. simpl. split; [done|].
    intros o e [HU|[-> Hclose]] Ho; [by eapply Hkept|].
    assert (close_enough objetivo objetivo = false) as Hfalse; [|congruence].
    eapply get_close_matches_nil; [done|].
    apply elem_of_elements, elem_of_dom. by eexists.
  - destruct (renombrar_carpeta_ok _ _ _ _ _ Hg Hrun)
      as (tree_a & names & Htree & Hd & ->).
    assert (∀ d e, d ≠ objetivo → tree_a !! d = Some e → tree w !! d = Some e)
      as Hother.
    { intros d e Hne. destruct Htree as [[_ ->]|(_ & e' & _ & ->)]; [done|].
      rewrite lookup_insert_ne by done. by intros [_ ?]%lookup_delete_Some. }
    assert (one_extension names) as Hnames.
    { destruct Htree as [[_ ->]|(_ & e' & He' & ->)]; [by eapply Hone|].
      rewrite lookup_insert_eq in Hd. simplify_eq. by eapply Hone. }
    destruct (sorted_listing names) as [Hnd Hin].
    destruct (renumber_settles objetivo _ 1 names Hnd (λ f, proj1 (Hin f)) Hnames)
      as [Hsettled Hone'].
    { lia. }
    { intros f Hf _. left. by apply Hin. }
    { lia. }
    split.
    + intros d ns. destruct (decide (d = objetivo)) as [->|Hne].
      * rewrite lookup_insert_eq. by intros [= <-].
      * rewrite lookup_insert_ne by done. intros Hd'.
        eapply Hone, Hother; done.
    + intros o e HU. destruct (decide (o = objetivo)) as [->|Hne].
      * rewrite lookup_insert_eq. intros [= <-]. by eexists.
      * rewrite lookup_insert_ne by done. intros Ho.
        destruct HU as [HU|[? _]]; [|done].
        eapply Hkept; [done|]. by apply Hother.
Qed.

Lemma main_ok_cons nombre resto w w' :
  main plat (nombre :: resto) w = (Ok tt, w') →
  ∃ w1, renombrar_carpeta plat nombre w = (Ok tt, w1)
        ∧ main plat resto w1 = (Ok tt, w').
Proof.
  rewrite main_cons.
  destruct (renombrar_carpeta plat nombre w) as [[[]|e] w1]; [|done]. eauto.
Qed.

Lemma main_keeps nombres : ∀ (U : string → Prop) w w',
  main plat nombres w = (Ok tt, w') →
  well_kept U (tree w) →
  well_kept (λ o, U o ∨ ∃ nombre, nombre ∈ nombres
                       ∧ o = PyStr.replace_space nombre
                       ∧ close_enough o o = true) (tree w').
Proof.
  induction nombres as [|nombre resto IH]; intros U w w' Hrun Hkept.
  - injection Hrun as <-. destruct Hkept as [Hone Hk]. split; [done|].
    intros o e [HU|(n & ?%elem_of_nil & _)]; [by apply Hk|done].
  - apply main_ok_cons in Hrun as (w1 & Hstep & Hrest).
    apply (renombrar_carpeta_keeps U) in Hstep; [|done].
    destruct (IH _ _ _ Hrest Hstep) as [Hone Hk]. split; [done|].
    intros o e HU. apply Hk.
    destruct HU as [HU|(n & [->|Hn]%elem_of_cons & -> & Hc)].
    + by left; left.
    + left; right. done.
    + right. by exists n.
Qed.

(** An iteration whose best match is the target itself, in a tree where
    the target is a settled directory: nothing is renamed. *)
Lemma renombrar_carpeta_settled nombre w names :
  let objetivo := PyStr.replace_space nombre in
  get_close_matches objetivo (elements (dom (tree w))) = [objetivo] →
  tree w !! objetivo = Some (Dir names) → settled objetivo names →
  ∃ evs, renombrar_carpeta plat nombre w = (Ok tt, World (tree w) (trace w ++ evs))
         ∧ Forall (λ ev, is_rename ev = false) evs.
Proof.
  intros objetivo Hg Hd Hs. rewrite (renombrar_carpeta_matched _ _ _ _ _ Hg).
  fold objetivo. rewrite bool_decide_false by (intros Hne; by apply Hne).
  unfold mbind at 1, SE_bind at 1, mret at 1, SE_ret at 1.
  unfold renombrar_imagenes.
  rewrite (bind_ok _ _ _ _ _ (listdir_dir w _ _ Hd)).
  unfold mbind, SE_bind.
  rewrite (loop_renumber_sorted plat objetivo w names Hd).
  destruct (sorted_listing names) as [_ Hin].
  destruct (renumber_settled objetivo (PyStr.sorted (elements names)) names Hs)
    as (evs & -> & Hevs); [intros f; apply Hin|].
  exists evs. split; [|done]. by rewrite insert_id.
Qed.

End second_run.



(** ** C10: [optimize_image] returns a dictionary *)

Section optimize_image_facts.
Import OptimizeImages.
Context `{Collaborators W Img}.

Lemma after_getsize_returns image_path max_size quality img bytes w d w' :
  after_getsize image_path max_size quality img bytes w = (Ok d, w') →
  d !! "success" = Some (VBool true)
  ∧ dom d = {[ "success"; "original_kb"; "new_kb"; "reduction"; "resized" ]}.
Proof.
  unfold after_getsize, mbind, SE_bind.
  destruct (to_rgb img w) as [[img1|e] w1]; [|done].
  destruct (shrink img1 max_size w1) as [[[img2 resized]|e] w2]; [|done].
  destruct (save img2 image_path quality w2) as [[[]|e] w3]; [|done].
  destruct (getsize image_path w3) as [[bytes'|e] w4]; [|done].
  destruct (truediv _ _ w4) as [[quotient|e] w5]; [|done].
  intros [= <- <-]. split; [done|].
  rewrite !dom_insert_L, dom_singleton_L. set_solver.
Qed.

(** With an original size of zero the division of line 46 is reached only
    to fail: nothing after the first [getsize] returns. *)
Lemma after_getsize_zero image_path max_size quality img w :
  ∃ e w', after_getsize image_path max_size quality img 0 w = (Raise e, w').
Proof.
  unfold after_getsize, mbind, SE_bind.
  destruct (to_rgb img w) as [[img1|e] w1]; [|eauto].
  destruct (shrink img1 max_size w1) as [[[img2 resized]|e] w2]; [|eauto].
  destruct (save img2 image_path quality w2) as [[[]|e] w3]; [|eauto].
  destruct (getsize image_path w3) as [[bytes'|e] w4]; [|eauto].
  unfold truediv. simpl. eauto.
Qed.

(** C10. For every behaviour of the image library and of the file system,
    every path and every state, [optimize_image] returns a dictionary and
    raises nothing.  When the [try] block returns, the dictionary is the
    one it built: [success] is [True] and the keys are [success],
    [original_kb], [new_kb], [reduction] and [resized].  When anything in
    the block raises [e] (opening, the codec, [getsize], the division,
    [__exit__]), the dictionary is [success: False] with [error: str(e)];
    this is what happens whenever the file has size zero. *)
Theorem C10_optimize_image_never_raises (image_path : string)
    (max_size : nat * nat) (quality : nat) (w : W) :
  ∃ d w', optimize_image image_path max_size quality w = (Ok d, w')
    ∧ ((try_block image_path max_size quality w = (Ok d, w')
        ∧ d !! "success" = Some (VBool true)
        ∧ dom d = {[ "success"; "original_kb"; "new_kb"; "reduction"; "resized" ]})
       ∨ (∃ e, try_block image_path max_size quality w = (Raise e, w')
               ∧ d = {[ "success" := VBool false; "error" := VStr (exn_str e) ]}))
    ∧ (∀ img w1 w2,
         Image_open image_path w = (Ok img, w1) →
         getsize image_path w1 = (Ok 0, w2) →
         d !! "success" = Some (VBool false)).
Proof.
  unfold optimize_image, try_except.
  destruct (try_block image_path max_size quality w) as [[d|e] w'] eqn:Hblock.
  - exists d, w'. split; [done|].
    assert (d !! "success" = Some (VBool true)
      ∧ dom d = {[ "success"; "original_kb"; "new_kb"; "reduction"; "resized" ]})
      as Hshape.
    { revert Hblock. unfold try_block, with_as.
      destruct (Image_open image_path w) as [[img|e] w1]; [|done].
      unfold mbind at 1, SE_bind at 1.
      destruct (getsize image_path w1) as [[bytes|e] w2].
      - destruct (after_getsize _ _ _ img bytes w2) as [r w3] eqn:Hafter.
        destruct (Image_exit img w3) as [[[]|e'] w4]; [|done].
        intros [= -> <-]. by eapply after_getsize_returns.
      - by destruct (Image_exit img w2) as [[[]|e'] w4]. }
    split; [left; tauto|].
    intros img w1 w2 Hopen Hsize. exfalso. revert Hblock.
    unfold try_block, with_as. rewrite Hopen.
    unfold mbind at 1, SE_bind at 1. rewrite Hsize.
    destruct (after_getsize_zero image_path max_size quality img w2)
      as (e & w3 & ->).
    by destruct (Image_exit img w3) as [[[]|e'] w4].
  - exists (failure e), w'. split; [done|]. split; [right; by exists e|].
    intros _ _ _ _ _. done.
Qed.
End optimize_image_facts.

(** * More about the code *)

From Stdlib Require Import Lqa.

(** ** The best match is the greatest [(score, name)] *)

Lemma string_ltb_false x y : String.ltb x y = false ↔ String.le y x.
Proof.
  unfold String.ltb, String.le, String.leb.
  rewrite (String.compare_antisym y x).
  destruct (String.compare x y); simpl; split; done.
Qed.

Lemma tuple_gt_false t1 t2 : tuple_gt t1 t2 = false ↔ tuple_le t1 t2.
Proof.
  unfold tuple_gt, tuple_le, Qgtb.
  destruct (Qle_bool t1.1 t2.1) eqn:Hle; simpl.
  - apply Qle_bool_iff in Hle.
    destruct (Qeq_bool t1.1 t2.1) eqn:Heq; simpl.
    + apply Qeq_bool_iff in Heq. rewrite string_ltb_false. split.
      * intros ?. by right.
      * intros [Hlt|[_ ?]]; [|done]. rewrite Heq in Hlt.
        by apply Qlt_irrefl in Hlt.
    + apply Qeq_bool_neq in Heq. split; [|done]. intros _. left.
      apply Qle_lteq in Hle as [?|?]; done.
  - split; [done|]. intros Hle'.
    assert (t1.1 <= t2.1)%Q as Hq.
    { destruct Hle' as [?%Qlt_le_weak|[-> _]]; [done|apply Qle_refl]. }
    apply Qle_bool_iff in Hq. congruence.
Qed.

Lemma tuple_gt_true t1 t2 : tuple_gt t1 t2 = true → tuple_le t2 t1.
Proof.
  unfold tuple_gt, tuple_le, Qgtb.
  intros [Hgt|[Heq Hlt]%andb_true_iff]%orb_true_iff.
  - left. apply Qnot_le_lt. intros Hle%Qle_bool_iff.
    by rewrite Hle in Hgt.
  - right. apply Qeq_bool_iff in Heq. split; [by symmetry|].
    unfold String.ltb in Hlt. unfold String.le, String.leb.
    by destruct (String.compare t2.2 t1.2).
Qed.

Lemma tuple_le_refl t : tuple_le t t.
Proof. right. split; [reflexivity|]. apply (reflexivity (R:=String.le)). Qed.

Lemma tuple_le_trans t1 t2 t3 : tuple_le t1 t2 → tuple_le t2 t3 → tuple_le t1 t3.
Proof.
  unfold tuple_le. intros [H12|[H12 S12]] [H23|[H23 S23]].
  - left. lra.
  - left. lra.
  - left. lra.
  - right. split; [lra|]. by etrans.
Qed.

Lemma py_max_foldl_greatest items : ∀ acc m,
  foldl (λ best item,
    match best with
    | None => Some item
    | Some b => if tuple_gt item b then Some item else Some b
    end) acc items = Some m →
  (∀ b, acc = Some b → tuple_le b m) ∧ (∀ t, t ∈ items → tuple_le t m).
Proof.
  induction items as [|i items IH]; intros acc m; simpl.
  - intros ->. split; [|by intros ? ?%elem_of_nil].
    intros b [= ->]. apply tuple_le_refl.
  - intros Hf. apply IH in Hf as [Hacc Hitems].
    destruct acc as [b|].
    + destruct (tuple_gt i b) eqn:Hgt.
      * pose proof (Hacc i eq_refl) as Him. split.
        -- intros ? [= <-]. eapply tuple_le_trans; [|done].
           by apply tuple_gt_true.
        -- intros t [->|?]%elem_of_cons; auto.
      * pose proof (Hacc b eq_refl) as Hbm. split.
        -- by intros ? [= <-].
        -- intros t [->|?]%elem_of_cons; [|auto].
           eapply tuple_le_trans; [|done]. by apply tuple_gt_false.
    + split; [done|]. intros t [->|?]%elem_of_cons; auto.
Qed.

Lemma py_max_greatest items m :
  py_max items = Some m → m ∈ items ∧ ∀ t, t ∈ items → tuple_le t m.
Proof.
  intros Hm. split; [by apply py_max_elem|].
  by apply py_max_foldl_greatest in Hm as [_ ?].
Qed.

(** With one greatest item, the order of the items does not matter. *)
Lemma py_max_perm items1 items2 :
  items1 ≡ₚ items2 →
  (∀ t1 t2, t1 ∈ items1 → t2 ∈ items1 →
            tuple_le t1 t2 → tuple_le t2 t1 → t1 = t2) →
  py_max items1 = py_max items2.
Proof.
  intros Hperm Hanti.
  destruct (py_max items1) as [m1|] eqn:H1, (py_max items2) as [m2|] eqn:H2.
  - apply py_max_greatest in H1 as [Hin1 Hmax1].
    apply py_max_greatest in H2 as [Hin2 Hmax2].
    f_equal. apply Hanti; [done|by rewrite Hperm| |].
    + apply Hmax2. by rewrite <- Hperm.
    + apply Hmax1. by rewrite Hperm.
  - apply py_max_None in H2. subst. apply Permutation_nil_r in Hperm.
    subst. done.
  - apply py_max_None in H1. subst. apply Permutation_nil_l in Hperm.
    subst. done.
  - done.
Qed.

Section best_match.
Context `{Matcher}.

(** X1. The entry that the fuzzy match returns is the greatest of those
    that pass the tests: every other one that passes has a smaller
    [ratio], or the same [ratio] and a name that is not greater. *)
Theorem X1_best_match_is_greatest (word : string) (carpetas : list string)
    (x : string) :
  get_close_matches word carpetas = [x] →
  ∀ y, y ∈ carpetas → close_enough word y = true →
    (ratio y word < ratio x word)%Q
    ∨ ((ratio y word == ratio x word)%Q ∧ String.le y x).
Proof.
  unfold get_close_matches.
  destruct (py_max (scored word carpetas)) as [[q x']|] eqn:Hm; [|done].
  intros [= ->] y Hy Hc.
  apply py_max_greatest in Hm as [Hin Hmax].
  apply elem_of_scored in Hin as (_ & _ & ->).
  apply (Hmax (ratio y word, y)).
  unfold scored. apply list_elem_of_fmap. exists y. split; [done|].
  apply list_elem_of_filter. split; [by rewrite Hc|done].
Qed.

(** X2. The fuzzy match does not depend on the order in which
    [os.listdir] gives the entries. *)
Theorem X2_match_independent_of_listing_order (word : string)
    (carpetas1 carpetas2 : list string) :
  carpetas1 ≡ₚ carpetas2 →
  get_close_matches word carpetas1 = get_close_matches word carpetas2.
Proof.
  intros Hperm. unfold get_close_matches.
  rewrite (py_max_perm (scored word carpetas1) (scored word carpetas2)); [done| |].
  - unfold scored. by rewrite Hperm.
  - intros [q1 x1] [q2 x2] (_ & _ & ->)%elem_of_scored (_ & _ & ->)%elem_of_scored.
    unfold tuple_le. simpl.
    intros [Hlt|[E12 S12]] [Hlt'|[E21 S21]]; try lra.
    assert (x1 = x2) as -> by (by apply (anti_symm String.le)). done.
Qed.
End best_match.

Lemma X1_best_match_is_greatest_witness :
  (@ratio Difflib.matcher "Ficus_benjamins" "Ficus_benjamina"
   < @ratio Difflib.matcher "Ficus_benjamin" "Ficus_benjamina")%Q
  ∨ ((@ratio Difflib.matcher "Ficus_benjamins" "Ficus_benjamina"
      == @ratio Difflib.matcher "Ficus_benjamin" "Ficus_benjamina")%Q
     ∧ String.le "Ficus_benjamins" "Ficus_benjamin").
Proof.
  apply (X1_best_match_is_greatest (H:=Difflib.matcher)
           "Ficus_benjamina" ficus_pair "Ficus_benjamin").
  - vm_compute. reflexivity.
  - unfold ficus_pair. right. left.
  - vm_compute. reflexivity.
Defined.

Lemma X2_match_independent_of_listing_order_witness :
  get_close_matches (H:=Difflib.matcher) "Ficus_benjamina"
    ["Ficus_benjamin"; "Ficus_benjamins"]
  = get_close_matches (H:=Difflib.matcher) "Ficus_benjamina"
      ["Ficus_benjamins"; "Ficus_benjamin"].
Proof.
  apply (X2_match_independent_of_listing_order (H:=Difflib.matcher)).
  apply perm_swap.
Defined.

(** ** How a run can fail *)

Section failures.
Context `{Matcher}.
Variable plat : platform.

(** The exceptions of [os.rename] on an entry that is there. *)
Lemma rename_entry_raises src dst w e w' :
  is_Some (tree w !! src) →
  rename_entry plat src dst w = (Raise e, w') →
  is_Some (tree w !! dst) ∧ tree w' = tree w
  ∧ match plat with
    | Windows => e = FileExistsError
    | Posix => e = IsADirectoryError ∨ e = NotADirectoryError
               ∨ e = DirectoryNotEmpty
    end.
Proof.
  intros [e0 Hsrc]. unfold rename_entry. munfold. simpl. rewrite Hsrc.
  case_bool_decide; [done|].
  destruct (tree w !! dst) as [e'|]; [|done].
  destruct plat, e0, e'; try done; try (intros [= <- <-]; eauto 10).
  case_bool_decide; [done|]. intros [= <- <-]. eauto 10.
Qed.

(** The image loop of a directory returns. *)
Lemma renombrar_imagenes_dir objetivo w names :
  tree w !! objetivo = Some (Dir names) →
  ∃ w', renombrar_imagenes plat objetivo w = (Ok tt, w').
Proof.
  intros Hd. unfold renombrar_imagenes.
  rewrite (bind_ok _ _ _ _ _ (listdir_dir w _ _ Hd)).
  unfold mbind, SE_bind.
  rewrite (loop_renumber_sorted plat objetivo w names Hd).
  destruct (renumber objetivo _ 1 names) as [[c ns] evs]. eauto.
Qed.

Lemma renombrar_imagenes_raises objetivo w e w' :
  renombrar_imagenes plat objetivo w = (Raise e, w') →
  w' = w
  ∧ ((tree w !! objetivo = Some File ∧ e = NotADirectoryError)
     ∨ (tree w !! objetivo = None ∧ e = FileNotFoundError)).
Proof.
  destruct (tree w !! objetivo) as [[|names]|] eqn:Hd.
  - unfold renombrar_imagenes, listdir. munfold. rewrite Hd.
    intros [= <- <-]. auto.
  - destruct (renombrar_imagenes_dir objetivo w names Hd) as [w1 ->]. done.
  - unfold renombrar_imagenes, listdir. munfold. rewrite Hd.
    intros [= <- <-]. auto.
Qed.

Lemma renombrar_carpeta_raises nombre w e w' :
  renombrar_carpeta plat nombre w = (Raise e, w') →
  e ≠ FileNotFoundError
  ∧ match plat with
    | Windows => e = FileExistsError ∨ e = NotADirectoryError
    | Posix => e ≠ FileExistsError
    end.
Proof.
  set (objetivo := PyStr.replace_space nombre).
  destruct (get_close_matches objetivo (elements (dom (tree w))))
    as [|encontrada l] eqn:Hg.
  { by rewrite renombrar_carpeta_no_match. }
  assert (is_Some (tree w !! encontrada)) as Henc.
  { apply elem_of_dom, elem_of_elements.
    eapply get_close_matches_elem. rewrite Hg. left. }
  rewrite (renombrar_carpeta_matched plat _ _ _ _ Hg). fold objetivo.
  case_bool_decide as Hne.
  - unfold mbind at 1 2, SE_bind at 1 2.
    destruct (rename_entry plat encontrada objetivo w) as [[[]|e1] w1] eqn:Hre.
    + apply rename_entry_ok in Hre as (e0 & _ & Htree & _); [|done].
      unfold print, emit at 1. intros [_ Hr]%renombrar_imagenes_raises.
      simpl in Hr. rewrite Htree, lookup_insert_eq in Hr.
      destruct Hr as [[_ ->]|[? _]]; [|done]. by destruct plat; auto.
    + intros [= <- <-].
      apply rename_entry_raises in Hre as (_ & _ & He); [|done].
      destruct plat; [subst; auto|]. by destruct He as [-> | [-> | ->]].
  - unfold mbind at 1, SE_bind at 1, mret at 1, SE_ret at 1.
    intros [_ Hr]%renombrar_imagenes_raises.
    assert (encontrada = objetivo) as Heq
      by (by destruct (decide (encontrada = objetivo))).
    rewrite <- Heq in Hr. destruct Henc as [e0 He0]. rewrite He0 in Hr.
    destruct Hr as [[_ ->]|[? _]]; [|done]. by destruct plat; auto.
Qed.


(** X4. When the best match of a name is a plain file of [ruta_base],
    the iteration stops with [NotADirectoryError] at [os.listdir]: at
    once when the file is named like the target, and otherwise after it
    has renamed the file to the target name (no entry of that name being
    there). *)
Theorem X4_match_is_a_plain_file (nombre : string) (w : world)
    (encontrada : string) :
  let objetivo := PyStr.replace_space nombre in
  get_close_matches objetivo (elements (dom (tree w))) = [encontrada] →
  tree w !! encontrada = Some File →
  (encontrada = objetivo →
   renombrar_carpeta plat nombre w = (Raise NotADirectoryError, w))
  ∧ (encontrada ≠ objetivo → tree w !! objetivo = None →
     renombrar_carpeta plat nombre w
     = (Raise NotADirectoryError,
        World (<[objetivo := File]> (delete encontrada (tree w)))
              (trace w ++ [DirRename encontrada objetivo;
                           Print (CarpetaRenombrada encontrada objetivo)]))).
Proof.
  intros objetivo Hg Hfile.
  rewrite (renombrar_carpeta_matched plat _ _ _ _ Hg). fold objetivo. split.
  - intros Heq. rewrite bool_decide_false by (intros Hne; by apply Hne).
    unfold mbind at 1, SE_bind at 1, mret at 1, SE_ret at 1.
    unfold renombrar_imagenes, listdir. munfold.
    by rewrite <- Heq, Hfile.
  - intros Hne Hfree. rewrite bool_decide_true by done.
    unfold rename_entry, renombrar_imagenes, listdir. munfold. simpl.
    rewrite Hfile, bool_decide_false, Hfree by done. simpl.
    rewrite lookup_insert_eq. by rewrite <- app_assoc.
Qed.
End failures.


Lemma X4_match_is_a_plain_file_witness :
  renombrar_carpeta (H:=Difflib.matcher) Posix "Ficus benjamina"
    (World ficus_file [])
  = (Raise NotADirectoryError,
     World (<[PyStr.replace_space "Ficus benjamina" := File]>
              (delete "Ficus_benjamin" (tree (World ficus_file []))))
           (trace (World ficus_file [])
            ++ [DirRename "Ficus_benjamin" (PyStr.replace_space "Ficus benjamina");
                Print (CarpetaRenombrada "Ficus_benjamin"
                         (PyStr.replace_space "Ficus benjamina"))])).
Proof.
  refine (proj2 (X4_match_is_a_plain_file (H:=Difflib.matcher) Posix
                   "Ficus benjamina" (World ficus_file []) "Ficus_benjamin" _ _) _ _).
  - vm_compute. reflexivity.
  - apply lookup_singleton_eq.
  - vm_compute. discriminate.
  - vm_compute. reflexivity.
Defined.

(** ** The entries of [ruta_base] *)

Lemma keeps_entries_ret {A} plat (a : A) : keeps_entries plat (mret a).
Proof. by intros w r w' [= <- <-]. Qed.

Lemma keeps_entries_raise {A} plat e : keeps_entries plat (@raise A e).
Proof. by intros w r w' [= <- <-]. Qed.

Lemma keeps_entries_emit plat ev : keeps_entries plat (emit ev).
Proof. by intros w r w' [= <- <-]. Qed.

Lemma keeps_entries_bind {A B} plat (m : M A) (f : A → M B) :
  keeps_entries plat m → (∀ a, keeps_entries plat (f a)) →
  keeps_entries plat (m ≫= f).
Proof.
  intros Hm Hf w r w'. unfold mbind, SE_bind.
  destruct (m w) as [[a|e] w1] eqn:Hmw.
  - intros Hfa. destruct (Hm _ _ _ Hmw) as [Hle1 Heq1].
    destruct (Hf _ _ _ _ Hfa) as [Hle2 Heq2].
    split; [lia|]. intros Hp. rewrite Heq2, Heq1; done.
  - intros [= <- <-]. by eapply Hm.
Qed.

Lemma keeps_entries_for_each {A S} plat (body : S → A → M S) xs acc :
  (∀ s x, keeps_entries plat (body s x)) →
  keeps_entries plat (for_each body xs acc).
Proof.
  intros Hb. revert acc. induction xs as [|x xs IH]; intros acc; simpl.
  - apply keeps_entries_ret.
  - apply keeps_entries_bind; [apply Hb|done].
Qed.

Section entries.
Context `{Matcher}.
Variable plat : platform.

Lemma keeps_entries_rename_file dir src dst :
  keeps_entries plat (rename_file plat dir src dst).
Proof.
  intros w r w'. unfold rename_file. munfold. simpl.
  destruct (tree w !! dir) as [[|names]|] eqn:Hd;
    [by intros [= <- <-]| |by intros [= <- <-]].
  assert (∀ ns, size (<[dir := Dir ns]> (tree w)) = size (tree w)) as Hsize.
  { intros ns. by apply map_size_insert_Some. }
  repeat case_bool_decide; try (by intros [= <- <-]).
  - destruct plat; intros [= <- <-]; simpl; [done|]. by rewrite Hsize.
  - intros [= <- <-]. simpl. by rewrite Hsize.
Qed.

Lemma keeps_entries_rename_entry src dst :
  keeps_entries plat (rename_entry plat src dst).
Proof.
  intros w r w'. unfold rename_entry. munfold. simpl.
  destruct (tree w !! src) as [e|] eqn:Hsrc; [|by intros [= <- <-]].
  case_bool_decide as Hne; [by intros [= <- <-]|].
  assert (size (delete src (tree w)) = pred (size (tree w))) as Hdel.
  { by apply map_size_delete_Some. }
  assert (0 < size (tree w)) as Hpos.
  { destruct (decide (size (tree w) = 0)) as [Hz|]; [|lia].
    apply map_size_empty_iff in Hz. by rewrite Hz in Hsrc. }
  destruct (tree w !! dst) as [e'|] eqn:Hdst.
  - assert (size (<[dst := e]> (delete src (tree w))) ≤ size (tree w)) as Hle.
    { rewrite map_size_insert_Some; [lia|].
      rewrite lookup_delete_ne by done. by eexists. }
    destruct plat, e, e'; try (by intros [= <- <-]).
    case_bool_decide; intros [= <- <-]; done.
  - intros [= <- <-]. simpl.
    rewrite map_size_insert_None by (by rewrite lookup_delete_ne).
    rewrite Hdel. split; [lia|]. intros _. lia.
Qed.

Lemma keeps_entries_renombrar_carpeta nombre :
  keeps_entries plat (renombrar_carpeta plat nombre).
Proof.
  unfold renombrar_carpeta, listdir_base, listdir, renombrar_imagen,
    path_exists, print, get_tree.
  pose proof keeps_entries_rename_file.
  pose proof keeps_entries_rename_entry.
  pose proof (@keeps_entries_emit plat).
  repeat first
    [ apply keeps_entries_ret | apply keeps_entries_raise | done
    | apply keeps_entries_for_each; intros ??
    | apply keeps_entries_bind; [|intros ?]
    | match goal with
      | |- keeps_entries _ (λ w, (Ok (tree w), w)) => by intros w r w' [= <- <-]
      | |- keeps_entries _ (match ?x with _ => _ end) => destruct x
      | |- keeps_entries _ (if ?b then _ else _) => destruct b
      end ].
Qed.

End entries.

(** On POSIX an entry can go: the scorer that ranks by name alone renames
    [B] onto the empty directory [A]. *)
Example posix_rename_replaces :
  tree (run (H:=flat_scorer) Posix ["A"] {[ "A" := Dir ∅; "B" := Dir ∅ ]}).2
  = {[ "A" := Dir ∅ ]}.
Proof. vm_compute. reflexivity. Qed.

(** ** Candidate names *)

(** X6. Candidate names are different for different counters and for
    different extensions: of the names [{objetivo}_{contador:02d}{ext}]
    with an image extension, no two coincide. *)
Theorem X6_candidate_names_differ (objetivo : string) (c1 c2 : nat)
    (e1 e2 : string) :
  e1 ∈ [".jpg"; ".jpeg"; ".png"] → e2 ∈ [".jpg"; ".jpeg"; ".png"] →
  nuevo_nombre objetivo c1 e1 = nuevo_nombre objetivo c2 e2 →
  c1 = c2 ∧ e1 = e2.
Proof.
  intros He1 He2 Heq.
  assert (c1 = c2) as <- by exact (nuevo_nombre_inj objetivo c1 c2 e1 e2 He1 He2 Heq).
  split; [done|]. unfold nuevo_nombre in Heq.
  by do 3 apply (inj (String.app _)) in Heq.
Qed.

(** X7. The extension that the script reads off a candidate name is the
    extension the name was built with, so a file that the script has
    renamed passes the extension test of the next run with the same
    extension. *)
Theorem X7_candidate_name_keeps_extension (objetivo : string) (contador : nat)
    (archivo : string) :
  eligible archivo →
  let nuevo := nuevo_nombre objetivo contador (extension archivo) in
  PyStr.lower (PyStr.splitext_ext nuevo) = extension archivo
  ∧ eligible nuevo.
Proof.
  intros He nuevo.
  destruct (eligible_nuevo_nombre objetivo contador archivo He) as [? Hx].
  by split.
Qed.

Lemma X6_candidate_names_differ_witness :
  1 = 1 ∧ ".jpg" = ".jpg".
Proof.
  apply (X6_candidate_names_differ "Mimosa_pudica" 1 1 ".jpg" ".jpg").
  - left.
  - left.
  - reflexivity.
Defined.

Lemma X7_candidate_name_keeps_extension_witness :
  PyStr.lower (PyStr.splitext_ext
     (nuevo_nombre "Mimosa_pudica" 7 (extension "IMG.JPG")))
  = extension "IMG.JPG"
  ∧ eligible (nuevo_nombre "Mimosa_pudica" 7 (extension "IMG.JPG")).
Proof.
  apply (X7_candidate_name_keeps_extension "Mimosa_pudica" 7 "IMG.JPG").
  apply (bool_decide_unpack _). vm_compute. exact I.
Defined.

(** ** [optimize_folder] *)

Lemma se_bind_ok {W E A B} (m : SE W E A) (f : A → SE W E B) w a w' :
  m w = (Ok a, w') → (m ≫= f) w = f a w'.
Proof. intros Hm. unfold mbind, SE_bind. by rewrite Hm. Qed.

Lemma foreach_app {W E A S} (body : S → A → SE W E S) xs ys acc w :
  OptimizeFolder.foreach body (xs ++ ys) acc w
  = (OptimizeFolder.foreach body xs acc ≫= OptimizeFolder.foreach body ys) w.
Proof.
  revert acc w. induction xs as [|x xs IH]; intros acc w; simpl; [done|].
  unfold mbind, SE_bind. destruct (body acc x w) as [[acc'|e] w1]; [|done].
  apply IH.
Qed.

Section optimize_folder_facts.
Import OptimizeImages OptimizeFolder.
Context `{Collaborators W Img} `{OsCollaborators W}.

(** The dictionary of the [try] block, key by key. *)
Lemma after_getsize_dict image_path max_size quality img bytes w d w' :
  after_getsize image_path max_size quality img bytes w = (Ok d, w') →
  ∃ o n r b,
    d = {[ "success" := VBool true; "original_kb" := VNum o;
           "new_kb" := VNum n; "reduction" := VNum r; "resized" := VBool b ]}.
Proof.
  unfold after_getsize, mbind, SE_bind.
  destruct (to_rgb img w) as [[img1|e] w1]; [|done].
  destruct (shrink img1 max_size w1) as [[[img2 resized]|e] w2]; [|done].
  destruct (save img2 image_path quality w2) as [[[]|e] w3]; [|done].
  destruct (getsize image_path w3) as [[bytes'|e] w4]; [|done].
  destruct (truediv _ _ w4) as [[quotient|e] w5]; [|done].
  intros [= <- <-]. eauto.
Qed.

Lemma optimize_image_dict image_path max_size quality w :
  ∃ d w', optimize_image image_path max_size quality w = (Ok d, w')
    ∧ ((∃ o n r b,
          d = {[ "success" := VBool true; "original_kb" := VNum o;
                 "new_kb" := VNum n; "reduction" := VNum r;
                 "resized" := VBool b ]})
       ∨ (∃ e, d = failure e)).
Proof.
  unfold optimize_image, try_except.
  destruct (try_block image_path max_size quality w) as [[d|e] w'] eqn:Hblock.
  - exists d, w'. split; [done|]. left. revert Hblock.
    unfold try_block, with_as.
    destruct (Image_open image_path w) as [[img|e] w1]; [|done].
    unfold mbind at 1, SE_bind at 1.
    destruct (getsize image_path w1) as [[bytes|e] w2].
    + destruct (after_getsize _ _ _ img bytes w2) as [r w3] eqn:Hafter.
      destruct (Image_exit img w3) as [[[]|e'] w4]; [|done].
      intros [= -> <-]. by eapply after_getsize_dict.
    + by destruct (Image_exit img w2) as [[[]|e'] w4].
  - exists (failure e), w'. split; [done|]. right. by exists e.
Qed.

Lemma counted_refl st : counted 0 st st.
Proof. unfold counted. split_and!; [lia..|done]. Qed.

Lemma counted_trans k1 k2 st1 st2 st3 :
  counted k1 st1 st2 → counted k2 st2 st3 → counted (k1 + k2) st1 st3.
Proof.
  unfold counted. intros (? & ? & ? & H12) (? & ? & ? & H23).
  split_and!; [lia..|]. intros Hz.
  destruct H23 as [-> ->]; [done|]. apply H12. lia.
Qed.

Lemma optimizar_archivo_counts folder_path st file fw :
  ∃ st' fw',
    optimizar_archivo folder_path st file fw = (Ok st', fw')
    ∧ counted (if is_image file then 1 else 0) st st'
    ∧ folders_processed st' = folders_processed st
    ∧ List.length (printed fw')
      = List.length (printed fw) + (if is_image file then 1 else 0).
Proof.
  unfold optimizar_archivo. destruct (is_image file).
  2:{ exists st, fw. split_and!; [done|apply counted_refl|done|lia]. }
  destruct (optimize_image_dict (os_path_join folder_path file) (1920, 1920) 85
              (codec fw)) as (d & w' & Hopt & Hd).
  unfold mbind at 1, SE_bind at 1, lift at 1. rewrite Hopt.
  destruct Hd as [(o & n & r & b & ->)|(e & ->)].
  - eexists _, _. split; [reflexivity|]. simpl.
    unfold counted. simpl. split_and!; try lia. rewrite length_app. simpl. lia.
  - eexists _, _. split; [reflexivity|]. simpl.
    unfold counted. simpl. split_and!; try lia; [done|].
    rewrite length_app. simpl. lia.
Qed.

Lemma foreach_optimizar_archivo folder_path files : ∀ st fw,
  ∃ st' fw',
    foreach (optimizar_archivo folder_path) files st fw = (Ok st', fw')
    ∧ counted (List.length (filter is_image files)) st st'
    ∧ folders_processed st' = folders_processed st
    ∧ List.length (printed fw')
      = List.length (printed fw) + List.length (filter is_image files).
Proof.
  induction files as [|file files IH]; intros st fw.
  - exists st, fw. split_and!; [done|apply counted_refl|done|simpl; lia].
  - destruct (optimizar_archivo_counts folder_path st file fw)
      as (st1 & fw1 & Hstep & Hc1 & Hf1 & Hp1).
    destruct (IH st1 fw1) as (st2 & fw2 & Hrest & Hc2 & Hf2 & Hp2).
    exists st2, fw2. simpl. rewrite (se_bind_ok _ _ _ _ _ Hstep).
    rewrite filter_cons. split; [done|].
    destruct (is_image file); simpl.
    + split_and!; [by apply (counted_trans 1 _ _ _ _ Hc1)|congruence|lia].
    + split_and!; [by apply (counted_trans 0 _ _ _ _ Hc1)|congruence|lia].
Qed.

(** X8. [optimize_folder(folder, recursive=False)] fails only where
    [os.listdir] fails.  When the listing is there it returns [stats],
    whatever happens to the single images: [total_images] is the number of
    listed names that end in one of the six extensions, every one of them
    is counted once, as optimized or as an error, [folders_processed]
    stays 0, and one line is printed for the folder and one for every
    image. *)
Theorem X8_optimize_folder_counts (folder_path : string) (fw : fworld W) :
  match os_listdir folder_path (codec fw) with
  | (Ok files, _) =>
      ∃ st fw',
        optimize_folder_no_recursive folder_path fw = (Ok st, fw')
        ∧ total_images st = List.length (filter is_image files)
        ∧ optimized st + errors st = total_images st
        ∧ folders_processed st = 0
        ∧ List.length (printed fw')
          = List.length (printed fw) + 1 + total_images st
  | (Raise e, w1) =>
      optimize_folder_no_recursive folder_path fw
      = (Raise e, FWorld w1 (printed fw ++ [Procesando folder_path]))
  end.
Proof.
  destruct (os_listdir folder_path (codec fw)) as [[files|e] w1] eqn:Hls.
  - destruct (foreach_optimizar_archivo folder_path files stats0
                (FWorld w1 (printed fw ++ [Procesando folder_path])))
      as (st & fw' & Hrun & (Ht & Ho & _) & Hf & Hp).
    exists st, fw'. simpl in *. rewrite length_app in Hp. simpl in Hp.
    split_and!; [|lia|lia|done|lia].
    unfold optimize_folder_no_recursive, mbind, SE_bind, print_line, lift.
    simpl. by rewrite Hls.
  - unfold optimize_folder_no_recursive, mbind, SE_bind, print_line, lift.
    simpl. by rewrite Hls.
Qed.
End optimize_folder_facts.

Section walk_entry_facts.
Import OptimizeImages OptimizeFolder.
Context `{Collaborators W Img} `{OsCollaborators W}.

Lemma optimizar_archivo_en_carpeta_counts folder_path root has st file fw :
  ∃ st' fw',
    optimizar_archivo_en_carpeta folder_path root (has, st) file fw
    = (Ok (has || is_image file, st'), fw')
    ∧ counted (if is_image file then 1 else 0) st st'
    ∧ folders_processed st'
      = folders_processed st + (if is_image file && negb has then 1 else 0).
Proof.
  unfold optimizar_archivo_en_carpeta. destruct (is_image file).
  2:{ exists st, fw. rewrite orb_false_r.
      split_and!; [done|apply counted_refl|simpl; lia]. }
  rewrite orb_true_r.
  destruct has; simpl.
  - destruct (optimize_image_dict (os_path_join root file) (1920, 1920) 85
                (codec fw)) as (d & w' & Hopt & Hd).
    unfold mbind at 1 2, SE_bind at 1 2, mret at 1, SE_ret at 1, lift at 1.
    rewrite Hopt.
    destruct Hd as [(o & n & r & b & ->)|(e & ->)];
      (eexists _, _; split; [reflexivity|]; simpl;
       unfold counted; simpl; split_and!; try lia; done).
  - destruct (optimize_image_dict (os_path_join root file) (1920, 1920) 85
                (codec fw)) as (d & w' & Hopt & Hd).
    unfold mbind at 1 2 3, SE_bind at 1 2 3, mret at 1, SE_ret at 1,
      print_line at 1, lift at 1. simpl.
    rewrite Hopt.
    destruct Hd as [(o & n & r & b & ->)|(e & ->)];
      (eexists _, _; split; [reflexivity|]; simpl;
       unfold counted; simpl; split_and!; try lia; done).
Qed.

Lemma foreach_optimizar_archivo_en_carpeta folder_path root files :
  ∀ has st fw,
  ∃ st' fw',
    foreach (optimizar_archivo_en_carpeta folder_path root) files (has, st) fw
    = (Ok (has || existsb is_image files, st'), fw')
    ∧ counted (List.length (filter is_image files)) st st'
    ∧ folders_processed st'
      = folders_processed st
        + (if existsb is_image files && negb has then 1 else 0).
Proof.
  induction files as [|file files IH]; intros has st fw.
  - exists st, fw. simpl. rewrite orb_false_r.
    split_and!; [done|apply counted_refl|lia].
  - destruct (optimizar_archivo_en_carpeta_counts folder_path root has st file fw)
      as (st1 & fw1 & Hstep & Hc1 & Hf1).
    destruct (IH (has || is_image file) st1 fw1)
      as (st2 & fw2 & Hrest & Hc2 & Hf2).
    exists st2, fw2. simpl. rewrite (se_bind_ok _ _ _ _ _ Hstep).
    rewrite Hrest, filter_cons, orb_assoc. split; [done|].
    rewrite Hf2, Hf1.
    destruct (is_image file), has, (existsb is_image files); simpl;
      (split; [first [by apply (counted_trans 1 _ _ _ _ Hc1)
                     |by apply (counted_trans 0 _ _ _ _ Hc1)]|lia]).
Qed.

(** X9. For one entry of [os.walk], the loop over its files returns
    whatever happens to the single images; it counts every name that ends
    in one of the six extensions once in [total_images] and once as
    optimized or as an error, and it adds 1 to [folders_processed] exactly
    when the entry has such a name. *)
Theorem X9_walk_entry_counts (folder_path : string) (st : stats)
    (root : string) (dirs files : list string) (fw : fworld W) :
  ∃ st' fw',
    optimizar_carpeta folder_path st (root, dirs, files) fw = (Ok st', fw')
    ∧ total_images st' = total_images st + List.length (filter is_image files)
    ∧ optimized st' + errors st'
      = optimized st + errors st + List.length (filter is_image files)
    ∧ folders_processed st'
      = folders_processed st + (if existsb is_image files then 1 else 0).
Proof.
  destruct (foreach_optimizar_archivo_en_carpeta folder_path root files false st fw)
    as (st' & fw' & Hrun & (Ht & Ho & _) & Hf).
  exists st', fw'. unfold optimizar_carpeta.
  rewrite (se_bind_ok _ _ _ _ _ Hrun). rewrite andb_true_r in Hf. done.
Qed.
End walk_entry_facts.

(** ** The two tests for an image name *)

Lemma lower_length s : String.length (PyStr.lower s) = String.length s.
Proof. induction s as [|c s IH]; simpl; [done|]. by rewrite IH. Qed.

Lemma lower_drop_chars n s :
  PyStr.drop_chars n (PyStr.lower s) = PyStr.lower (PyStr.drop_chars n s).
Proof.
  revert s. induction n as [|n IH]; intros [|c s]; simpl; done.
Qed.

Lemma endswith_lower s suffix :
  OptimizeFolder.endswith s suffix = true →
  OptimizeFolder.endswith (PyStr.lower s) (PyStr.lower suffix) = true.
Proof.
  unfold OptimizeFolder.endswith. rewrite !lower_length, lower_drop_chars.
  intros [Hl Heq]%andb_true_iff. rewrite Hl. simpl.
  apply String.eqb_eq in Heq. rewrite Heq. apply String.eqb_refl.
Qed.

(** X10. Every name that [optimize_folder] takes for an image is taken
    for one by the report; the report, which lowers the name first, also
    takes names such as [a.Jpg], which [optimize_folder] passes over. *)
Theorem X10_report_test_is_wider (file : string) :
  (OptimizeFolder.is_image file = true →
   OptimizeFolder.is_image_lower file = true)
  ∧ OptimizeFolder.is_image "a.Jpg" = false
  ∧ OptimizeFolder.is_image_lower "a.Jpg" = true.
Proof.
  split; [|by vm_compute].
  unfold OptimizeFolder.is_image, OptimizeFolder.is_image_lower,
    OptimizeFolder.extensions.
  cbn [existsb]. rewrite !orb_true_iff.
  intros Hany.
  destruct_or!; try done;
    match goal with
    | Hend : OptimizeFolder.endswith file _ = true |- _ =>
        apply endswith_lower in Hend;
        lazymatch type of Hend with
        | OptimizeFolder.endswith _ (PyStr.lower ?e) = true =>
            let e' := eval vm_compute in (PyStr.lower e) in
            change (PyStr.lower e) with e' in Hend
        end;
        auto 10
    end.
Qed.

(** ** Option 1 of the menu *)

Section option_1_facts.
Import OptimizeImages OptimizeFolder.
Context `{Collaborators W Img} `{OsCollaborators W}.

End option_1_facts.


(** ** The report *)

Lemma dict_set_fresh {V} key (v : V) d :
  (∀ k x, (k, x) ∈ d → k ≠ key) → Report.dict_set key v d = d ++ [(key, v)].
Proof.
  induction d as [|[k x] d IH]; intros Hfresh; simpl; [done|].
  assert (k ≠ key) as Hne by (by eapply Hfresh; left).
  apply String.eqb_neq in Hne. rewrite Hne. rewrite IH; [done|].
  intros k' x' Hin. eapply Hfresh. by right.
Qed.

Section report_facts.
Import OptimizeImages OptimizeFolder Report.
Context `{Collaborators W Img} `{OsCollaborators W} `{ReportWriter W}.

Lemma foreach_report_file folder_path files : ∀ images total w images' total' w',
  foreach (report_file folder_path) files (images, total) w
  = (Ok (images', total'), w') →
  ∃ nuevas, images' = images ++ nuevas
            ∧ Forall (λ i, is_image_lower (nombre i) = true) nuevas.
Proof.
  induction files as [|file files IH]; intros images total w images' total' w'.
  - intros [= <- <- <-]. exists []. by rewrite app_nil_r.
  - simpl. unfold mbind, SE_bind, report_file.
    destruct (is_image_lower file) eqn:Himg.
    + fold (@mbind (SE W pyexn) _). unfold mbind, SE_bind.
      destruct (getsize (os_path_join folder_path file) w) as [[bytes|e] w1];
        [|done].
      simpl. intros (nuevas & -> & Hn)%IH.
      exists (Imagen file (py_round (kb bytes) 2) :: nuevas).
      rewrite <- app_assoc. split; [done|]. by constructor.
    + simpl. apply IH.
Qed.

Lemma report_folder_step base_folder esp tot folder w esp' tot' w' :
  report_folder base_folder (esp, tot) folder w = (Ok (esp', tot'), w') →
  (∀ k x, (k, x) ∈ esp → k ≠ folder) →
  totals_ok esp tot →
  totals_ok esp' tot'
  ∧ ∀ k x, (k, x) ∈ esp' → (k, x) ∈ esp ∨ k = folder.
Proof.
  unfold report_folder, mbind, SE_bind.
  destruct (os_path_isdir (os_path_join base_folder folder) w)
    as [[es_carpeta|e] w1]; [|done].
  destruct es_carpeta; [|by intros [= <- <- <-]; auto].
  destruct (os_listdir (os_path_join base_folder folder) w1)
    as [[files|e] w2]; [|done].
  destruct (foreach (report_file (os_path_join base_folder folder)) files
              ([], 0%Q) w2) as [[[images total]|e] w3] eqn:Hfiles; [|done].
  apply foreach_report_file in Hfiles as (nuevas & -> & Hn). simpl.
  destruct nuevas as [|i nuevas]; [by intros [= <- <- <-]; auto|].
  intros [= <- <- <-] Hfresh (Hte & Hti & Hto & Hok).
  rewrite dict_set_fresh by done. split.
  - unfold totals_ok. simpl. rewrite length_app, sum_list_with_app.
    simpl. split_and!; [lia|lia|done|].
    apply Forall_app. split; [done|]. constructor; [|done].
    unfold especie_ok. simpl. split_and!; [done|done|lia|done].
  - intros k x [?|[= -> _]%list_elem_of_singleton]%elem_of_app; auto.
Qed.

Lemma foreach_report_folder base_folder folders : ∀ esp tot w esp' tot' w',
  foreach (report_folder base_folder) folders (esp, tot) w
  = (Ok (esp', tot'), w') →
  NoDup folders →
  (∀ k x, (k, x) ∈ esp → k ∉ folders) →
  totals_ok esp tot → totals_ok esp' tot'.
Proof.
  induction folders as [|folder folders IH];
    intros esp tot w esp' tot' w'.
  - by intros [= <- <- <-].
  - cbn [foreach]. unfold mbind, SE_bind.
    destruct (report_folder base_folder (esp, tot) folder w)
      as [[[esp1 tot1]|e] w1] eqn:Hstep; [|done].
    intros Hrest [Hnotin Hnd]%NoDup_cons Hfresh Hok.
    apply report_folder_step in Hstep as [Hok1 Hkeys]; [| |done].
    + apply (IH _ _ _ _ _ _ Hrest Hnd); [|done].
      intros k x [Hin | ->]%Hkeys; [|done].
      intros Hk. apply (Hfresh k x Hin). by right.
    + intros k x Hin ->. apply (Hfresh _ _ Hin). left.
Qed.

(** X12. When [os.listdir] gives every name of [base_folder] once and
    the report is written, the summary agrees with the species of the
    report: [total_especies] is their number, [total_imagenes] is the sum
    of their [num_imagenes], and [tamaño_original_mb] is 0 (nothing adds
    to it).  Every species has the folder name as [nombre_cientifico], at
    least one image, [num_imagenes] images in [imagenes], and only names
    that in lower case end in [.jpg], [.jpeg] or [.png]. *)
Theorem X12_report_summary_agrees (base_folder : string) (w : W)
    (r : report) (w' : W) :
  (∀ w0 l w1, os_listdir base_folder w0 = (Ok l, w1) → NoDup l) →
  create_optimization_report base_folder w = (Ok r, w') →
  carpeta_base r = base_folder
  ∧ total_especies (resumen_ r) = List.length (especies r)
  ∧ total_imagenes (resumen_ r)
    = sum_list_with (λ entry, num_imagenes entry.2) (especies r)
  ∧ tamano_original_mb (resumen_ r) = 0%Q
  ∧ Forall especie_ok (especies r).
Proof.
  intros Hnodup. unfold create_optimization_report, mbind, SE_bind.
  destruct (now_isoformat w) as [[ahora|e] w0]; [|done].
  destruct (os_listdir base_folder w0) as [[folders|e] w1] eqn:Hls; [|done].
  apply Hnodup in Hls.
  destruct (foreach (report_folder base_folder) folders
              ([], Resumen 0 0 0 0) w1) as [[[esp tot]|e] w2] eqn:Hloop; [|done].
  apply foreach_report_folder in Hloop as (? & ? & ? & ?);
    [|done|by intros ?? ?%elem_of_nil|by split_and!; [..|constructor]].
  destruct (dump_json _ _ w2) as [[[]|e] w3]; [|done].
  by intros [= <- <-].
Qed.
End report_facts.

Lemma X12_report_summary_agrees_witness :
  let r := Report.Report "2024-01-01T00:00:00" "plantas"
    [("notas.txt", Report.Especie "notas.txt" 1 (0 # 1048576)
                     [Report.Imagen "a.jpg" (0 # 1024)]);
     ("a.jpg", Report.Especie "a.jpg" 1 (0 # 1048576)
                 [Report.Imagen "a.jpg" (0 # 1024)])]
    (Report.Resumen 2 2 0 (0 # 1099511627776)) in
  Report.carpeta_base r = "plantas"
  ∧ Report.total_especies (Report.resumen_ r) = List.length (Report.especies r)
  ∧ Report.total_imagenes (Report.resumen_ r)
    = sum_list_with (λ entry, Report.num_imagenes entry.2) (Report.especies r)
  ∧ Report.tamano_original_mb (Report.resumen_ r) = 0%Q
  ∧ Forall Report.especie_ok (Report.especies r).
Proof.
  intros r.
  apply (X12_report_summary_agrees (H:=Toy.codec) (H0:=Toy.os) (H1:=Toy.writer)
           "plantas" tt r tt).
  - intros w0 l w1 [= <- _]. apply (bool_decide_unpack _). vm_compute. exact I.
  - vm_compute. reflexivity.
Defined.

(** * [scripts/organize_images.py] *)

(** ** Formatted numbers *)

Lemma digits_decode n :
  Nat.of_uint <$> NilEmpty.uint_of_string (OrganizeImages.digits n) = Some n.
Proof.
  unfold OrganizeImages.digits.
  assert (NilZero.string_of_uint (Nat.to_uint n)
          = NilEmpty.string_of_uint (Nat.to_uint n)) as ->.
  { pose proof (to_uint_not_nil n). by destruct (Nat.to_uint n). }
  rewrite NilEmpty.usu. simpl. f_equal. apply DecimalNat.Unsigned.of_to.
Qed.

Lemma zeros_decode k s n :
  Nat.of_uint <$> NilEmpty.uint_of_string s = Some n →
  Nat.of_uint <$> NilEmpty.uint_of_string (OrganizeImages.zeros k +:+ s) = Some n.
Proof.
  intros Hs. induction k as [|k IH]; [done|].
  change (Nat.of_uint <$> uint_of_char "0"
            (NilEmpty.uint_of_string (OrganizeImages.zeros k +:+ s)) = Some n).
  destruct (NilEmpty.uint_of_string (OrganizeImages.zeros k +:+ s)); [|done].
  exact IH.
Qed.

(** A number that is not negative can be read back from [format_0d]. *)
Lemma format_0d_decode width n :
  Nat.of_uint <$> NilEmpty.uint_of_string
                    (OrganizeImages.format_0d width (Z.of_nat n)) = Some n.
Proof.
  unfold OrganizeImages.format_0d.
  destruct (Z.ltb_spec (Z.of_nat n) 0) as [?|_]; [lia|].
  rewrite Zabs2Nat.id. apply zeros_decode, digits_decode.
Qed.

Lemma new_name_inj naming_pattern idx1 idx2 :
  OrganizeImages.new_name naming_pattern idx1
  = OrganizeImages.new_name naming_pattern idx2 →
  idx1 = idx2.
Proof.
  unfold OrganizeImages.new_name.
  intros Heq%(inj (String.app _))%(inj (String.app _)).
  pose proof (format_0d_decode 4 idx1) as H1.
  pose proof (format_0d_decode 4 idx2) as H2.
  assert (OrganizeImages.format_0d 4 (Z.of_nat idx1)
          = OrganizeImages.format_0d 4 (Z.of_nat idx2)) as Hfmt.
  { eapply (digits_then_dot _ _ "jpg" "jpg"); [| |exact Heq].
    - by destruct (NilEmpty.uint_of_string
                     (OrganizeImages.format_0d 4 (Z.of_nat idx1))).
    - by destruct (NilEmpty.uint_of_string
                     (OrganizeImages.format_0d 4 (Z.of_nat idx2))). }
  rewrite Hfmt in H1. congruence.
Qed.

Lemma se_bind_inv {W E A B} (m : SE W E A) (f : A → SE W E B) w b w' :
  (m ≫= f) w = (Ok b, w') → ∃ a w1, m w = (Ok a, w1) ∧ f a w1 = (Ok b, w').
Proof.
  unfold mbind, SE_bind. destruct (m w) as [[a|e] w1]; [|done].
  intros Hf. by exists a, w1.
Qed.

Lemma enumerate_cons {A} start (x : A) xs :
  OrganizeImages.enumerate start (x :: xs)
  = (start, x) :: OrganizeImages.enumerate (S start) xs.
Proof. done. Qed.

(** The names that [process_plant_images] can give are all different. *)
Lemma esperadas_NoDup plant_id : NoDup (OrganizeImages.esperadas plant_id).*1.
Proof.
  assert ((OrganizeImages.esperadas plant_id).*1
          = (λ s, OrganizeImages.planta plant_id +:+ "_" +:+ s)
            <$> ["01.jpg"; "02.jpg"; "03.jpg"; "flor.jpg"; "hoja.jpg";
                 "fruto.jpg"; "tallo.jpg"; "general.jpg"]) as -> by done.
  apply NoDup_fmap_2.
  - intros s1 s2 Heq%(inj (String.app _)). by injection Heq.
  - apply (bool_decide_unpack _). by vm_compute.
Qed.

Section organize_facts.
Import OptimizeImages OptimizeFolder OrganizeImages.
Context `{Collaborators W Img} `{OsCollaborators W} `{DiskCollaborators W}.

(** ** [optimize_image] *)

Lemma try_block_true image_path max_size quality w r w' :
  try_block image_path max_size quality w = (Ok r, w') → r.1 = true.
Proof.
  unfold try_block, with_as.
  destruct (Image_open image_path w) as [[img|e] w1]; [|done].
  unfold mbind, SE_bind.
  destruct (to_rgb img w1) as [[img1|e] w2];
    [|by destruct (Image_exit img w2) as [[[]|?] ?]].
  destruct (thumbnail img1 max_size w2) as [[img2|e] w3];
    [|by destruct (Image_exit img w3) as [[[]|?] ?]].
  destruct (save img2 image_path quality w3) as [[[]|e] w4];
    [|by destruct (Image_exit img w4) as [[[]|?] ?]].
  destruct (getsize image_path w4) as [[bytes|e] w5];
    [|by destruct (Image_exit img w5) as [[[]|?] ?]].
  simpl. destruct (Image_exit img w5) as [[[]|?] ?]; [|done].
  by intros [= <- _].
Qed.

Lemma optimize_image_returns image_path max_size quality ow :
  ∃ r ow', optimize_image image_path max_size quality ow = (Ok r, ow').
Proof.
  unfold optimize_image, try_except, on_disk.
  destruct (try_block image_path max_size quality (disk ow)) as [[r|e] w1];
    by eexists _, _.
Qed.

(** X13. [optimize_image] of [organize_images.py] raises nothing: it
    returns [(True, size)] and prints nothing, or it prints one line with
    the path and the error and returns [(False, 0)]. *)
Theorem X13_organize_optimize_image_never_raises (image_path : string)
    (max_size : nat * nat) (quality : nat) (ow : oworld W) :
  ∃ success size_kb ow',
    optimize_image image_path max_size quality ow = (Ok (success, size_kb), ow')
    ∧ if success : bool then salidas ow' = salidas ow
      else size_kb = 0%Q
           ∧ ∃ error, salidas ow'
                      = salidas ow ++ [ErrorOptimizando image_path error].
Proof.
  unfold optimize_image, try_except, on_disk.
  destruct (try_block image_path max_size quality (disk ow))
    as [[[success size_kb]|e] w1] eqn:Htry.
  - apply try_block_true in Htry. simpl in Htry. subst success.
    by exists true, size_kb, (OWorld w1 (salidas ow)).
  - exists false, 0%Q,
      (OWorld w1 (salidas ow ++ [ErrorOptimizando image_path (exn_str e)])).
    split; [done|]. split; [done|]. by eexists.
Qed.

(** ** [process_plant_images] *)

Lemma copiar_adds source_path dest_folder dest_filename type processed ow
    processed' ow' :
  copiar source_path dest_folder dest_filename type processed ow
  = (Ok processed', ow') →
  processed' = processed
  ∨ ∃ size, processed' = processed ++ [Imagen dest_filename size type].
Proof.
  unfold copiar, mbind, SE_bind, on_disk at 1.
  destruct (shutil_copy2 _ _ (disk ow)) as [[[]|e] w1]; [|done].
  destruct (optimize_image_returns
              (os_path_join dest_folder dest_filename) (1920, 1920) 85
              (OWorld w1 (salidas ow)))
    as ([success size_kb] & ow1 & ->).
  destruct success.
  - intros [= <- _]. right. by eexists.
  - intros [= <- _]. by left.
Qed.

Lemma foreach_principal source_folder dest_folder plant_id imgs :
  ∀ start processed ow processed' ow',
  foreach (principal source_folder dest_folder plant_id)
    (enumerate start imgs) processed ow = (Ok processed', ow') →
  ∃ nuevas, processed' = processed ++ nuevas
    ∧ nombre_y_tipo <$> nuevas
      `sublist_of` ((λ idx, (principal_filename plant_id idx, "principal"))
                    <$> seq start (List.length imgs)).
Proof.
  induction imgs as [|img imgs IH]; intros start processed ow processed' ow'.
  - intros [= <- _]. exists []. by rewrite app_nil_r.
  - rewrite enumerate_cons. cbn [foreach]. unfold mbind, SE_bind.
    destruct (principal source_folder dest_folder plant_id processed
                (start, img) ow) as [[processed1|e] ow1] eqn:Hstep; [|done].
    intros (nuevas & -> & Hsub)%IH.
    apply copiar_adds in Hstep as [->|[size ->]].
    + exists nuevas. split; [done|]. by apply sublist_cons.
    + exists (Imagen (principal_filename plant_id start) size "principal"
              :: nuevas).
      rewrite <- app_assoc. split; [done|]. by apply sublist_skip.
Qed.

Lemma foreach_detalle source_folder dest_folder plant_id imgs :
  ∀ start processed ow processed' ow',
  foreach (detalle source_folder dest_folder plant_id)
    (enumerate start imgs) processed ow = (Ok processed', ow') →
  ∃ nuevas, processed' = processed ++ nuevas
    ∧ nombre_y_tipo <$> nuevas
      `sublist_of` ((λ t, (detail_filename plant_id t, t))
                    <$> take (List.length imgs) (drop start detail_types)).
Proof.
  induction imgs as [|img imgs IH]; intros start processed ow processed' ow'.
  - intros [= <- _]. exists []. by rewrite app_nil_r.
  - rewrite enumerate_cons. cbn [foreach]. unfold mbind, SE_bind.
    destruct (detalle source_folder dest_folder plant_id processed
                (start, img) ow) as [[processed1|e] ow1] eqn:Hstep; [|done].
    intros (nuevas & -> & Hsub)%IH. revert Hstep. unfold detalle.
    destruct (Nat.ltb_spec start (List.length detail_types)) as [Hlt|Hge].
    + destruct (detail_types !! start) as [detail_type|] eqn:Ht; [|done].
      rewrite (drop_S _ _ _ Ht). cbn [List.length take fmap list_fmap].
      intros [->|[size ->]]%copiar_adds.
      * exists nuevas. split; [done|]. by apply sublist_cons.
      * exists (Imagen (detail_filename plant_id detail_type) size detail_type
                :: nuevas).
        rewrite <- app_assoc. split; [done|]. by apply sublist_skip.
    + intros [= <- _]. exists nuevas. split; [done|].
      rewrite drop_ge in Hsub by (simpl in *; lia).
      rewrite take_nil in Hsub. apply sublist_nil_r in Hsub as ->.
      apply sublist_nil_l.
Qed.

Lemma esperadas_take plant_id (images : list string) :
  ((λ idx, (principal_filename plant_id idx, "principal"))
   <$> seq 1 (List.length (take 3 images)))
  ++ ((λ t, (detail_filename plant_id t, t))
      <$> take (List.length (take 5 (drop 3 images))) (drop 0 detail_types))
  = take (List.length images) (esperadas plant_id).
Proof.
  do 9 (destruct images as [|? images]; [done|]). done.
Qed.

(** X14. However many images the source folder has, at most eight are
    noted: [processed] has, in this order and without repetition, some of
    the first [n] of the names [_01], [_02], [_03] (type [principal]) and
    [_flor], [_hoja], [_fruto], [_tallo], [_general] (type as in the
    name), where [n] is the number of listed names that end in one of the
    six extensions. *)
Theorem X14_at_most_eight_images (source_folder : string) (plant_id : Z)
    (plant_name : option string) (ow : oworld W) (processed : list imagen)
    (ow' : oworld W) :
  process_plant_images source_folder plant_id plant_name ow
  = (Ok processed, ow') →
  (∃ files w0 w1,
     os_listdir source_folder w0 = (Ok files, w1)
     ∧ nombre_y_tipo <$> processed
       `sublist_of` take (List.length (filter is_image files))
                      (esperadas plant_id))
  ∧ List.length processed ≤ 8
  ∧ NoDup (filename <$> processed).
Proof.
  unfold process_plant_images.
  intros (creada & ow0 & _ & Hrun)%se_bind_inv.
  apply se_bind_inv in Hrun as (files & ow1 & Hls & Hrun).
  apply se_bind_inv in Hrun as ([] & ow2 & _ & Hrun).
  apply se_bind_inv in Hrun as (processed1 & ow3 & Hprincipal & Hrun).
  apply se_bind_inv in Hrun as (processed2 & ow4 & Hdetalle & Hrun).
  apply se_bind_inv in Hrun as ([] & ow5 & _ & Hrun).
  unfold on_disk in Hls.
  destruct (os_listdir source_folder (disk ow0)) as [[files'|e] w1] eqn:Hls';
    [|done].
  injection Hls as -> _.
  set (images := filter is_image files) in *.
  apply foreach_principal in Hprincipal as (nuevas1 & -> & Hsub1).
  apply foreach_detalle in Hdetalle as (nuevas2 & -> & Hsub2).
  revert Hrun.
  intros [= <- _]. simpl.
  assert (nombre_y_tipo <$> nuevas1 ++ nuevas2
          `sublist_of` take (List.length images) (esperadas plant_id)) as Hsub.
  { rewrite <- esperadas_take, fmap_app. by apply sublist_app. }
  split_and!.
  - by exists files, (disk ow0), w1.
  - apply sublist_length in Hsub.
    rewrite length_fmap, length_take in Hsub. simpl in Hsub. lia.
  - assert (filename <$> nuevas1 ++ nuevas2
            = (nombre_y_tipo <$> nuevas1 ++ nuevas2).*1) as ->.
    { by rewrite <- list_fmap_compose. }
    apply (sublist_NoDup _ (esperadas plant_id).*1);
      [apply (esperadas_NoDup plant_id)|].
    apply fmap_sublist. etrans; [exact Hsub|]. apply sublist_take.
Qed.

(** ** [batch_rename_images] *)

Lemma renombrar_line naming_pattern idx image_path ow :
  ∃ w' l,
    renombrar naming_pattern tt (idx, image_path) ow
    = (Ok tt, OWorld w' (salidas ow ++ [l]))
    ∧ (renombrada_a l = Some (new_name naming_pattern idx)
       ∨ renombrada_a l = None).
Proof.
  unfold renombrar, try_except, mbind, SE_bind, on_disk, print.
  destruct (os_rename _ _ (disk ow)) as [[[]|e] w1]; simpl.
  - eexists _, _. split; [done|]. by left.
  - eexists _, _. split; [done|]. by right.
Qed.

Lemma foreach_renombrar naming_pattern image_files : ∀ start ow,
  ∃ w' lines,
    foreach (renombrar naming_pattern) (enumerate start image_files) tt ow
    = (Ok tt, OWorld w' (salidas ow ++ lines))
    ∧ List.length lines = List.length image_files
    ∧ ∀ i name, renombrada_a <$> lines !! i = Some (Some name) →
        name = new_name naming_pattern (start + i).
Proof.
  induction image_files as [|image_path image_files IH]; intros start ow.
  - exists (disk ow), []. rewrite app_nil_r. by destruct ow.
  - destruct (renombrar_line naming_pattern start image_path ow)
      as (w1 & l & Hstep & Hl).
    destruct (IH (S start) (OWorld w1 (salidas ow ++ [l])))
      as (w2 & lines & Hrest & Hlen & Hnames).
    exists w2, (l :: lines). rewrite enumerate_cons. cbn [foreach].
    unfold mbind, SE_bind. rewrite Hstep, Hrest. cbn [salidas].
    rewrite <- app_assoc. split; [done|]. split; [by simpl; f_equal|].
    intros [|i] name.
    + simpl. intros [= Hname]. rewrite Hname in Hl.
      destruct Hl as [[= ->]|?]; [|done]. f_equal. lia.
    + simpl. intros Hi%Hnames. rewrite Hi. f_equal. lia.
Qed.

(** X17. [batch_rename_images] fails only where [os.walk] fails.  When the
    walk is there it prints one line for every image found, whether
    [os.rename] went well or not, and no two of the lines [old → new]
    have the same new name. *)
Theorem X17_batch_rename_gives_different_names (source_folder : string)
    (naming_pattern : string) (ow : oworld W) :
  match os_walk source_folder (disk ow) with
  | (Ok entries, _) =>
      ∃ w' lines,
        batch_rename_images source_folder naming_pattern ow
        = (Ok tt, OWorld w' (salidas ow
                             ++ [Renombrando source_folder;
                                 Encontradas (List.length lines)]
                             ++ lines))
        ∧ List.length lines = List.length (mjoin (imagenes_de <$> entries))
        ∧ ∀ i j name,
            renombrada_a <$> lines !! i = Some (Some name) →
            renombrada_a <$> lines !! j = Some (Some name) →
            i = j
  | (Raise e, w1) =>
      batch_rename_images source_folder naming_pattern ow
      = (Raise e, OWorld w1 (salidas ow ++ [Renombrando source_folder]))
  end.
Proof.
  destruct (os_walk source_folder (disk ow)) as [[entries|e] w1] eqn:Hwalk.
  - destruct (foreach_renombrar naming_pattern
                (mjoin (imagenes_de <$> entries)) 1
                (OWorld w1 (salidas ow
                   ++ [Renombrando source_folder;
                       Encontradas (List.length
                                      (mjoin (imagenes_de <$> entries)))])))
      as (w' & lines & Hrun & Hlen & Hnames).
    exists w', lines. split_and!; [|done|].
    + unfold batch_rename_images, mbind, SE_bind, print, on_disk.
      cbn [disk salidas]. rewrite Hwalk. cbn [disk salidas].
      rewrite <- app_assoc. cbn [app]. rewrite Hrun, Hlen.
      cbn [salidas]. by rewrite <- app_assoc.
    + intros i j name Hi%Hnames Hj%Hnames. rewrite Hi in Hj.
      apply new_name_inj in Hj. lia.
  - unfold batch_rename_images, mbind, SE_bind, print, on_disk.
    cbn [disk salidas]. by rewrite Hwalk.
Qed.

(** ** [create_folder_structure] *)

Section create_folder_structure_facts.
(** [os.path.exists] reads the disk, and a directory that [os.makedirs]
    has made exists, as does what existed before. *)
Variable existe : string → W → bool.
Hypothesis exists_reads :
  ∀ path w, os_path_exists path w = (Ok (existe path w), w).
Hypothesis makedirs_adds :
  ∀ path w w', os_makedirs path w = (Ok tt, w') →
    existe path w' = true ∧ ∀ q, existe q w = true → existe q w' = true.

Lemma makedirs_if_missing_ok path ow creada ow' :
  makedirs_if_missing path ow = (Ok creada, ow') →
  existe path (disk ow') = true
  ∧ (∀ q, existe q (disk ow) = true → existe q (disk ow') = true)
  ∧ salidas ow' = salidas ow
  ∧ creada = negb (existe path (disk ow)).
Proof.
  unfold makedirs_if_missing, mbind, SE_bind, on_disk.
  rewrite exists_reads. destruct (existe path (disk ow)) eqn:Hex; simpl.
  - by intros [= <- <-].
  - destruct (os_makedirs path (disk ow)) as [[[]|e] w1] eqn:Hmk; [|done].
    apply makedirs_adds in Hmk as [? ?]. by intros [= <- <-].
Qed.

Lemma makedirs_if_missing_there path ow :
  existe path (disk ow) = true →
  makedirs_if_missing path ow = (Ok false, ow).
Proof.
  intros Hex. unfold makedirs_if_missing, mbind, SE_bind, on_disk.
  rewrite exists_reads, Hex. by destruct ow.
Qed.

Lemma foreach_crear_carpeta base_path range : ∀ created ow created' ow',
  foreach (crear_carpeta base_path) range created ow = (Ok created', ow') →
  (∀ i, i ∈ range →
        existe (os_path_join base_path (planta (Z.of_nat i))) (disk ow') = true)
  ∧ (∀ q, existe q (disk ow) = true → existe q (disk ow') = true)
  ∧ salidas ow' = salidas ow
  ∧ ∃ nuevas, created' = created ++ nuevas
              ∧ Forall (λ p, existe p (disk ow) = false) nuevas.
Proof.
  induction range as [|i range IH]; intros created ow created' ow'.
  - intros [= <- <-]. split_and!; [by intros ? ?%elem_of_nil|done|done|].
    exists []. by rewrite app_nil_r.
  - cbn [foreach]. unfold mbind, SE_bind.
    destruct (crear_carpeta base_path created i ow)
      as [[created1|e] ow1] eqn:Hstep; [|done].
    intros (Hall & Hmono & Hout & nuevas & -> & Hnew)%IH.
    unfold crear_carpeta, mbind, SE_bind in Hstep.
    destruct (makedirs_if_missing _ ow) as [[creada|e] ow0] eqn:Hmk; [|done].
    apply makedirs_if_missing_ok in Hmk as (Hex & Hmono0 & Hout0 & Hcreada).
    assert (ow0 = ow1) as -> by (by destruct creada; injection Hstep).
    assert (Forall (λ p, existe p (disk ow) = false) nuevas) as Hnew0.
    { eapply Forall_impl; [exact Hnew|]. simpl. intros p Hp.
      destruct (existe p (disk ow)) eqn:Hp0; [|done].
      apply Hmono0 in Hp0. congruence. }
    split_and!.
    + intros j [->|Hj]%elem_of_cons; [by apply Hmono|by apply Hall].
    + auto.
    + congruence.
    + destruct creada; injection Hstep as <-.
      * eexists (_ :: nuevas). rewrite <- app_assoc. split; [done|].
        constructor; [|done]. by destruct (existe _ (disk ow)).
      * by exists nuevas.
Qed.

Lemma foreach_crear_carpeta_there base_path range : ∀ ow,
  (∀ i, i ∈ range →
        existe (os_path_join base_path (planta (Z.of_nat i))) (disk ow) = true) →
  foreach (crear_carpeta base_path) range [] ow = (Ok [], ow).
Proof.
  induction range as [|i range IH]; intros ow Hall; [done|].
  cbn [foreach]. unfold mbind, SE_bind, crear_carpeta at 1.
  unfold mbind, SE_bind.
  rewrite makedirs_if_missing_there by (apply Hall; left).
  simpl. apply IH. intros j Hj. apply Hall. by right.
Qed.

Lemma create_folder_structure_ok base_path num_plants ow created_folders ow' :
  create_folder_structure base_path num_plants ow = (Ok created_folders, ow') →
  existe base_path (disk ow') = true
  ∧ (∀ i, i ∈ range_1 num_plants →
          existe (os_path_join base_path (planta (Z.of_nat i))) (disk ow')
          = true)
  ∧ (∀ q, existe q (disk ow) = true → existe q (disk ow') = true)
  ∧ Forall (λ p, existe p (disk ow) = false) created_folders
  ∧ salidas ow'
    = salidas ow ++ [Creadas (List.length created_folders)].
Proof.
  unfold create_folder_structure, mbind, SE_bind.
  destruct (makedirs_if_missing base_path ow) as [[creada|e] ow0] eqn:Hmk;
    [|done].
  apply makedirs_if_missing_ok in Hmk as (Hex & Hmono0 & Hout0 & _).
  destruct (foreach _ _ _ ow0) as [[created|e] ow1] eqn:Hloop; [|done].
  apply foreach_crear_carpeta in Hloop
    as (Hall & Hmono & Hout & nuevas & -> & Hnew).
  unfold print. intros [= <- <-]. cbn [disk salidas app].
  split_and!; [auto|done|auto| |congruence].
  eapply Forall_impl; [exact Hnew|]. simpl. intros p Hp.
  destruct (existe p (disk ow)) eqn:Hp0; [|done].
  apply Hmono0 in Hp0. congruence.
Qed.

(** X15. When [create_folder_structure] returns, [base_path] and every
    folder [planta_001] to [planta_<num_plants>] exist, whatever existed
    before still exists, and none of the folders it returns existed
    before. *)
Theorem X15_folders_exist_afterwards (base_path : string) (num_plants : Z)
    (ow : oworld W) (created_folders : list string) (ow' : oworld W) :
  create_folder_structure base_path num_plants ow = (Ok created_folders, ow') →
  existe base_path (disk ow') = true
  ∧ (∀ i : Z, (1 ≤ i ≤ num_plants)%Z →
       existe (os_path_join base_path (planta i)) (disk ow') = true)
  ∧ (∀ q, existe q (disk ow) = true → existe q (disk ow') = true)
  ∧ Forall (λ p, existe p (disk ow) = false) created_folders.
Proof.
  intros (Hbase & Hall & Hmono & Hnew & _)%create_folder_structure_ok.
  split_and!; [done| |done|done].
  intros i Hi. rewrite <- (Z2Nat.id i) by lia. apply Hall.
  unfold range_1. apply elem_of_seq. lia.
Qed.

(** X16. A second call creates nothing: after a call that returned, the
    same call returns the empty list, leaves the disk as it is and prints
    that 0 folders were created. *)
Theorem X16_second_call_creates_nothing (base_path : string) (num_plants : Z)
    (ow : oworld W) (created_folders : list string) (ow' : oworld W) :
  create_folder_structure base_path num_plants ow = (Ok created_folders, ow') →
  create_folder_structure base_path num_plants ow'
  = (Ok [], OWorld (disk ow') (salidas ow' ++ [Creadas 0])).
Proof.
  intros (Hbase & Hall & _)%create_folder_structure_ok.
  unfold create_folder_structure, mbind, SE_bind.
  rewrite makedirs_if_missing_there by done.
  by rewrite foreach_crear_carpeta_there.
Qed.

End create_folder_structure_facts.
End organize_facts.

(** ** The disk as a set of paths *)

Lemma paths_exists_reads (path : string) (w : gset string) :
  OptimizeFolder.os_path_exists (OsCollaborators := OrganizeImages.Paths.os)
    path w
  = (Ok (bool_decide (path ∈ w)), w).
Proof. done. Qed.

Lemma paths_makedirs_adds (path : string) (w w' : gset string) :
  OrganizeImages.os_makedirs (DiskCollaborators := OrganizeImages.Paths.fs)
    path w = (Ok tt, w') →
  bool_decide (path ∈ w') = true
  ∧ ∀ q, bool_decide (q ∈ w) = true → bool_decide (q ∈ w') = true.
Proof.
  unfold OrganizeImages.os_makedirs. simpl.
  case_bool_decide; [done|]. intros [= <-]. split.
  - apply bool_decide_eq_true. set_solver.
  - intros q ?%bool_decide_eq_true. apply bool_decide_eq_true. set_solver.
Qed.

Lemma X14_at_most_eight_images_witness :
  let processed :=
    [OrganizeImages.Imagen "planta_007_01.jpg" (0 # 1024) "principal";
     OrganizeImages.Imagen "planta_007_02.jpg" (0 # 1024) "principal"] in
  (∃ files w0 w1,
     OptimizeFolder.os_listdir (OsCollaborators := OrganizeImages.Paths.os)
       "fotos" w0 = (Ok files, w1)
     ∧ OrganizeImages.nombre_y_tipo <$> processed
       `sublist_of` take (List.length (filter OptimizeFolder.is_image files))
                      (OrganizeImages.esperadas 7))
  ∧ List.length processed ≤ 8
  ∧ NoDup (OrganizeImages.filename <$> processed).
Proof.
  intros processed.
  apply (X14_at_most_eight_images (H := OrganizeImages.Paths.codec)
           (H0 := OrganizeImages.Paths.os) (H1 := OrganizeImages.Paths.fs)
           "fotos" 7 None (OrganizeImages.OWorld ∅ []) processed
           (OrganizeImages.process_plant_images
              (H := OrganizeImages.Paths.codec)
              (H0 := OrganizeImages.Paths.os) (H1 := OrganizeImages.Paths.fs)
              "fotos" 7 None (OrganizeImages.OWorld ∅ [])).2).
  vm_compute. reflexivity.
Defined.

Lemma X15_folders_exist_afterwards_witness :
  let existe := λ (path : string) (w : gset string), bool_decide (path ∈ w) in
  let ow' :=
    (OrganizeImages.create_folder_structure
       (H0 := OrganizeImages.Paths.os) (H1 := OrganizeImages.Paths.fs)
       "plantas" 2 (OrganizeImages.OWorld ∅ [])).2 in
  existe "plantas" (OrganizeImages.disk ow') = true
  ∧ (∀ i : Z, (1 ≤ i ≤ 2)%Z →
       existe (OptimizeFolder.os_path_join
                 (OsCollaborators := OrganizeImages.Paths.os)
                 "plantas" (OrganizeImages.planta i))
         (OrganizeImages.disk ow') = true)
  ∧ (∀ q, existe q ∅ = true → existe q (OrganizeImages.disk ow') = true)
  ∧ Forall (λ p, existe p ∅ = false)
      ["plantas/planta_001"; "plantas/planta_002"].
Proof.
  intros existe ow'.
  apply (X15_folders_exist_afterwards
           (H0 := OrganizeImages.Paths.os) (H1 := OrganizeImages.Paths.fs)
           existe paths_exists_reads paths_makedirs_adds
           "plantas" 2 (OrganizeImages.OWorld ∅ [])
           ["plantas/planta_001"; "plantas/planta_002"] ow').
  vm_compute. reflexivity.
Defined.

Lemma X16_second_call_creates_nothing_witness :
  let ow' :=
    (OrganizeImages.create_folder_structure
       (H0 := OrganizeImages.Paths.os) (H1 := OrganizeImages.Paths.fs)
       "plantas" 2 (OrganizeImages.OWorld ∅ [])).2 in
  OrganizeImages.create_folder_structure
    (H0 := OrganizeImages.Paths.os) (H1 := OrganizeImages.Paths.fs)
    "plantas" 2 ow'
  = (Ok [], OrganizeImages.OWorld (OrganizeImages.disk ow')
              (OrganizeImages.salidas ow' ++ [OrganizeImages.Creadas 0])).
Proof.
  intros ow'.
  apply (X16_second_call_creates_nothing
           (H0 := OrganizeImages.Paths.os) (H1 := OrganizeImages.Paths.fs)
           (λ path w, bool_decide (path ∈ w))
           paths_exists_reads paths_makedirs_adds
           "plantas" 2 (OrganizeImages.OWorld ∅ [])
           ["plantas/planta_001"; "plantas/planta_002"] ow').
  vm_compute. reflexivity.
Defined.
